(** * PhishGuard: scan classification, per-user statistics and analytics

    A shallow embedding of the classification-and-aggregation core of the
    PhishGuard API ([app.py], [models.py], [database_utils.py]) together
    with the properties its specification states about it.

    Conventions of the embedding.
    - Python [float] values are rationals ([Q]): comparisons are the exact
      order comparisons, arithmetic is exact.  Decimal literals of the
      source ([0.8], [0.75], ...) are the rationals they denote.  This is
      the exact reading of the code; what is stated on it are counts,
      comparisons, bounds and roundings.  Where a property depends on how
      the arithmetic rounds (the running mean of the statistics update),
      the code is given in IEEE 754 binary64 as well (module [Binary64]).
    - Python [int] values are [Z].
    - Text is a [string] of 8-bit characters.  [str.lower] and [str.strip]
      are modelled on the ASCII range: [A]-[Z] are folded to [a]-[z], and
      the whitespace characters are codes 9-13, 28-31 and 32.
    - The two tables are explicit state: [scan_history] is the list of rows
      in insertion order, [user_statistics] is a finite map keyed by the
      primary key [user_id].
    - Wall-clock readings ([time.time], [datetime.utcnow]) and the request
      metadata are inputs of each operation; a handler reads the clock once.
    - A JSON body is the record of the keys its handler reads, each absent
      ([None]) or present with a value of the documented type.
    - [hashlib.sha256] and the trained model are parameters. *)

From Stdlib Require Import ZArith QArith Qround Qminmax Ascii Lia Lqa.
From Stdlib Require Import Floats Uint63.
From stdpp Require Import gmap strings list fin_maps sorting.

Local Open Scope Z_scope.

(** A decimal literal in [float_scope] is the nearest binary64 value, as a
    [float] literal of Python is. *)
Set Warnings "-inexact-float".

(** ** Python strings *)

Module PyStr.

Definition is_upper (c : ascii) : bool :=
  let n := nat_of_ascii c in (65 <=? n)%nat && (n <=? 90)%nat.

Definition lower_char (c : ascii) : ascii :=
  if is_upper c then ascii_of_nat (nat_of_ascii c + 32) else c.

(** [s.lower()] *)
Fixpoint lower (s : string) : string :=
  match s with
  | EmptyString => EmptyString
  | String c t => String (lower_char c) (lower t)
  end.

Fixpoint startswith (s p : string) {struct p} : bool :=
  match p, s with
  | EmptyString, _ => true
  | String _ _, EmptyString => false
  | String a p', String b s' => Ascii.eqb a b && startswith s' p'
  end.

(** [needle in hay] *)
Fixpoint contains (needle hay : string) : bool :=
  startswith hay needle ||
  match hay with
  | EmptyString => false
  | String _ t => contains needle t
  end.

Definition is_space (c : ascii) : bool :=
  let n := nat_of_ascii c in
  ((9 <=? n)%nat && (n <=? 13)%nat) || ((28 <=? n)%nat && (n <=? 32)%nat).

Fixpoint lstrip (s : string) : string :=
  match s with
  | EmptyString => EmptyString
  | String c t => if is_space c then lstrip t else s
  end.

Fixpoint rstrip (s : string) : string :=
  match s with
  | EmptyString => EmptyString
  | String c t =>
      match rstrip t with
      | EmptyString => if is_space c then EmptyString else String c EmptyString
      | r => String c r
      end
  end.

(** [s.strip()] *)
Definition strip (s : string) : string := rstrip (lstrip s).


(** [s[:n]] for [n >= 0] *)
Fixpoint take (n : nat) (s : string) : string :=
  match n, s with
  | O, _ => EmptyString
  | _, EmptyString => EmptyString
  | S n', String c t => String c (take n' t)
  end.

(** Truth value of an optional string: [None] and [''] are falsy. *)
Definition truthy (o : option string) : bool :=
  match o with
  | None => false
  | Some s => negb (String.eqb s "")
  end.

End PyStr.

(** ** Python floats, in exact arithmetic *)

Module PyFloat.

Definition gt (x y : Q) : bool := negb (Qle_bool x y).
Definition lt (x y : Q) : bool := negb (Qle_bool y x).
Definition ge (x y : Q) : bool := Qle_bool y x.

(** Nearest integer, ties to the even one. *)
Definition round_half_even (x : Q) : Z :=
  let f := Qfloor x in
  match Qcompare (x - inject_Z f) (1 # 2) with
  | Lt => f
  | Gt => f + 1
  | Eq => if Z.even f then f else f + 1
  end.

(** [round(x, ndigits)] for [ndigits >= 0] *)
Definition round (x : Q) (ndigits : nat) : Q :=
  let scale := inject_Z (10 ^ Z.of_nat ndigits) in
  Qred (inject_Z (round_half_even (x * scale)) / scale).

End PyFloat.

(** ** models.py *)

(** One row of [scan_history].  [extracted_features] is never written by
    the code and is left out. *)
Module ScanHistory.
Record row := {
  id : Z;
  user_id : option string;
  device_id : option string;
  message_text : string;
  message_hash : option string;
  is_phishing : bool;
  risk_score : Q;
  confidence_level : option string;
  model_version : option string;
  prediction_time_ms : option Z;
  created_at : Z;
  user_feedback : option string;
  feedback_timestamp : option Z;
  ip_address : option string;
  user_agent : option string
}.
End ScanHistory.

(** One row of [user_statistics]; the integer columns carry their column
    default [0] when a row is created without them. *)
Module UserStatistics.
Record row := {
  user_id : string;
  total_scans : Z;
  phishing_detected : Z;
  safe_messages : Z;
  average_risk_score : Q;
  highest_risk_score : Q;
  first_scan_date : option Z;
  last_scan_date : option Z;
  feedback_provided : Z;
  correct_predictions : Z;
  incorrect_predictions : Z;
  updated_at : option Z
}.
End UserStatistics.

(** The database: both tables. *)
Record Database := {
  scan_history : list ScanHistory.row;
  user_statistics : gmap string UserStatistics.row
}.

Definition empty_database : Database :=
  {| scan_history := []; user_statistics := ∅ |}.

(** ** app.py *)

Module App.

Definition MODEL_VERSION : string := "v1.0.0".

(** The globals [ml_model] and [vectorizer], either of which may be
    [None].  A loaded vectorizer is its [transform([text])], a loaded model
    its [predict_proba(features)[0][1]], the probability of the phishing
    class. *)
Record Globals {Features : Type} := {
  ml_model : option (Features -> Q);
  vectorizer : option (string -> Features)
}.
Arguments Globals : clear implicits.

Section WithModel.
Context {Features : Type}.
(** [hashlib.sha256(text.encode('utf-8')).hexdigest()] *)
Variable sha256_hexdigest : string -> string.

Definition hash_message (text : string) : string := sha256_hexdigest text.

(** [classify_message(text)]; [elapsed_ms] is the measured
    [int((time.time() - start_time) * 1000)]. *)
Definition classify_message (g : Globals Features) (elapsed_ms : Z) (text : string)
  : bool * Q * string * Z :=
  match ml_model g, vectorizer g with
  | Some model, Some vec =>
      let features := vec text in
      let risk_score := model features in
      let is_phishing := PyFloat.gt risk_score (1 # 2) in
      let confidence :=
        if PyFloat.gt risk_score (4 # 5) || PyFloat.lt risk_score (1 # 5) then "HIGH"
        else if PyFloat.gt risk_score (3 # 5) || PyFloat.lt risk_score (2 # 5) then "MEDIUM"
        else "LOW" in
      (is_phishing, risk_score, confidence, elapsed_ms)
  | _, _ =>
      let risk_score :=
        if PyStr.contains "urgent" (PyStr.lower text)
           || PyStr.contains "click" (PyStr.lower text)
        then 3 # 4 else 1 # 4 in
      let is_phishing := PyFloat.gt risk_score (1 # 2) in
      let confidence :=
        if PyFloat.gt risk_score (7 # 10) || PyFloat.lt risk_score (3 # 10)
        then "HIGH" else "MEDIUM" in
      (is_phishing, risk_score, confidence, elapsed_ms)
  end.

(** [update_user_statistics(user_id, is_phishing, risk_score)] on the
    [user_statistics] table; [now] is [datetime.utcnow()]. *)
Definition update_user_statistics (now : Z) (user_id : option string)
    (is_phishing : bool) (risk_score : Q)
    (tbl : gmap string UserStatistics.row) : gmap string UserStatistics.row :=
  match user_id with
  | None => tbl
  | Some u =>
      if String.eqb u "" then tbl else
      match tbl !! u with
      | None =>
          <[u := {| UserStatistics.user_id := u;
                    UserStatistics.total_scans := 1;
                    UserStatistics.phishing_detected := if is_phishing then 1 else 0;
                    UserStatistics.safe_messages := if is_phishing then 0 else 1;
                    UserStatistics.average_risk_score := risk_score;
                    UserStatistics.highest_risk_score := risk_score;
                    UserStatistics.first_scan_date := Some now;
                    UserStatistics.last_scan_date := Some now;
                    UserStatistics.feedback_provided := 0;
                    UserStatistics.correct_predictions := 0;
                    UserStatistics.incorrect_predictions := 0;
                    UserStatistics.updated_at := Some now |}]> tbl
      | Some stats =>
          let total_scans := UserStatistics.total_scans stats + 1 in
          let phishing_detected :=
            if is_phishing then UserStatistics.phishing_detected stats + 1
            else UserStatistics.phishing_detected stats in
          let safe_messages :=
            if is_phishing then UserStatistics.safe_messages stats
            else UserStatistics.safe_messages stats + 1 in
          let average_risk_score :=
            ((UserStatistics.average_risk_score stats * inject_Z (total_scans - 1)
              + risk_score) / inject_Z total_scans)%Q in
          let highest_risk_score :=
            if PyFloat.gt risk_score (UserStatistics.highest_risk_score stats)
            then risk_score else UserStatistics.highest_risk_score stats in
          <[u := {| UserStatistics.user_id := u;
                    UserStatistics.total_scans := total_scans;
                    UserStatistics.phishing_detected := phishing_detected;
                    UserStatistics.safe_messages := safe_messages;
                    UserStatistics.average_risk_score := average_risk_score;
                    UserStatistics.highest_risk_score := highest_risk_score;
                    UserStatistics.first_scan_date := UserStatistics.first_scan_date stats;
                    UserStatistics.last_scan_date := Some now;
                    UserStatistics.feedback_provided := UserStatistics.feedback_provided stats;
                    UserStatistics.correct_predictions :=
                      UserStatistics.correct_predictions stats;
                    UserStatistics.incorrect_predictions :=
                      UserStatistics.incorrect_predictions stats;
                    UserStatistics.updated_at := Some now |}]> tbl
      end
  end.

(** *** POST /api/scan *)

(** The parsed JSON body: the keys the handler reads, [None] for an
    absent key. *)
Record ScanJson := {
  message : option string;
  user_id : option string;
  device_id : option string
}.

(** A request together with what the handler reads from its
    environment: [request.remote_addr], the [User-Agent] header, the
    clock and the measured classification time. *)
Record ScanRequest := {
  scan_json : option ScanJson;
  remote_addr : option string;
  header_user_agent : option string;
  scan_now : Z;
  elapsed_ms : Z
}.

(** JSON responses with their HTTP status. *)
Inductive Response :=
| JsonError (http_status : Z) (error : string) (status : string)
| ScanResult (scan_id : Z) (is_phishing : bool) (risk_score : Q)
    (confidence : string) (message : string) (prediction_time_ms : Z)
    (timestamp : Z)
| FeedbackRecorded (message : string) (status : string).

Definition http_status (r : Response) : Z :=
  match r with
  | JsonError code _ _ => code
  | ScanResult _ _ _ _ _ _ _ => 200
  | FeedbackRecorded _ _ => 200
  end.

(** The identity the store assigns to an inserted row: one more than
    the largest present. *)
Definition next_id (rows : list ScanHistory.row) : Z :=
  fold_right Z.max 0 (map ScanHistory.id rows) + 1.

Definition scan_message (g : Globals Features) (req : ScanRequest) (db : Database)
  : Response * Database :=
  match scan_json req with
  | None => (JsonError 400 "Missing required field: message" "error", db)
  | Some data =>
      match message data with
      | None => (JsonError 400 "Missing required field: message" "error", db)
      | Some raw =>
          let message_text := PyStr.strip raw in
          if String.eqb message_text "" then
            (JsonError 400 "Message cannot be empty" "error", db)
          else
            let user_id := user_id data in
            let device_id := device_id data in
            let '(is_phishing, risk_score, confidence, prediction_time) :=
              classify_message g (elapsed_ms req) message_text in
            let scan_record :=
              {| ScanHistory.id := next_id (scan_history db);
                 ScanHistory.user_id := user_id;
                 ScanHistory.device_id := device_id;
                 ScanHistory.message_text := message_text;
                 ScanHistory.message_hash := Some (hash_message message_text);
                 ScanHistory.is_phishing := is_phishing;
                 ScanHistory.risk_score := risk_score;
                 ScanHistory.confidence_level := Some confidence;
                 ScanHistory.model_version := Some MODEL_VERSION;
                 ScanHistory.prediction_time_ms := Some prediction_time;
                 ScanHistory.created_at := scan_now req;
                 ScanHistory.user_feedback := None;
                 ScanHistory.feedback_timestamp := None;
                 ScanHistory.ip_address := remote_addr req;
                 ScanHistory.user_agent :=
                   Some (PyStr.take 200 (default "" (header_user_agent req))) |} in
            let response_message :=
              if is_phishing then "Phishing detected - High risk!"
              else "Message appears safe" in
            (ScanResult (ScanHistory.id scan_record) is_phishing
               (PyFloat.round risk_score 4) confidence response_message
               prediction_time (ScanHistory.created_at scan_record),
             {| scan_history := scan_history db ++ [scan_record];
                user_statistics :=
                  update_user_statistics (scan_now req) user_id is_phishing
                    risk_score (user_statistics db) |})
      end
  end.

(** *** POST /api/feedback *)

Record FeedbackJson := {
  scan_id : option Z;
  feedback : option string
}.

Record FeedbackRequest := {
  feedback_json : option FeedbackJson;
  feedback_now : Z
}.

Definition truthy_int (o : option Z) : bool :=
  match o with
  | None => false
  | Some n => negb (n =? 0)
  end.

(** [ScanHistory.query.get(scan_id)] *)
Definition query_get (sid : Z) (rows : list ScanHistory.row) : option ScanHistory.row :=
  find (fun r => ScanHistory.id r =? sid) rows.

Definition with_feedback (fb : string) (now : Z) (scan : ScanHistory.row)
  : ScanHistory.row :=
  {| ScanHistory.id := ScanHistory.id scan;
     ScanHistory.user_id := ScanHistory.user_id scan;
     ScanHistory.device_id := ScanHistory.device_id scan;
     ScanHistory.message_text := ScanHistory.message_text scan;
     ScanHistory.message_hash := ScanHistory.message_hash scan;
     ScanHistory.is_phishing := ScanHistory.is_phishing scan;
     ScanHistory.risk_score := ScanHistory.risk_score scan;
     ScanHistory.confidence_level := ScanHistory.confidence_level scan;
     ScanHistory.model_version := ScanHistory.model_version scan;
     ScanHistory.prediction_time_ms := ScanHistory.prediction_time_ms scan;
     ScanHistory.created_at := ScanHistory.created_at scan;
     ScanHistory.user_feedback := Some fb;
     ScanHistory.feedback_timestamp := Some now;
     ScanHistory.ip_address := ScanHistory.ip_address scan;
     ScanHistory.user_agent := ScanHistory.user_agent scan |}.

(** The row returned by [query_get] with its two feedback fields set. *)
Fixpoint set_feedback (sid : Z) (fb : string) (now : Z)
    (rows : list ScanHistory.row) : list ScanHistory.row :=
  match rows with
  | [] => []
  | r :: rest =>
      if ScanHistory.id r =? sid then with_feedback fb now r :: rest
      else r :: set_feedback sid fb now rest
  end.

Definition feedback_stats (fb : string) (now : Z) (stats : UserStatistics.row)
  : UserStatistics.row :=
  {| UserStatistics.user_id := UserStatistics.user_id stats;
     UserStatistics.total_scans := UserStatistics.total_scans stats;
     UserStatistics.phishing_detected := UserStatistics.phishing_detected stats;
     UserStatistics.safe_messages := UserStatistics.safe_messages stats;
     UserStatistics.average_risk_score := UserStatistics.average_risk_score stats;
     UserStatistics.highest_risk_score := UserStatistics.highest_risk_score stats;
     UserStatistics.first_scan_date := UserStatistics.first_scan_date stats;
     UserStatistics.last_scan_date := UserStatistics.last_scan_date stats;
     UserStatistics.feedback_provided := UserStatistics.feedback_provided stats + 1;
     UserStatistics.correct_predictions :=
       if String.eqb fb "CORRECT" then UserStatistics.correct_predictions stats + 1
       else UserStatistics.correct_predictions stats;
     UserStatistics.incorrect_predictions :=
       if String.eqb fb "CORRECT" then UserStatistics.incorrect_predictions stats
       else if String.eqb fb "INCORRECT"
            then UserStatistics.incorrect_predictions stats + 1
            else UserStatistics.incorrect_predictions stats;
     UserStatistics.updated_at := Some now |}.

Definition valid_feedback (fb : string) : bool :=
  bool_decide (fb ∈ ["CORRECT"; "INCORRECT"; "UNSURE"]).

Definition submit_feedback (req : FeedbackRequest) (db : Database)
  : Response * Database :=
  match feedback_json req with
  | None =>
      (* [data.get] on [None] raises; the handler rolls back *)
      (JsonError 500
         "Error submitting feedback: 'NoneType' object has no attribute 'get'"
         "error", db)
  | Some data =>
      if negb (truthy_int (scan_id data)) || negb (PyStr.truthy (feedback data)) then
        (JsonError 400 "Missing required fields: scan_id, feedback" "error", db)
      else
        let sid := default 0 (scan_id data) in
        let fb := default "" (feedback data) in
        if negb (valid_feedback fb) then
          (JsonError 400
             "Invalid feedback value. Must be CORRECT, INCORRECT, or UNSURE"
             "error", db)
        else
          match query_get sid (scan_history db) with
          | None => (JsonError 404 "Scan not found" "not_found", db)
          | Some scan =>
              let rows := set_feedback sid fb (feedback_now req) (scan_history db) in
              let tbl :=
                if PyStr.truthy (ScanHistory.user_id scan) then
                  let u := default "" (ScanHistory.user_id scan) in
                  match user_statistics db !! u with
                  | Some stats =>
                      <[u := feedback_stats fb (feedback_now req) stats]>
                        (user_statistics db)
                  | None => user_statistics db
                  end
                else user_statistics db in
              (FeedbackRecorded "Feedback recorded successfully" "success",
               {| scan_history := rows; user_statistics := tbl |})
          end
  end.

End WithModel.

End App.

(** ** database_utils.py *)

Module AnalyticsEngine.

(** One histogram entry.  The source labels it with the two bounds
    printed to two decimals; the bounds themselves are kept here. *)
Record RiskBin := {
  range : Q * Q;
  count : Z
}.

(** [ScanHistory.query.filter(...).count()] *)
Definition query_count (p : ScanHistory.row -> bool) (rows : list ScanHistory.row) : Z :=
  Z.of_nat (length (List.filter p rows)).

(** [range(bins)] *)
Definition py_range (n : Z) : list Z := map Z.of_nat (seq 0 (Z.to_nat n)).

(** [get_risk_score_distribution(bins)]; [None] is the
    [ZeroDivisionError] of [1.0 / bins] at [bins = 0]. *)
Definition get_risk_score_distribution (bins : Z) (rows : list ScanHistory.row)
  : option (list RiskBin) :=
  if bins =? 0 then None else
  let bin_size := (1 / inject_Z bins)%Q in
  Some (map (fun i =>
               let lower := (inject_Z i * bin_size)%Q in
               let upper := (inject_Z (i + 1) * bin_size)%Q in
               {| range := (lower, upper);
                  count := query_count
                             (fun r => PyFloat.ge (ScanHistory.risk_score r) lower
                                       && PyFloat.lt (ScanHistory.risk_score r) upper)
                             rows |})
            (py_range bins)).

(** The sum of the per-bin counts of a histogram. *)
Definition total_count (hist : list RiskBin) : Z :=
  fold_right Z.add 0 (map count hist).

(** Membership of a score in the bin with index [i] and width [s], and the
    0/1 value of a test. *)
Definition in_bin (s : Q) (i : Z) (x : Q) : bool :=
  PyFloat.ge x (inject_Z i * s) && PyFloat.lt x (inject_Z (i + 1) * s).

Definition indicator (b : bool) : Z := if b then 1 else 0.

Record AccuracyReport := {
  total_feedback : Z;
  correct_predictions : option Z;
  incorrect_predictions : option Z;
  accuracy : option Q;
  message : option string
}.

Definition has_feedback (r : ScanHistory.row) : bool :=
  match ScanHistory.user_feedback r with Some _ => true | None => false end.

Definition feedback_is (kind : string) (r : ScanHistory.row) : bool :=
  match ScanHistory.user_feedback r with
  | Some fb => String.eqb fb kind
  | None => false
  end.

(** [get_model_accuracy_from_feedback()] *)
Definition get_model_accuracy_from_feedback (rows : list ScanHistory.row)
  : AccuracyReport :=
  let total_feedback := query_count has_feedback rows in
  if total_feedback =? 0 then
    {| total_feedback := 0;
       correct_predictions := None;
       incorrect_predictions := None;
       accuracy := None;
       message := Some "No feedback data available" |}
  else
    let correct_predictions := query_count (feedback_is "CORRECT") rows in
    let incorrect_predictions := query_count (feedback_is "INCORRECT") rows in
    let accuracy :=
      if 0 <? correct_predictions + incorrect_predictions
      then (inject_Z correct_predictions
            / inject_Z (correct_predictions + incorrect_predictions))%Q
      else 0%Q in
    {| total_feedback := total_feedback;
       correct_predictions := Some correct_predictions;
       incorrect_predictions := Some incorrect_predictions;
       accuracy := Some (PyFloat.round (accuracy * 100) 2);
       message := None |}.

End AnalyticsEngine.

Module DataManagement.

(** Timestamps count microseconds; [timedelta(days=d)] is [d] days. *)
Definition timedelta_days (d : Z) : Z := d * 86400000000.

(** [delete_old_scans(days)]: the number of deleted rows and the table. *)
Definition delete_old_scans (now days : Z) (db : Database) : Z * Database :=
  let cutoff := now - timedelta_days days in
  let old r := ScanHistory.created_at r <? cutoff in
  (AnalyticsEngine.query_count old (scan_history db),
   {| scan_history := List.filter (fun r => negb (old r)) (scan_history db);
      user_statistics := user_statistics db |}).

Definition anonymized (scan : ScanHistory.row) : ScanHistory.row :=
  {| ScanHistory.id := ScanHistory.id scan;
     ScanHistory.user_id := None;
     ScanHistory.device_id := None;
     ScanHistory.message_text := ScanHistory.message_text scan;
     ScanHistory.message_hash := ScanHistory.message_hash scan;
     ScanHistory.is_phishing := ScanHistory.is_phishing scan;
     ScanHistory.risk_score := ScanHistory.risk_score scan;
     ScanHistory.confidence_level := ScanHistory.confidence_level scan;
     ScanHistory.model_version := ScanHistory.model_version scan;
     ScanHistory.prediction_time_ms := ScanHistory.prediction_time_ms scan;
     ScanHistory.created_at := ScanHistory.created_at scan;
     ScanHistory.user_feedback := ScanHistory.user_feedback scan;
     ScanHistory.feedback_timestamp := ScanHistory.feedback_timestamp scan;
     ScanHistory.ip_address := None;
     ScanHistory.user_agent := None |}.

(** [anonymize_old_data(days)] *)
Definition anonymize_old_data (now days : Z) (db : Database) : Z * Database :=
  let cutoff := now - timedelta_days days in
  let old r := ScanHistory.created_at r <? cutoff in
  (AnalyticsEngine.query_count old (scan_history db),
   {| scan_history := map (fun r => if old r then anonymized r else r) (scan_history db);
      user_statistics := user_statistics db |}).

End DataManagement.

(** ** The operations of the core as one transition system *)

Module Core.
Import App.

Section WithModel.
Context {Features : Type}.
Variable sha256_hexdigest : string -> string.
Variable g : Globals Features.

Inductive Operation :=
| Scan (req : ScanRequest)
| Feedback (req : FeedbackRequest)
| DeleteOldScans (now days : Z)
| AnonymizeOldData (now days : Z).

Definition step (db : Database) (op : Operation) : Database :=
  match op with
  | Scan req => snd (scan_message sha256_hexdigest g req db)
  | Feedback req => snd (submit_feedback req db)
  | DeleteOldScans now days => snd (DataManagement.delete_old_scans now days db)
  | AnonymizeOldData now days => snd (DataManagement.anonymize_old_data now days db)
  end.

Definition run (ops : list Operation) (db : Database) : Database :=
  fold_left step ops db.

(** The response the caller of an HTTP operation receives. *)
Definition respond (db : Database) (op : Operation) : option Response :=
  match op with
  | Scan req => Some (fst (scan_message sha256_hexdigest g req db))
  | Feedback req => Some (fst (submit_feedback req db))
  | DeleteOldScans _ _ => None
  | AnonymizeOldData _ _ => None
  end.

End WithModel.

(** The input errors of the specification: a scan request whose message
    text is missing or empty once stripped; a feedback submission whose
    kind is not one of the three, or that names no existing scan. *)
Definition scan_input_error (req : ScanRequest) : bool :=
  match scan_json req ≫= message with
  | None => true
  | Some raw => String.eqb (PyStr.strip raw) ""
  end.

Definition feedback_kind_ok (req : FeedbackRequest) : bool :=
  match feedback_json req ≫= feedback with
  | None => false
  | Some fb => bool_decide (fb ∈ ["CORRECT"; "INCORRECT"; "UNSURE"])
  end.

Definition feedback_scan_known (req : FeedbackRequest) (db : Database) : bool :=
  match feedback_json req ≫= scan_id with
  | None => false
  | Some sid => existsb (fun r => ScanHistory.id r =? sid) (scan_history db)
  end.

Definition input_error (db : Database) (op : Operation) : bool :=
  match op with
  | Scan req => scan_input_error req
  | Feedback req => negb (feedback_kind_ok req) || negb (feedback_scan_known req db)
  | DeleteOldScans _ _ => false
  | AnonymizeOldData _ _ => false
  end.

(** A scan handed to the statistics update: clock, user, verdict, score. *)
Definition ScanEvent : Type := Z * option string * bool * Q.

Definition record_scan (tbl : gmap string UserStatistics.row) (e : ScanEvent)
  : gmap string UserStatistics.row :=
  let '(now, user_id, is_phishing, risk_score) := e in
  update_user_statistics now user_id is_phishing risk_score tbl.

Definition record_scans (evs : list ScanEvent) (tbl : gmap string UserStatistics.row)
  : gmap string UserStatistics.row :=
  fold_left record_scan evs tbl.

(** The risk scores of the scans of user [u], in order. *)
Definition scores_of (u : string) (evs : list ScanEvent) : list Q :=
  omap (fun e : ScanEvent =>
          let '(_, user_id, _, risk_score) := e in
          if bool_decide (user_id = Some u) then Some risk_score else None) evs.

(** Recomputation from scratch: the sum by direct summation. *)
Definition sum_scores (scores : list Q) : Q := fold_right Qplus 0%Q scores.

Definition mean_scores (scores : list Q) : Q :=
  (sum_scores scores / inject_Z (Z.of_nat (length scores)))%Q.

(** What the row of user [u] records about the scores fed in so far. *)
Definition tracks (u : string) (scores : list Q)
    (tbl : gmap string UserStatistics.row) : Prop :=
  match scores with
  | [] => tbl !! u = None
  | _ :: _ =>
      exists st,
        tbl !! u = Some st
        /\ UserStatistics.total_scans st = Z.of_nat (length scores)
        /\ (UserStatistics.average_risk_score st == mean_scores scores)%Q
        /\ In (UserStatistics.highest_risk_score st) scores
        /\ (forall s, In s scores -> (s <= UserStatistics.highest_risk_score st)%Q)
  end.

(** The counter invariant of the [user_statistics] table. *)
Definition stats_consistent (db : Database) : Prop :=
  forall u st,
    user_statistics db !! u = Some st ->
    UserStatistics.total_scans st
    = UserStatistics.phishing_detected st + UserStatistics.safe_messages st.

(** The three scan counters of a row. *)
Definition scan_counters (st : UserStatistics.row) : Z * Z * Z :=
  (UserStatistics.total_scans st, UserStatistics.phishing_detected st,
   UserStatistics.safe_messages st).

End Core.

(** ** The running mean, in exact and in binary64 arithmetic *)

Module Mean.

(** The arithmetic in which the update of the mean is evaluated. *)
Record Arithmetic (F : Type) := {
  plus : F -> F -> F;
  times : F -> F -> F;
  divide : F -> F -> F;
  of_int : Z -> F
}.
Arguments plus {F} _ _ _.
Arguments times {F} _ _ _.
Arguments divide {F} _ _ _.
Arguments of_int {F} _ _.

(** Exact arithmetic on rationals. *)
Definition exact : Arithmetic Q :=
  {| plus := Qplus; times := Qmult; divide := Qdiv; of_int := inject_Z |}.

(** [(stats.average_risk_score * (stats.total_scans - 1) + risk_score) /
    stats.total_scans], where [total_scans] is the counter after its
    increment. *)
Definition update {F : Type} (a : Arithmetic F) (average_risk_score : F)
    (total_scans : Z) (risk_score : F) : F :=
  divide a (plus a (times a average_risk_score (of_int a (total_scans - 1))) risk_score)
    (of_int a total_scans).

(** One update: the mean and the counter after one more score. *)
Definition step {F : Type} (a : Arithmetic F) (state : F * Z) (risk_score : F) : F * Z :=
  (update a (fst state) (snd state + 1) risk_score, snd state + 1).

(** The mean after the scores [s0 :: rest]: the first scan stores its own
    score, every later scan applies the update. *)
Definition incremental_mean {F : Type} (a : Arithmetic F) (s0 : F) (rest : list F) : F :=
  fst (fold_left (step a) rest (s0, 1)).

End Mean.

(** ** app.py in binary64: the statistics update as the interpreter runs it *)

Module Binary64.

(** [float(n)] for an [int] that fits a machine word ([0 <= n < 2^63]). *)
Definition of_int (n : Z) : float := PrimFloat.of_uint63 (Uint63.of_Z n).

(** IEEE 754 binary64 arithmetic, round to nearest even. *)
Definition arithmetic : Mean.Arithmetic float :=
  {| Mean.plus := PrimFloat.add; Mean.times := PrimFloat.mul;
     Mean.divide := PrimFloat.div; Mean.of_int := of_int |}.

(** The rational a finite float stands for. *)
Definition to_Q (x : float) : option Q :=
  match Prim2SF x with
  | S754_zero _ => Some 0%Q
  | S754_finite s m e =>
      let v := (inject_Z (Z.pos m) * Qpower 2 e)%Q in
      Some (if s then (- v)%Q else v)
  | S754_infinity _ => None
  | S754_nan => None
  end.

(** A row of [user_statistics] with its two [Float] columns in binary64. *)
Record row := {
  user_id : string;
  total_scans : Z;
  phishing_detected : Z;
  safe_messages : Z;
  average_risk_score : float;
  highest_risk_score : float;
  first_scan_date : option Z;
  last_scan_date : option Z;
  feedback_provided : Z;
  correct_predictions : Z;
  incorrect_predictions : Z;
  updated_at : option Z
}.

(** [update_user_statistics(user_id, is_phishing, risk_score)]; [now] is
    [datetime.utcnow()]. *)
Definition update_user_statistics (now : Z) (user : option string)
    (is_phishing : bool) (risk_score : float)
    (tbl : gmap string row) : gmap string row :=
  match user with
  | None => tbl
  | Some u =>
      if String.eqb u "" then tbl else
      match tbl !! u with
      | None =>
          <[u := {| user_id := u;
                    total_scans := 1;
                    phishing_detected := if is_phishing then 1 else 0;
                    safe_messages := if is_phishing then 0 else 1;
                    average_risk_score := risk_score;
                    highest_risk_score := risk_score;
                    first_scan_date := Some now;
                    last_scan_date := Some now;
                    feedback_provided := 0;
                    correct_predictions := 0;
                    incorrect_predictions := 0;
                    updated_at := Some now |}]> tbl
      | Some stats =>
          let total := total_scans stats + 1 in
          let phishing :=
            if is_phishing then phishing_detected stats + 1 else phishing_detected stats in
          let safe :=
            if is_phishing then safe_messages stats else safe_messages stats + 1 in
          let average :=
            PrimFloat.div
              (PrimFloat.add
                 (PrimFloat.mul (average_risk_score stats) (of_int (total - 1)))
                 risk_score)
              (of_int total) in
          let highest :=
            if PrimFloat.ltb (highest_risk_score stats) risk_score
            then risk_score else highest_risk_score stats in
          <[u := {| user_id := u;
                    total_scans := total;
                    phishing_detected := phishing;
                    safe_messages := safe;
                    average_risk_score := average;
                    highest_risk_score := highest;
                    first_scan_date := first_scan_date stats;
                    last_scan_date := Some now;
                    feedback_provided := feedback_provided stats;
                    correct_predictions := correct_predictions stats;
                    incorrect_predictions := incorrect_predictions stats;
                    updated_at := Some now |}]> tbl
      end
  end.

(** A scan handed to the statistics update: clock, user, verdict, score. *)
Definition ScanEvent : Type := Z * option string * bool * float.

Definition record_scan (tbl : gmap string row) (e : ScanEvent) : gmap string row :=
  let '(now, user, is_phishing, risk_score) := e in
  update_user_statistics now user is_phishing risk_score tbl.

Definition record_scans (evs : list ScanEvent) (tbl : gmap string row)
  : gmap string row :=
  fold_left record_scan evs tbl.

(** The risk scores of the scans of user [u], in order. *)
Definition scores_of (u : string) (evs : list ScanEvent) : list float :=
  omap (fun e : ScanEvent =>
          let '(_, user, _, risk_score) := e in
          if bool_decide (user = Some u) then Some risk_score else None) evs.

(** Recomputation from scratch as Python evaluates it:
    [sum(scores) / len(scores)], the additions starting from the integer 0
    and going left to right. *)
Definition direct_mean (scores : list float) : float :=
  PrimFloat.div (fold_left PrimFloat.add scores (of_int 0))
    (of_int (Z.of_nat (length scores))).

(** What the row of user [u] records about the scores fed in so far: none
    without a scan, otherwise their number and the mean the update has
    reached on them. *)
Definition tracks (u : string) (scores : list float) (tbl : gmap string row) : Prop :=
  match scores with
  | [] => tbl !! u = None
  | s0 :: rest =>
      exists st,
        tbl !! u = Some st
        /\ total_scans st = Z.of_nat (length scores)
        /\ average_risk_score st = Mean.incremental_mean arithmetic s0 rest
  end.

End Binary64.

(** ** Sample data *)

Module Sample.

Definition heuristic_only : App.Globals unit :=
  {| App.ml_model := None; App.vectorizer := None |}.

Definition scan (id : Z) (user_id : option string) (risk_score : Q)
    (user_feedback : option string) : ScanHistory.row :=
  {| ScanHistory.id := id;
     ScanHistory.user_id := user_id;
     ScanHistory.device_id := None;
     ScanHistory.message_text := "click here";
     ScanHistory.message_hash := None;
     ScanHistory.is_phishing := PyFloat.gt risk_score (1 # 2);
     ScanHistory.risk_score := risk_score;
     ScanHistory.confidence_level := Some "HIGH";
     ScanHistory.model_version := Some App.MODEL_VERSION;
     ScanHistory.prediction_time_ms := Some 3;
     ScanHistory.created_at := 100;
     ScanHistory.user_feedback := user_feedback;
     ScanHistory.feedback_timestamp := None;
     ScanHistory.ip_address := None;
     ScanHistory.user_agent := None |}.

Definition alice_stats : UserStatistics.row :=
  {| UserStatistics.user_id := "alice";
     UserStatistics.total_scans := 1;
     UserStatistics.phishing_detected := 1;
     UserStatistics.safe_messages := 0;
     UserStatistics.average_risk_score := 3 # 4;
     UserStatistics.highest_risk_score := 3 # 4;
     UserStatistics.first_scan_date := Some 100;
     UserStatistics.last_scan_date := Some 100;
     UserStatistics.feedback_provided := 0;
     UserStatistics.correct_predictions := 0;
     UserStatistics.incorrect_predictions := 0;
     UserStatistics.updated_at := Some 100 |}.

Definition database : Database :=
  {| scan_history := [scan 7 (Some "alice") (3 # 4) None];
     user_statistics := {["alice" := alice_stats]} |}.

Definition feedback_request (sid : Z) (fb : string) : App.FeedbackRequest :=
  {| App.feedback_json := Some {| App.scan_id := Some sid; App.feedback := Some fb |};
     App.feedback_now := 200 |}.

Definition scan_request (text : string) (user_id : option string) : App.ScanRequest :=
  {| App.scan_json :=
       Some {| App.message := Some text; App.user_id := user_id; App.device_id := None |};
     App.remote_addr := None;
     App.header_user_agent := None;
     App.scan_now := 300;
     App.elapsed_ms := 2 |}.

End Sample.

(** ** test_system.py: statistics rebuilt from the log *)

Module TestSystem.

(** [ScanHistory.query.filter_by(user_id=user_id).all()] *)
Definition filter_by_user_id (user_id : string) (rows : list ScanHistory.row)
  : list ScanHistory.row :=
  List.filter (fun s => bool_decide (ScanHistory.user_id s = Some user_id)) rows.

(** [sum(xs)]: the additions start from 0 and go left to right. *)
Definition py_sum (xs : list Q) : Q := fold_left Qplus xs 0%Q.

(** [max(xs)] of a non-empty sequence: the first maximal item. *)
Definition py_max (x : Q) (xs : list Q) : Q :=
  fold_left (fun m y => if PyFloat.gt y m then y else m) xs x.

(** [sum(1 for s in scans if p(s))] *)
Definition count_if (p : ScanHistory.row -> bool) (scans : list ScanHistory.row) : Z :=
  fold_left (fun n s => if p s then n + 1 else n) scans 0.

(** The statistics row [populate_sample_data] builds for a user from the
    user's scans; [None] when there are none ([continue]).  [now] is the
    column default of [updated_at]. *)
Definition user_statistics_from_scans (now : Z) (user_id : string)
    (user_scans : list ScanHistory.row) : option UserStatistics.row :=
  match user_scans with
  | [] => None
  | s0 :: rest =>
      let phishing_count := count_if ScanHistory.is_phishing user_scans in
      let safe_count := Z.of_nat (length user_scans) - phishing_count in
      let avg_risk :=
        (py_sum (map ScanHistory.risk_score user_scans)
         / inject_Z (Z.of_nat (length user_scans)))%Q in
      let max_risk :=
        py_max (ScanHistory.risk_score s0) (map ScanHistory.risk_score rest) in
      let feedback_count :=
        count_if (fun s => PyStr.truthy (ScanHistory.user_feedback s)) user_scans in
      let correct_count := count_if (AnalyticsEngine.feedback_is "CORRECT") user_scans in
      let incorrect_count :=
        count_if (AnalyticsEngine.feedback_is "INCORRECT") user_scans in
      Some {| UserStatistics.user_id := user_id;
              UserStatistics.total_scans := Z.of_nat (length user_scans);
              UserStatistics.phishing_detected := phishing_count;
              UserStatistics.safe_messages := safe_count;
              UserStatistics.average_risk_score := avg_risk;
              UserStatistics.highest_risk_score := max_risk;
              UserStatistics.first_scan_date :=
                Some (fold_left Z.min (map ScanHistory.created_at rest)
                        (ScanHistory.created_at s0));
              UserStatistics.last_scan_date :=
                Some (fold_left Z.max (map ScanHistory.created_at rest)
                        (ScanHistory.created_at s0));
              UserStatistics.feedback_provided := feedback_count;
              UserStatistics.correct_predictions := correct_count;
              UserStatistics.incorrect_predictions := incorrect_count;
              UserStatistics.updated_at := Some now |}
  end.

End TestSystem.

(** ** Invariants of the running system *)

Module Invariants.

(** An operation that is a scan or a feedback submission. *)
Definition is_request (op : Core.Operation) : bool :=
  match op with
  | Core.Scan _ => true
  | Core.Feedback _ => true
  | Core.DeleteOldScans _ _ => false
  | Core.AnonymizeOldData _ _ => false
  end.

(** What a statistics row is compared with: verdict and score of a scan. *)
Definition scored (s : ScanHistory.row) : bool * Q :=
  (ScanHistory.is_phishing s, ScanHistory.risk_score s).

(** The row [st] agrees with the scans [mine] of its user. *)
Definition row_matches (st : UserStatistics.row) (mine : list ScanHistory.row) : Prop :=
  match mine with
  | [] => False
  | s0 :: rest =>
      UserStatistics.total_scans st = Z.of_nat (length mine)
      /\ UserStatistics.phishing_detected st
         = TestSystem.count_if ScanHistory.is_phishing mine
      /\ UserStatistics.safe_messages st
         = Z.of_nat (length mine) - TestSystem.count_if ScanHistory.is_phishing mine
      /\ (UserStatistics.average_risk_score st
          == TestSystem.py_sum (map ScanHistory.risk_score mine)
             / inject_Z (Z.of_nat (length mine)))%Q
      /\ UserStatistics.highest_risk_score st
         = TestSystem.py_max (ScanHistory.risk_score s0) (map ScanHistory.risk_score rest)
  end.

(** Every statistics row agrees with the log, and exactly the users with
    scans in the log have one. *)
Definition log_consistent (db : Database) : Prop :=
  user_statistics db !! "" = None
  /\ forall u, u <> "" ->
       match user_statistics db !! u with
       | None => TestSystem.filter_by_user_id u (scan_history db) = []
       | Some st => row_matches st (TestSystem.filter_by_user_id u (scan_history db))
       end.

End Invariants.

Module Soundness.

(** What every statistics row of a running system satisfies, whatever
    happened to the log: it is stored under its own non-empty user id, it
    records at least one scan, its counters are non-negative and its
    feedback counters are consistent. *)
Definition row_sound (u : string) (st : UserStatistics.row) : Prop :=
  u <> ""
  /\ UserStatistics.user_id st = u
  /\ 1 <= UserStatistics.total_scans st
  /\ 0 <= UserStatistics.phishing_detected st
  /\ 0 <= UserStatistics.safe_messages st
  /\ 0 <= UserStatistics.correct_predictions st
  /\ 0 <= UserStatistics.incorrect_predictions st
  /\ UserStatistics.correct_predictions st + UserStatistics.incorrect_predictions st
     <= UserStatistics.feedback_provided st.

(** The invariant behind [row_sound]: the row tracks some non-empty list of
    scores. *)
Definition row_tracked (tbl : gmap string UserStatistics.row) (u : string)
    (st : UserStatistics.row) : Prop :=
  u <> ""
  /\ UserStatistics.user_id st = u
  /\ (exists scores, scores <> [] /\ Core.tracks u scores tbl)
  /\ 0 <= UserStatistics.phishing_detected st
  /\ 0 <= UserStatistics.safe_messages st
  /\ 0 <= UserStatistics.correct_predictions st
  /\ 0 <= UserStatistics.incorrect_predictions st
  /\ UserStatistics.correct_predictions st + UserStatistics.incorrect_predictions st
     <= UserStatistics.feedback_provided st.

Definition table_tracked (tbl : gmap string UserStatistics.row) : Prop :=
  forall u st, tbl !! u = Some st -> row_tracked tbl u st.

End Soundness.

Module LogInvariant.

(** A string that does not start with whitespace. *)
Definition no_leading_space (s : string) : Prop :=
  match s with
  | EmptyString => True
  | String c _ => PyStr.is_space c = false
  end.

Section WithHash.
Variable sha256_hexdigest : string -> string.

(** What every row of the scan log of a running system satisfies. *)
Definition row_well_formed (r : ScanHistory.row) : Prop :=
  1 <= ScanHistory.id r
  /\ ScanHistory.message_text r <> ""
  /\ PyStr.strip (ScanHistory.message_text r) = ScanHistory.message_text r
  /\ ScanHistory.message_hash r
     = Some (App.hash_message sha256_hexdigest (ScanHistory.message_text r))
  /\ ScanHistory.is_phishing r = PyFloat.gt (ScanHistory.risk_score r) (1 # 2)
  /\ ScanHistory.model_version r = Some App.MODEL_VERSION
  /\ (exists tier, ScanHistory.confidence_level r = Some tier
                   /\ tier ∈ ["HIGH"; "MEDIUM"; "LOW"]).

Definition log_well_formed (rows : list ScanHistory.row) : Prop :=
  Forall row_well_formed rows
  /\ StronglySorted Z.lt (map ScanHistory.id rows).

End WithHash.
End LogInvariant.

(** ** models.py: model metrics *)

Module ModelMetrics.

(** One row of [model_metrics]; dates are timestamps. *)
Record row := {
  id : Z;
  model_version : string;
  total_predictions : Z;
  phishing_predictions : Z;
  safe_predictions : Z;
  true_positives : Z;
  false_positives : Z;
  true_negatives : Z;
  false_negatives : Z;
  precision : option Q;
  recall : option Q;
  f1_score : option Q;
  average_inference_time_ms : option Q;
  min_inference_time_ms : option Z;
  max_inference_time_ms : option Z;
  metric_date : Z;
  created_at : option Z
}.

Definition with_metrics (m : row) (p r f : Q) : row :=
  {| id := id m;
     model_version := model_version m;
     total_predictions := total_predictions m;
     phishing_predictions := phishing_predictions m;
     safe_predictions := safe_predictions m;
     true_positives := true_positives m;
     false_positives := false_positives m;
     true_negatives := true_negatives m;
     false_negatives := false_negatives m;
     precision := Some p;
     recall := Some r;
     f1_score := Some f;
     average_inference_time_ms := average_inference_time_ms m;
     min_inference_time_ms := min_inference_time_ms m;
     max_inference_time_ms := max_inference_time_ms m;
     metric_date := metric_date m;
     created_at := created_at m |}.

(** [calculate_metrics(self)] *)
Definition calculate_metrics (self : row) : row :=
  let precision :=
    if 0 <? true_positives self + false_positives self
    then (inject_Z (true_positives self)
          / inject_Z (true_positives self + false_positives self))%Q
    else 0%Q in
  let recall :=
    if 0 <? true_positives self + false_negatives self
    then (inject_Z (true_positives self)
          / inject_Z (true_positives self + false_negatives self))%Q
    else 0%Q in
  let f1_score :=
    if PyFloat.gt (precision + recall) 0
    then (2 * (precision * recall) / (precision + recall))%Q
    else 0%Q in
  with_metrics self precision recall f1_score.

(** Truth value of an optional float: [None] and zero are falsy. *)
Definition truthy_float (o : option Q) : bool :=
  match o with
  | None => false
  | Some x => negb (Qeq_bool x 0)
  end.

(** The dictionary [to_dict] builds. *)
Record dict := {
  dict_id : Z;
  dict_model_version : string;
  dict_total_predictions : Z;
  dict_phishing_predictions : Z;
  dict_safe_predictions : Z;
  dict_true_positives : Z;
  dict_false_positives : Z;
  dict_true_negatives : Z;
  dict_false_negatives : Z;
  dict_precision : option Q;
  dict_recall : option Q;
  dict_f1_score : option Q;
  dict_average_inference_time_ms : option Q;
  dict_metric_date : option Z;
  dict_created_at : option Z
}.

Definition rounded_if_truthy (o : option Q) (ndigits : nat) : option Q :=
  if truthy_float o then Some (PyFloat.round (default 0%Q o) ndigits) else None.

(** [to_dict(self)]; the dates are kept as timestamps. *)
Definition to_dict (self : row) : dict :=
  {| dict_id := id self;
     dict_model_version := model_version self;
     dict_total_predictions := total_predictions self;
     dict_phishing_predictions := phishing_predictions self;
     dict_safe_predictions := safe_predictions self;
     dict_true_positives := true_positives self;
     dict_false_positives := false_positives self;
     dict_true_negatives := true_negatives self;
     dict_false_negatives := false_negatives self;
     dict_precision := rounded_if_truthy (precision self) 4;
     dict_recall := rounded_if_truthy (recall self) 4;
     dict_f1_score := rounded_if_truthy (f1_score self) 4;
     dict_average_inference_time_ms :=
       rounded_if_truthy (average_inference_time_ms self) 2;
     dict_metric_date := Some (metric_date self);
     dict_created_at := created_at self |}.

End ModelMetrics.

(** ** The query operations of the store (SQLite) *)

Module Sql.

(** [ORDER BY key DESC] on an integer column, as the merge sort by the
    relation "[a] may stand before [b]".  The order of rows with equal keys
    is the engine's choice; nothing below depends on it. *)
Definition desc {A : Type} (key : A -> Z) : relation A := fun a b => key b <= key a.

Definition desc_float {A : Type} (key : A -> Q) : relation A :=
  fun a b => (key b <= key a)%Q.

(** [ORDER BY key] (ascending) on an integer column. *)
Definition asc {A : Type} (key : A -> Z) : relation A := fun a b => key a <= key b.

(** [ORDER BY key DESC] on a nullable integer column: SQLite takes NULL
    for smaller than every value, so the rows without a value come last. *)
Definition desc_nullable {A : Type} (key : A -> option Z) : relation A :=
  fun a b =>
    match key a, key b with
    | _, None => True
    | None, Some _ => False
    | Some x, Some y => y <= x
    end.

(** [LIMIT n]: a negative [n] is no limit. *)
Definition limit {A : Type} (n : Z) (l : list A) : list A :=
  if n <? 0 then l else take (Z.to_nat n) l.

(** [OFFSET n]: a negative [n] skips nothing. *)
Definition offset {A : Type} (n : Z) (l : list A) : list A := drop (Z.to_nat n) l.

End Sql.

#[global] Instance desc_dec {A : Type} (key : A -> Z) : RelDecision (Sql.desc key) :=
  fun a b => decide (key b <= key a).

#[global] Instance asc_dec {A : Type} (key : A -> Z) : RelDecision (Sql.asc key) :=
  fun a b => decide (key a <= key b).

#[global] Instance desc_nullable_dec {A : Type} (key : A -> option Z) :
  RelDecision (Sql.desc_nullable key).
Proof.
  intros a b. unfold Sql.desc_nullable.
  destruct (key a) as [x|], (key b) as [y|].
  - exact (decide (y <= x)).
  - left. exact I.
  - right. intros H. exact H.
  - left. exact I.
Defined.

#[global] Instance desc_float_dec {A : Type} (key : A -> Q) :
  RelDecision (Sql.desc_float key) :=
  fun a b =>
    match Qlt_le_dec (key a) (key b) with
    | left Hlt => right (Qlt_not_le _ _ Hlt)
    | right Hle => left Hle
    end.

(** ** models.py: dictionaries for JSON *)

Module ScanDict.
(** [ScanHistory.to_dict]; [created_at] and [feedback_timestamp] stay
    timestamps, [extracted_features] is left out as in the row. *)
Record t := {
  id : Z;
  user_id : option string;
  device_id : option string;
  message_text : string;
  is_phishing : bool;
  risk_score : Q;
  confidence_level : option string;
  model_version : option string;
  prediction_time_ms : option Z;
  created_at : option Z;
  user_feedback : option string;
  feedback_timestamp : option Z
}.

Definition to_dict (self : ScanHistory.row) : t :=
  {| id := ScanHistory.id self;
     user_id := ScanHistory.user_id self;
     device_id := ScanHistory.device_id self;
     message_text := ScanHistory.message_text self;
     is_phishing := ScanHistory.is_phishing self;
     risk_score := PyFloat.round (ScanHistory.risk_score self) 4;
     confidence_level := ScanHistory.confidence_level self;
     model_version := ScanHistory.model_version self;
     prediction_time_ms := ScanHistory.prediction_time_ms self;
     created_at := Some (ScanHistory.created_at self);
     user_feedback := ScanHistory.user_feedback self;
     feedback_timestamp := ScanHistory.feedback_timestamp self |}.
End ScanDict.

Module StatsDict.
(** [UserStatistics.to_dict] *)
Record t := {
  user_id : string;
  total_scans : Z;
  phishing_detected : Z;
  safe_messages : Z;
  average_risk_score : Q;
  highest_risk_score : Q;
  first_scan_date : option Z;
  last_scan_date : option Z;
  feedback_provided : Z;
  correct_predictions : Z;
  incorrect_predictions : Z;
  updated_at : option Z
}.

Definition to_dict (self : UserStatistics.row) : t :=
  {| user_id := UserStatistics.user_id self;
     total_scans := UserStatistics.total_scans self;
     phishing_detected := UserStatistics.phishing_detected self;
     safe_messages := UserStatistics.safe_messages self;
     average_risk_score := PyFloat.round (UserStatistics.average_risk_score self) 4;
     highest_risk_score := PyFloat.round (UserStatistics.highest_risk_score self) 4;
     first_scan_date := UserStatistics.first_scan_date self;
     last_scan_date := UserStatistics.last_scan_date self;
     feedback_provided := UserStatistics.feedback_provided self;
     correct_predictions := UserStatistics.correct_predictions self;
     incorrect_predictions := UserStatistics.incorrect_predictions self;
     updated_at := UserStatistics.updated_at self |}.
End StatsDict.

(** ** app.py: the read endpoints *)

Module AppQueries.

(** The query parameters of GET /api/history; [limit] and [offset] are
    given by their parsed integer values. *)
Record HistoryArgs := {
  user_id : option string;
  limit : option Z;
  offset : option Z;
  phishing_only : option string
}.

Inductive HistoryResponse :=
| HistoryError (http_status : Z) (error : string) (status : string)
| HistoryPage (scans : list ScanDict.t) (total_count : Z) (limit : Z) (offset : Z)
    (has_more : bool).

(** The query of the handler: the user's scans, phishing only on request. *)
Definition history_query (user_id : string) (phishing_only : bool)
    (rows : list ScanHistory.row) : list ScanHistory.row :=
  let query := TestSystem.filter_by_user_id user_id rows in
  if phishing_only then List.filter ScanHistory.is_phishing query else query.

Definition get_scan_history (args : HistoryArgs) (db : Database) : HistoryResponse :=
  if negb (PyStr.truthy (user_id args)) then
    HistoryError 400 "Missing required parameter: user_id" "error"
  else
    let user_id := default "" (user_id args) in
    let limit := Z.min (default 50 (limit args)) 200 in
    let offset := default 0 (offset args) in
    let phishing_only :=
      String.eqb (PyStr.lower (default "false" (phishing_only args))) "true" in
    let query := history_query user_id phishing_only (scan_history db) in
    let scans :=
      Sql.limit limit
        (Sql.offset offset (merge_sort (Sql.desc ScanHistory.created_at) query)) in
    let total_count := Z.of_nat (length query) in
    HistoryPage (map ScanDict.to_dict scans) total_count limit offset
      (offset + limit <? total_count).

Inductive StatisticsResponse :=
| StatisticsNotFound (error : string) (status : string)
| StatisticsFound (statistics : StatsDict.t) (status : string).

Definition statistics_status (r : StatisticsResponse) : Z :=
  match r with
  | StatisticsNotFound _ _ => 404
  | StatisticsFound _ _ => 200
  end.

Definition get_user_statistics (user_id : string) (db : Database) : StatisticsResponse :=
  match user_statistics db !! user_id with
  | None => StatisticsNotFound "No statistics found for this user" "not_found"
  | Some stats => StatisticsFound (StatsDict.to_dict stats) "success"
  end.

(** [func.avg(column)] over the values that are not NULL: NULL when there
    are none. *)
Definition sql_avg (xs : list Q) : option Q :=
  match xs with
  | [] => None
  | _ :: _ => Some (fold_right Qplus 0 xs / inject_Z (Z.of_nat (length xs)))%Q
  end.

Record Dashboard := {
  total_scans : Z;
  phishing_detected : Z;
  safe_messages : Z;
  phishing_rate : Q;
  average_risk_score : Q;
  scans_last_24h : Z;
  total_users : Z;
  average_inference_time_ms : Q;
  model_version : string;
  timestamp : Z
}.

Definition rounded_or_zero (o : option Q) (ndigits : nat) : Q :=
  if ModelMetrics.truthy_float o then PyFloat.round (default 0%Q o) ndigits else 0%Q.

(** [get_analytics_dashboard()]; [now] is [datetime.utcnow()]. *)
Definition get_analytics_dashboard (now : Z) (db : Database) : Dashboard :=
  let rows := scan_history db in
  let total_scans := Z.of_nat (length rows) in
  let phishing_count := AnalyticsEngine.query_count ScanHistory.is_phishing rows in
  let safe_count := total_scans - phishing_count in
  let avg_risk := sql_avg (map ScanHistory.risk_score rows) in
  let yesterday := now - DataManagement.timedelta_days 1 in
  let recent_scans :=
    AnalyticsEngine.query_count (fun r => yesterday <=? ScanHistory.created_at r) rows in
  let total_users := Z.of_nat (size (user_statistics db)) in
  let avg_inference :=
    sql_avg (map inject_Z (omap ScanHistory.prediction_time_ms rows)) in
  {| total_scans := total_scans;
     phishing_detected := phishing_count;
     safe_messages := safe_count;
     phishing_rate :=
       if 0 <? total_scans
       then PyFloat.round (inject_Z phishing_count / inject_Z total_scans * 100) 2
       else 0%Q;
     average_risk_score := rounded_or_zero avg_risk 4;
     scans_last_24h := recent_scans;
     total_users := total_users;
     average_inference_time_ms := rounded_or_zero avg_inference 2;
     model_version := App.MODEL_VERSION;
     timestamp := now |}.

End AppQueries.

(** ** database_utils.py: queries *)

Module DatabaseQueries.

Definition timedelta_hours (h : Z) : Z := h * 3600000000.

(** [get_recent_scans(hours, limit)] *)
Definition get_recent_scans (now hours limit : Z) (rows : list ScanHistory.row)
  : list ScanHistory.row :=
  let cutoff_time := now - timedelta_hours hours in
  Sql.limit limit
    (merge_sort (Sql.desc ScanHistory.created_at)
       (List.filter (fun r => cutoff_time <=? ScanHistory.created_at r) rows)).

(** [get_high_risk_scans(risk_threshold, limit)] *)
Definition get_high_risk_scans (risk_threshold : Q) (limit : Z)
    (rows : list ScanHistory.row) : list ScanHistory.row :=
  Sql.limit limit
    (merge_sort (Sql.desc_float ScanHistory.risk_score)
       (List.filter (fun r => PyFloat.ge (ScanHistory.risk_score r) risk_threshold) rows)).


(** One row of the duplicate report. *)
Record DuplicateGroup := {
  message_hash : option string;
  count : Z;
  first_scan : Z
}.

(** The rows of one group of [GROUP BY message_hash]. *)
Definition group_of (h : option string) (rows : list ScanHistory.row)
  : list ScanHistory.row :=
  List.filter (fun r => bool_decide (ScanHistory.message_hash r = h)) rows.

(** [func.min(created_at)] over a group with first row [r0]. *)
Definition min_created_at (r0 : ScanHistory.row) (rest : list ScanHistory.row) : Z :=
  fold_right Z.min (ScanHistory.created_at r0) (map ScanHistory.created_at rest).

(** The groups of [GROUP BY message_hash], one per distinct hash. *)
Definition groups (rows : list ScanHistory.row) : list DuplicateGroup :=
  omap (fun h =>
          match group_of h rows with
          | [] => None
          | r0 :: rest =>
              Some {| message_hash := h;
                      count := Z.of_nat (length (r0 :: rest));
                      first_scan := min_created_at r0 rest |}
          end)
       (remove_dups (map ScanHistory.message_hash rows)).

(** [get_duplicate_scans(user_id, limit)] *)
Definition get_duplicate_scans (user_id : option string) (limit : Z)
    (rows : list ScanHistory.row) : list DuplicateGroup :=
  let query :=
    if PyStr.truthy user_id
    then TestSystem.filter_by_user_id (default "" user_id) rows
    else rows in
  Sql.limit limit
    (merge_sort (Sql.desc count)
       (List.filter (fun grp => 1 <? count grp) (groups query))).

End DatabaseQueries.

(** ** database_utils.py: further analytics *)

Module Analytics.

(** [get_top_users_by_scans(limit)] over the rows of the statistics
    table, in the order the store enumerates them. *)
Definition get_top_users_by_scans (limit : Z) (tbl : gmap string UserStatistics.row)
  : list UserStatistics.row :=
  Sql.limit limit
    (merge_sort (Sql.desc UserStatistics.total_scans) (map snd (map_to_list tbl))).

Record InferenceTime := {
  average_ms : option Q;
  min_ms : option Z;
  max_ms : option Z;
  total_predictions : Z
}.

(** [func.min] and [func.max] over the values that are not NULL. *)
Definition sql_min (xs : list Z) : option Z :=
  match xs with
  | [] => None
  | x :: rest => Some (fold_right Z.min x rest)
  end.

Definition sql_max (xs : list Z) : option Z :=
  match xs with
  | [] => None
  | x :: rest => Some (fold_right Z.max x rest)
  end.

(** [calculate_average_inference_time()] *)
Definition calculate_average_inference_time (rows : list ScanHistory.row)
  : InferenceTime :=
  let times := omap ScanHistory.prediction_time_ms rows in
  let avg_time := AppQueries.sql_avg (map inject_Z times) in
  {| average_ms := ModelMetrics.rounded_if_truthy avg_time 2;
     min_ms := sql_min times;
     max_ms := sql_max times;
     total_predictions := Z.of_nat (length times) |}.

End Analytics.

(** ** database_utils.py: trends and feedback queries *)

Module Reports.

(** [func.date(created_at)]: the calendar day of a time stamp, as the
    number of the day since the epoch (SQLite returns its ISO text, which
    orders and compares the same way). *)
Definition sql_date (created_at : Z) : Z := created_at / 86400000000.

(** [func.cast(is_phishing, db.Integer)] *)
Definition cast_integer (b : bool) : Z := if b then 1 else 0.

(** [func.sum(column)] over a group of integers. *)
Definition sql_sum (xs : list Z) : Z := fold_right Z.add 0 xs.

Record Trend := {
  date : Z;
  total_scans : Z;
  phishing_count : Z;
  phishing_rate : Q
}.

(** The rows of one group of [GROUP BY scan_date]. *)
Definition on_date (d : Z) (rows : list ScanHistory.row) : list ScanHistory.row :=
  List.filter (fun r => sql_date (ScanHistory.created_at r) =? d) rows.

(** [calculate_phishing_trends(days)] at the time [now]. *)
Definition calculate_phishing_trends (now days : Z) (rows : list ScanHistory.row)
  : list Trend :=
  let cutoff := now - DataManagement.timedelta_days days in
  let recent := List.filter (fun r => cutoff <=? ScanHistory.created_at r) rows in
  let scan_dates :=
    merge_sort (Sql.asc id)
      (remove_dups (map (fun r => sql_date (ScanHistory.created_at r)) recent)) in
  map (fun d =>
         let group := on_date d recent in
         let total_scans := Z.of_nat (length group) in
         let phishing_count :=
           sql_sum (map (fun r => cast_integer (ScanHistory.is_phishing r)) group) in
         {| date := d;
            total_scans := total_scans;
            phishing_count := phishing_count;
            phishing_rate :=
              PyFloat.round (inject_Z phishing_count / inject_Z total_scans * 100) 2 |})
      scan_dates.

(** [get_scans_with_feedback(feedback_type)] *)
Definition get_scans_with_feedback (feedback_type : option string)
    (rows : list ScanHistory.row) : list ScanHistory.row :=
  let query := List.filter AnalyticsEngine.has_feedback rows in
  let query :=
    if PyStr.truthy feedback_type
    then List.filter (AnalyticsEngine.feedback_is (default "" feedback_type)) query
    else query in
  merge_sort (Sql.desc_nullable ScanHistory.feedback_timestamp) query.

End Reports.

(** ** Proof automation *)

(** Closes a branch in which the handler answered with an error although
    the response is assumed to be a success. *)
Ltac refused := cbn; let H := fresh in intros H; discriminate H.

(** * Properties *)

(** ** Comparisons and strings *)

Lemma gt_true (x y : Q) : PyFloat.gt x y = true <-> (y < x)%Q.
Proof.
  unfold PyFloat.gt. rewrite negb_true_iff, <- not_true_iff_false, Qle_bool_iff.
  split; [apply Qnot_le_lt | apply Qlt_not_le].
Qed.

Lemma lt_true (x y : Q) : PyFloat.lt x y = true <-> (x < y)%Q.
Proof. apply (gt_true y x). Qed.

Lemma ge_true (x y : Q) : PyFloat.ge x y = true <-> (y <= x)%Q.
Proof. apply Qle_bool_iff. Qed.

Lemma ge_false (x y : Q) : PyFloat.ge x y = false <-> (x < y)%Q.
Proof.
  unfold PyFloat.ge. rewrite <- not_true_iff_false, Qle_bool_iff.
  split; [apply Qnot_le_lt | apply Qlt_not_le].
Qed.

Lemma gt_false (x y : Q) : PyFloat.gt x y = false <-> (x <= y)%Q.
Proof.
  unfold PyFloat.gt. rewrite negb_false_iff. apply Qle_bool_iff.
Qed.

Lemma lt_false (x y : Q) : PyFloat.lt x y = false <-> (y <= x)%Q.
Proof. apply (gt_false y x). Qed.

Lemma startswith_spec (p s : string) :
  PyStr.startswith s p = true <-> exists post, s = p +:+ post.
Proof.
  revert s. induction p as [|a p IH]; intros s; simpl.
  - split; [intros _; exists s; reflexivity | reflexivity].
  - destruct s as [|b s].
    + split; [discriminate | intros [post H]; discriminate H].
    + rewrite andb_true_iff, Ascii.eqb_eq, IH. split.
      * intros [-> [post ->]]. exists post. reflexivity.
      * intros [post H]. injection H as -> ->. eauto.
Qed.

(** [needle in hay] holds exactly when [needle] occurs as a substring. *)
Lemma contains_spec (needle hay : string) :
  PyStr.contains needle hay = true
  <-> exists pre post, hay = pre +:+ needle +:+ post.
Proof.
  induction hay as [|c hay IH].
  - cbn [PyStr.contains]. rewrite orb_false_r, startswith_spec. split.
    + intros [post H]. exists "", post. exact H.
    + intros [pre [post H]]. destruct pre; [exists post; exact H | discriminate H].
  - cbn [PyStr.contains]. rewrite orb_true_iff, startswith_spec, IH. split.
    + intros [[post H] | [pre [post H]]].
      * exists "", post. exact H.
      * exists (String c pre), post. rewrite H. reflexivity.
    + intros [pre [post H]]. destruct pre as [|c' pre].
      * left. exists post. exact H.
      * right. injection H as -> ->. eauto.
Qed.

(** ** Classifier *)

(** C2. With a model and a vectorizer loaded, the classifier returns the
    model's probability as the risk score, the verdict [risk_score > 0.5],
    and a confidence tier that depends on the score alone: HIGH exactly when
    the score is above 0.8 or below 0.2, MEDIUM exactly when it is not HIGH
    and the score is above 0.6 or below 0.4, LOW exactly on [0.4, 0.6].
    At the boundaries 0.4 and 0.6 the tier is LOW, at 0.2 and 0.8 MEDIUM. *)
Theorem classify_message_model_tiers :
  forall (Features : Type) (model : Features -> Q) (vec : string -> Features)
         (elapsed_ms : Z) (text : string),
    let g := {| App.ml_model := Some model; App.vectorizer := Some vec |} in
    let r := model (vec text) in
    exists (verdict : bool) (conf : string),
      App.classify_message g elapsed_ms text = (verdict, r, conf, elapsed_ms)
      /\ (verdict = true <-> (1 # 2 < r)%Q)
      /\ (conf = "HIGH" <-> (4 # 5 < r)%Q \/ (r < 1 # 5)%Q)
      /\ (conf = "MEDIUM" <->
            ~ ((4 # 5 < r)%Q \/ (r < 1 # 5)%Q) /\ ((3 # 5 < r)%Q \/ (r < 2 # 5)%Q))
      /\ (conf = "LOW" <-> (2 # 5 <= r)%Q /\ (r <= 3 # 5)%Q)
      /\ ((r == 2 # 5)%Q \/ (r == 3 # 5)%Q -> conf = "LOW")
      /\ ((r == 1 # 5)%Q \/ (r == 4 # 5)%Q -> conf = "MEDIUM").
Proof.
  intros Features model vec elapsed_ms text g r.
  unfold App.classify_message. cbn [App.ml_model App.vectorizer g]. fold r.
  eexists _, _. split; [reflexivity |].
  split; [apply gt_true |].
  destruct (PyFloat.gt r (4 # 5)) eqn:H8; [apply gt_true in H8 | apply gt_false in H8];
  destruct (PyFloat.lt r (1 # 5)) eqn:H2; [apply lt_true in H2 | apply lt_false in H2
                                          | apply lt_true in H2 | apply lt_false in H2];
  destruct (PyFloat.gt r (3 # 5)) eqn:H6; [apply gt_true in H6 | apply gt_false in H6
                                          | apply gt_true in H6 | apply gt_false in H6
                                          | apply gt_true in H6 | apply gt_false in H6
                                          | apply gt_true in H6 | apply gt_false in H6];
  destruct (PyFloat.lt r (2 # 5)) eqn:H4;
  (apply lt_true in H4 || apply lt_false in H4);
  cbn [orb];
  repeat split; intros; try discriminate; try reflexivity; try lra;
  try (exfalso; intuition lra); try (intuition lra).
Qed.

(** C3. Without a model (or without a vectorizer) the classifier is the
    heuristic: the risk score is 0.75 when the lowercased text contains
    "urgent" or "click" as a substring and 0.25 otherwise, the verdict is
    [risk_score > 0.5], the confidence is HIGH when the score is above 0.7 or
    below 0.3 and MEDIUM otherwise, and never LOW.  The text
    "URGENT: click here now" gives (true, 0.75, "HIGH"). *)
Theorem classify_message_heuristic :
  forall (Features : Type) (g : App.Globals Features) (elapsed_ms : Z) (text : string),
    App.ml_model g = None \/ App.vectorizer g = None ->
    exists (verdict : bool) (r : Q) (conf : string),
      App.classify_message g elapsed_ms text = (verdict, r, conf, elapsed_ms)
      /\ (((exists pre post, PyStr.lower text = pre +:+ "urgent" +:+ post)
           \/ (exists pre post, PyStr.lower text = pre +:+ "click" +:+ post))
          -> r = 3 # 4)
      /\ (~ ((exists pre post, PyStr.lower text = pre +:+ "urgent" +:+ post)
             \/ (exists pre post, PyStr.lower text = pre +:+ "click" +:+ post))
          -> r = 1 # 4)
      /\ (verdict = true <-> (1 # 2 < r)%Q)
      /\ (conf = "HIGH" <-> (7 # 10 < r)%Q \/ (r < 3 # 10)%Q)
      /\ (conf = "MEDIUM" <-> ~ ((7 # 10 < r)%Q \/ (r < 3 # 10)%Q))
      /\ conf <> "LOW"
      /\ App.classify_message g elapsed_ms "URGENT: click here now"
         = (true, 3 # 4, "HIGH", elapsed_ms).
Proof.
  intros Features g elapsed_ms text Hnone.
  assert (Hheur : forall t,
    App.classify_message g elapsed_ms t =
    (let risk_score :=
       if PyStr.contains "urgent" (PyStr.lower t) || PyStr.contains "click" (PyStr.lower t)
       then 3 # 4 else 1 # 4 in
     (PyFloat.gt risk_score (1 # 2), risk_score,
      if PyFloat.gt risk_score (7 # 10) || PyFloat.lt risk_score (3 # 10)
      then "HIGH" else "MEDIUM", elapsed_ms))).
  { intros t. unfold App.classify_message.
    destruct Hnone as [-> | ->]; [reflexivity |].
    destruct (App.ml_model g); reflexivity. }
  rewrite !Hheur. clear Hheur.
  destruct (PyStr.contains "urgent" (PyStr.lower text)
            || PyStr.contains "click" (PyStr.lower text)) eqn:Htrig.
  - exists true, (3 # 4), "HIGH". cbn.
    repeat split; try done; try (intros; lra).
    intros Hno. exfalso. apply Hno.
    apply orb_true_iff in Htrig as [H | H]; apply contains_spec in H; tauto.
  - exists false, (1 # 4), "HIGH". cbn.
    repeat split; try done; try (intros; lra).
    intros Hyes. exfalso.
    apply orb_false_iff in Htrig as [Hu Hc].
    destruct Hyes as [H | H]; apply contains_spec in H; congruence.
Qed.

Lemma classify_message_heuristic_witness :
  exists (verdict : bool) (r : Q) (conf : string),
    App.classify_message
      {| App.ml_model := @None (unit -> Q); App.vectorizer := None |} 3
      "Please CLICK the link"
    = (verdict, r, conf, 3) /\ r = 3 # 4 /\ conf <> "LOW".
Proof.
  destruct (classify_message_heuristic unit
              {| App.ml_model := None; App.vectorizer := None |} 3
              "Please CLICK the link" (or_introl eq_refl))
    as (verdict & r & conf & Hrun & Hyes & _ & _ & _ & _ & Hlow & _).
  exists verdict, r, conf. split; [exact Hrun |]. split; [| exact Hlow].
  apply Hyes. right. exists "please ", " the link". reflexivity.
Defined.

(** ** Per-user statistics *)

Section Tracking.
Import Core.

Lemma sum_scores_snoc (scores : list Q) (r : Q) :
  (sum_scores (scores ++ [r]) == sum_scores scores + r)%Q.
Proof.
  induction scores as [|s scores IH]; simpl.
  - ring.
  - rewrite IH. ring.
Qed.

Lemma mean_scores_snoc (scores : list Q) (r avg : Q) :
  scores <> [] ->
  (avg == mean_scores scores)%Q ->
  ((avg * inject_Z (Z.of_nat (length scores) + 1 - 1) + r)
     / inject_Z (Z.of_nat (length scores) + 1)
   == mean_scores (scores ++ [r]))%Q.
Proof.
  intros Hne Havg. unfold mean_scores in *.
  rewrite length_app, Nat2Z.inj_add, sum_scores_snoc, Havg. simpl length.
  replace (Z.of_nat (length scores) + 1 - 1) with (Z.of_nat (length scores)) by lia.
  change (Z.of_nat 1) with 1.
  rewrite inject_Z_plus.
  assert (Hpos : (0 < inject_Z (Z.of_nat (length scores)))%Q).
  { change 0%Q with (inject_Z 0). rewrite <- Zlt_Qlt.
    destruct scores; [done | simpl; lia]. }
  field. split; lra.
Qed.

Lemma record_scan_other (u : string) (e : ScanEvent)
    (tbl : gmap string UserStatistics.row) :
  e.1.1.2 <> Some u -> record_scan tbl e !! u = tbl !! u.
Proof.
  destruct e as [[[now user_id] verdict] r]. simpl. intros Hne.
  unfold App.update_user_statistics.
  destruct user_id as [v|]; [| done].
  destruct (String.eqb v ""); [done |].
  assert (v <> u) by congruence.
  destruct (tbl !! v); by rewrite lookup_insert_ne.
Qed.

Lemma tracks_record_scan (u : string) (e : ScanEvent) (scores : list Q)
    (tbl : gmap string UserStatistics.row) :
  u <> "" ->
  tracks u scores tbl ->
  tracks u (scores ++ scores_of u [e]) (record_scan tbl e).
Proof.
  intros Hu Htr.
  destruct e as [[[now user_id] verdict] r].
  unfold scores_of. cbn [omap list_omap]. case_bool_decide as Huser.
  - subst user_id. simpl. unfold App.update_user_statistics.
    apply String.eqb_neq in Hu. rewrite Hu.
    destruct scores as [|s0 scores].
    + simpl in Htr. rewrite Htr. simpl.
      eexists. split; [apply lookup_insert_eq |]. simpl.
      split; [done |]. split; [unfold mean_scores; simpl; field |].
      split; [by left |]. intros s [<- | []]. apply Qle_refl.
    + destruct Htr as (st & Hst & Htot & Havg & Hin & Hmax).
      rewrite Hst.
      assert (Hcons : exists x l, (s0 :: scores) ++ [r] = x :: l) by (simpl; eauto).
      destruct Hcons as (x & l & Hcons).
      unfold tracks. rewrite Hcons, <- Hcons. clear x l Hcons.
      eexists. split; [apply lookup_insert_eq |]. cbn [UserStatistics.total_scans
        UserStatistics.average_risk_score UserStatistics.highest_risk_score].
      split; [rewrite Htot, length_app; simpl; lia |].
      split; [rewrite Htot; by apply mean_scores_snoc |].
      destruct (PyFloat.gt r (UserStatistics.highest_risk_score st)) eqn:Hgt.
      * apply gt_true in Hgt. split; [apply in_or_app; right; by left |].
        intros s Hs. apply in_app_or in Hs as [Hs | [<- | []]].
        -- apply Qlt_le_weak. eapply Qle_lt_trans; [by apply Hmax | done].
        -- apply Qle_refl.
      * apply gt_false in Hgt. split; [apply in_or_app; by left |].
        intros s Hs. apply in_app_or in Hs as [Hs | [<- | []]]; [by apply Hmax | done].
  - rewrite app_nil_r.
    assert (Hsame : record_scan tbl (now, user_id, verdict, r) !! u = tbl !! u)
      by (apply record_scan_other; simpl; congruence).
    unfold tracks in *. destruct scores; by rewrite Hsame.
Qed.

Lemma scores_of_cons (u : string) (e : ScanEvent) (evs : list ScanEvent) :
  scores_of u (e :: evs) = scores_of u [e] ++ scores_of u evs.
Proof.
  unfold scores_of. cbn [omap list_omap].
  destruct e as [[[now user_id] verdict] r]. by case_bool_decide.
Qed.

Lemma tracks_record_scans (u : string) (evs : list ScanEvent) :
  u <> "" ->
  forall (scores : list Q) (tbl : gmap string UserStatistics.row),
    tracks u scores tbl ->
    tracks u (scores ++ scores_of u evs) (record_scans evs tbl).
Proof.
  intros Hu. induction evs as [|e evs IH]; intros scores tbl Htr.
  - unfold scores_of. simpl. by rewrite app_nil_r.
  - rewrite scores_of_cons, app_assoc. cbn [record_scans fold_left].
    apply IH. by apply tracks_record_scan.
Qed.

End Tracking.

Section MeanTracking.
Import Binary64.

Lemma step_counter {F : Type} (a : Mean.Arithmetic F) (s0 : F) (rest : list F) :
  snd (fold_left (Mean.step a) rest (s0, 1)) = Z.of_nat (length (s0 :: rest)).
Proof.
  induction rest as [|r rest IH] using rev_ind; [done |].
  rewrite fold_left_app. cbn [fold_left Mean.step snd]. rewrite IH.
  cbn [length]. rewrite length_app. cbn [length]. lia.
Qed.

Lemma incremental_mean_snoc {F : Type} (a : Mean.Arithmetic F) (s0 r : F)
    (rest : list F) :
  Mean.incremental_mean a s0 (rest ++ [r])
  = Mean.update a (Mean.incremental_mean a s0 rest)
      (Z.of_nat (length (s0 :: rest)) + 1) r.
Proof.
  unfold Mean.incremental_mean. rewrite fold_left_app.
  cbn [fold_left Mean.step fst]. by rewrite step_counter.
Qed.

(** Evaluated in exact arithmetic, the incremental mean is the sum of the
    scores divided by their number. *)
Lemma incremental_mean_exact (s0 : Q) (rest : list Q) :
  (Mean.incremental_mean Mean.exact s0 rest
   == Core.sum_scores (s0 :: rest) / inject_Z (Z.of_nat (length (s0 :: rest))))%Q.
Proof.
  induction rest as [|r rest IH] using rev_ind.
  - unfold Mean.incremental_mean, Core.sum_scores. cbn. field.
  - rewrite incremental_mean_snoc. unfold Mean.update.
    cbn [Mean.exact Mean.plus Mean.times Mean.divide Mean.of_int].
    exact (mean_scores_snoc (s0 :: rest) r _ ltac:(done) IH).
Qed.

Lemma binary64_record_scan_other (u : string) (e : ScanEvent) (tbl : gmap string row) :
  e.1.1.2 <> Some u -> record_scan tbl e !! u = tbl !! u.
Proof.
  destruct e as [[[now user] verdict] r]. simpl. intros Hne.
  unfold update_user_statistics.
  destruct user as [v|]; [| done].
  destruct (String.eqb v ""); [done |].
  assert (v <> u) by congruence.
  destruct (tbl !! v); by rewrite lookup_insert_ne.
Qed.

Lemma binary64_tracks_record_scan (u : string) (e : ScanEvent) (scores : list float)
    (tbl : gmap string row) :
  u <> "" ->
  tracks u scores tbl ->
  tracks u (scores ++ scores_of u [e]) (record_scan tbl e).
Proof.
  intros Hu Htr.
  destruct e as [[[now user] verdict] r].
  unfold scores_of. cbn [omap list_omap]. case_bool_decide as Huser.
  - subst user. simpl. unfold update_user_statistics.
    apply String.eqb_neq in Hu. rewrite Hu.
    destruct scores as [|s0 rest].
    + simpl in Htr. rewrite Htr. simpl.
      eexists. split; [apply lookup_insert_eq |]. by cbn.
    + destruct Htr as (st & Hst & Htot & Havg).
      rewrite Hst. change ((s0 :: rest) ++ [r]) with (s0 :: (rest ++ [r])).
      cbn [tracks].
      eexists. split; [apply lookup_insert_eq |].
      cbn [total_scans average_risk_score].
      split; [rewrite Htot; cbn [length]; rewrite length_app; cbn [length]; lia |].
      rewrite incremental_mean_snoc, Havg, Htot. reflexivity.
  - rewrite app_nil_r.
    assert (Hsame : record_scan tbl (now, user, verdict, r) !! u = tbl !! u)
      by (apply binary64_record_scan_other; simpl; congruence).
    unfold tracks in *. destruct scores; by rewrite Hsame.
Qed.

Lemma binary64_scores_of_cons (u : string) (e : ScanEvent) (evs : list ScanEvent) :
  scores_of u (e :: evs) = scores_of u [e] ++ scores_of u evs.
Proof.
  unfold scores_of. cbn [omap list_omap].
  destruct e as [[[now user] verdict] r]. by case_bool_decide.
Qed.

Lemma binary64_tracks_record_scans (u : string) (evs : list ScanEvent) :
  u <> "" ->
  forall (scores : list float) (tbl : gmap string row),
    tracks u scores tbl ->
    tracks u (scores ++ scores_of u evs) (record_scans evs tbl).
Proof.
  intros Hu. induction evs as [|e evs IH]; intros scores tbl Htr.
  - unfold scores_of. simpl. by rewrite app_nil_r.
  - rewrite binary64_scores_of_cons, app_assoc. cbn [record_scans fold_left].
    apply IH. by apply binary64_tracks_record_scan.
Qed.

End MeanTracking.

(** C1, as the code has it.  For a user [u] without a row, after any
    sequence of statistics updates in which the scans of [u] are
    interleaved with those of other users, the row of [u] counts the scans
    of [u] and its stored running mean is the incremental update
    [(mean * (total - 1) + score) / total] applied, in binary64, to the
    scores of [u] in their order, starting from the first score: the scans
    of other users do not matter.  Evaluated in exact arithmetic, that
    incremental update yields the sum of the scores by direct summation
    divided by their number. *)
Theorem running_mean_is_incremental_update :
  forall (u : string),
    u <> "" ->
    (forall (evs : list Binary64.ScanEvent) (tbl : gmap string Binary64.row),
       tbl !! u = None ->
       match Binary64.scores_of u evs with
       | [] => Binary64.record_scans evs tbl !! u = None
       | s0 :: rest =>
           exists st,
             Binary64.record_scans evs tbl !! u = Some st
             /\ Binary64.total_scans st = Z.of_nat (length (s0 :: rest))
             /\ Binary64.average_risk_score st
                = Mean.incremental_mean Binary64.arithmetic s0 rest
       end)
    /\ (forall (s0 : Q) (rest : list Q),
          (Mean.incremental_mean Mean.exact s0 rest
           == Core.sum_scores (s0 :: rest)
              / inject_Z (Z.of_nat (length (s0 :: rest))))%Q).
Proof.
  intros u Hu. split.
  - intros evs tbl Hnone.
    pose proof (binary64_tracks_record_scans u evs Hu [] tbl Hnone) as Htr.
    simpl in Htr. unfold Binary64.tracks in Htr.
    destruct (Binary64.scores_of u evs); exact Htr.
  - apply incremental_mean_exact.
Qed.

Lemma running_mean_is_incremental_update_witness :
  (forall (evs : list Binary64.ScanEvent) (tbl : gmap string Binary64.row),
     tbl !! "alice" = None ->
     match Binary64.scores_of "alice" evs with
     | [] => Binary64.record_scans evs tbl !! "alice" = None
     | s0 :: rest =>
         exists st,
           Binary64.record_scans evs tbl !! "alice" = Some st
           /\ Binary64.total_scans st = Z.of_nat (length (s0 :: rest))
           /\ Binary64.average_risk_score st
              = Mean.incremental_mean Binary64.arithmetic s0 rest
     end)
  /\ (forall (s0 : Q) (rest : list Q),
        (Mean.incremental_mean Mean.exact s0 rest
         == Core.sum_scores (s0 :: rest)
            / inject_Z (Z.of_nat (length (s0 :: rest))))%Q).
Proof.
  apply (running_mean_is_incremental_update "alice"). discriminate.
Defined.

(** C1, as the claim states it, fails on the code.  Four scans of one user
    with the scores 0.1, 0.4, 0.4, 0.4, interleaved with a scan of another
    user: the update stores 0.32499999999999996, which is neither what
    [sum(scores) / len(scores)] gives in binary64 (0.325) nor the exact
    arithmetic mean of the four scores. *)
Lemma running_mean_differs_from_direct_summation :
  let scores := [0.1; 0.4; 0.4; 0.4]%float in
  let evs : list Binary64.ScanEvent :=
    [(1, Some "alice", false, 0.1%float); (2, Some "alice", false, 0.4%float);
     (3, Some "bob", true, 0.9%float); (4, Some "alice", false, 0.4%float);
     (5, Some "alice", false, 0.4%float)] in
  Binary64.scores_of "alice" evs = scores
  /\ exists st stored exact_scores,
       Binary64.record_scans evs ∅ !! "alice" = Some st
       /\ Binary64.total_scans st = 4
       /\ Binary64.average_risk_score st = 0.32499999999999996%float
       /\ Binary64.direct_mean scores = 0.325%float
       /\ PrimFloat.eqb (Binary64.average_risk_score st) (Binary64.direct_mean scores)
          = false
       /\ Binary64.to_Q (Binary64.average_risk_score st) = Some stored
       /\ mapM Binary64.to_Q scores = Some exact_scores
       /\ ~ (stored == Core.sum_scores exact_scores / inject_Z 4)%Q.
Proof.
  cbv zeta. split; [reflexivity |].
  eexists _, _, _.
  split; [vm_compute; reflexivity |].
  split; [reflexivity |].
  split; [vm_compute; reflexivity |].
  split; [vm_compute; reflexivity |].
  split; [vm_compute; reflexivity |].
  split; [vm_compute; reflexivity |].
  split; [vm_compute; reflexivity |].
  intros Heq. apply Qeq_bool_iff in Heq. vm_compute in Heq. discriminate Heq.
Qed.

(** In binary64 the stored mean can exceed the stored maximum: three scans
    with the score 0.1 store the mean 0.10000000000000002. *)
Lemma binary64_mean_can_exceed_maximum :
  exists st,
    Binary64.record_scans
      [(1, Some "alice", false, 0.1%float); (2, Some "alice", false, 0.1%float);
       (3, Some "alice", false, 0.1%float)] ∅ !! "alice" = Some st
    /\ Binary64.highest_risk_score st = 0.1%float
    /\ Binary64.average_risk_score st = 0.10000000000000002%float
    /\ PrimFloat.ltb (Binary64.highest_risk_score st) (Binary64.average_risk_score st)
       = true.
Proof.
  eexists. split; [vm_compute; reflexivity |].
  repeat split; vm_compute; reflexivity.
Qed.

(** C7. For a user [u] without a row, after any sequence of statistics
    updates containing at least one scan of [u], the stored highest risk
    score is the maximum of the scores of [u]: it is one of them and no
    score of [u] exceeds it.  A first scan stores its own score; a later
    scan replaces the stored value only when its score is greater. *)
Theorem highest_risk_is_maximum :
  forall (evs : list Core.ScanEvent) (tbl : gmap string UserStatistics.row) (u : string),
    u <> "" ->
    tbl !! u = None ->
    Core.scores_of u evs <> [] ->
    (exists st,
       Core.record_scans evs tbl !! u = Some st
       /\ In (UserStatistics.highest_risk_score st) (Core.scores_of u evs)
       /\ (forall s, In s (Core.scores_of u evs) ->
                     (s <= UserStatistics.highest_risk_score st)%Q))
    /\ (forall now verdict r,
          UserStatistics.highest_risk_score
            <$> App.update_user_statistics now (Some u) verdict r tbl !! u = Some r)
    /\ (forall now verdict r st,
          Core.record_scans evs tbl !! u = Some st ->
          UserStatistics.highest_risk_score
            <$> App.update_user_statistics now (Some u) verdict r
                  (Core.record_scans evs tbl) !! u
          = Some (if PyFloat.gt r (UserStatistics.highest_risk_score st)
                  then r else UserStatistics.highest_risk_score st)).
Proof.
  intros evs tbl u Hu Hnone Hne.
  assert (Hnb : String.eqb u "" = false) by by apply String.eqb_neq.
  split; [| split].
  - pose proof (tracks_record_scans u evs Hu [] tbl Hnone) as Htr.
    simpl in Htr. unfold Core.tracks in Htr.
    destruct (Core.scores_of u evs) as [|s scores]; [done |].
    destruct Htr as (st & Hst & _ & _ & Hin & Hmax). eauto.
  - intros now verdict r. unfold App.update_user_statistics.
    rewrite Hnb, Hnone. by rewrite lookup_insert_eq.
  - intros now verdict r st Hst. unfold App.update_user_statistics.
    rewrite Hnb, Hst. by rewrite lookup_insert_eq.
Qed.

Lemma highest_risk_is_maximum_witness :
  exists st,
    Core.record_scans
      [(1, Some "alice", false, 1 # 4); (2, Some "bob", true, 9 # 10);
       (3, Some "alice", true, 3 # 4); (4, Some "alice", false, 1 # 4)] ∅ !! "alice" = Some st
    /\ In (UserStatistics.highest_risk_score st) [1 # 4; 3 # 4; 1 # 4]%Q
    /\ (forall s, In s [1 # 4; 3 # 4; 1 # 4]%Q ->
                  (s <= UserStatistics.highest_risk_score st)%Q).
Proof.
  apply (highest_risk_is_maximum
           [(1, Some "alice", false, 1 # 4); (2, Some "bob", true, 9 # 10);
            (3, Some "alice", true, 3 # 4); (4, Some "alice", false, 1 # 4)] ∅ "alice").
  - discriminate.
  - reflexivity.
  - vm_compute. discriminate.
Defined.

Lemma update_user_statistics_consistent (now : Z) (user_id : option string)
    (verdict : bool) (r : Q) (db : Database) :
  Core.stats_consistent db ->
  forall u st,
    App.update_user_statistics now user_id verdict r (user_statistics db) !! u = Some st ->
    UserStatistics.total_scans st
    = UserStatistics.phishing_detected st + UserStatistics.safe_messages st.
Proof.
  intros Hinv u st. unfold App.update_user_statistics.
  destruct user_id as [v|]; [| apply Hinv].
  destruct (String.eqb v ""); [apply Hinv |].
  destruct (user_statistics db !! v) as [old|] eqn:Hold.
  - destruct (decide (v = u)) as [-> | Hne].
    + rewrite lookup_insert_eq. intros [= <-]. simpl.
      specialize (Hinv _ _ Hold). destruct verdict; lia.
    + rewrite lookup_insert_ne by done. apply Hinv.
  - destruct (decide (v = u)) as [-> | Hne].
    + rewrite lookup_insert_eq. intros [= <-]. simpl. by destruct verdict.
    + rewrite lookup_insert_ne by done. apply Hinv.
Qed.

Lemma step_consistent {Features : Type} (sha : string -> string)
    (g : App.Globals Features) (db : Database) (op : Core.Operation) :
  Core.stats_consistent db -> Core.stats_consistent (Core.step sha g db op).
Proof.
  intros Hinv. destruct op as [req | req | now days | now days]; simpl; [| | done | done].
  - unfold App.scan_message.
    destruct (App.scan_json req) as [data|]; [| done].
    destruct (App.message data) as [raw|]; [| done].
    destruct (String.eqb (PyStr.strip raw) ""); [done |].
    destruct (App.classify_message g (App.elapsed_ms req) (PyStr.strip raw))
      as [[[verdict r] conf] t].
    intros u st. simpl. by apply update_user_statistics_consistent.
  - unfold App.submit_feedback.
    destruct (App.feedback_json req) as [data|]; [| done].
    destruct (negb (App.truthy_int (App.scan_id data))
              || negb (PyStr.truthy (App.feedback data))); [done |].
    destruct (negb (App.valid_feedback (default "" (App.feedback data)))); [done |].
    destruct (App.query_get _ _) as [scan|]; [| done].
    intros u st. simpl.
    destruct (PyStr.truthy (ScanHistory.user_id scan)); [| apply Hinv].
    destruct (user_statistics db !! default "" (ScanHistory.user_id scan))
      as [old|] eqn:Hold; [| apply Hinv].
    destruct (decide (default "" (ScanHistory.user_id scan) = u)) as [<- | Hne].
    + rewrite lookup_insert_eq. intros [= <-]. simpl. by apply (Hinv _ _ Hold).
    + rewrite lookup_insert_ne by done. apply Hinv.
Qed.

Lemma run_consistent {Features : Type} (sha : string -> string)
    (g : App.Globals Features) (ops : list Core.Operation) :
  forall db, Core.stats_consistent db -> Core.stats_consistent (Core.run sha g ops db).
Proof.
  induction ops as [|op ops IH]; intros db Hinv; [done |].
  simpl. apply IH. by apply step_consistent.
Qed.

(** C6. Every row of [user_statistics] satisfies
    [total_scans = phishing_detected + safe_messages] after any sequence of
    operations of the core (scans, feedback submissions, retention and
    anonymization sweeps) started from a table that satisfies it, the empty
    table in particular.  A first scan creates the row with total 1 and the
    counter of its verdict at 1; a later scan adds 1 to the total and 1 to
    exactly the counter of its verdict. *)
Theorem total_is_phishing_plus_safe :
  forall (Features : Type) (sha : string -> string) (g : App.Globals Features)
         (ops : list Core.Operation) (db : Database),
    Core.stats_consistent db ->
    Core.stats_consistent (Core.run sha g ops db)
    /\ Core.stats_consistent (Core.run sha g ops empty_database)
    /\ (forall now u verdict r,
          u <> "" ->
          exists st',
            App.update_user_statistics now (Some u) verdict r (user_statistics db) !! u
            = Some st'
            /\ Core.scan_counters st'
               = match user_statistics db !! u with
                 | None => (1, if verdict then 1 else 0, if verdict then 0 else 1)
                 | Some st =>
                     (UserStatistics.total_scans st + 1,
                      UserStatistics.phishing_detected st + (if verdict then 1 else 0),
                      UserStatistics.safe_messages st + (if verdict then 0 else 1))
                 end).
Proof.
  intros Features sha g ops db Hinv. split; [| split].
  - by apply run_consistent.
  - apply run_consistent. intros u st Hst. simpl in Hst. by rewrite lookup_empty in Hst.
  - intros now u verdict r Hu. apply String.eqb_neq in Hu.
    unfold App.update_user_statistics. rewrite Hu.
    destruct (user_statistics db !! u) as [st|].
    + eexists. split; [apply lookup_insert_eq |].
      unfold Core.scan_counters. simpl. destruct verdict; rewrite ?Z.add_0_r; reflexivity.
    + eexists. split; [apply lookup_insert_eq |]. reflexivity.
Qed.

Lemma total_is_phishing_plus_safe_witness :
  Core.stats_consistent
    (Core.run (fun s => s)
       {| App.ml_model := @None (unit -> Q); App.vectorizer := None |}
       [Core.Scan {| App.scan_json :=
                       Some {| App.message := Some " click now ";
                               App.user_id := Some "alice";
                               App.device_id := None |};
                     App.remote_addr := None;
                     App.header_user_agent := None;
                     App.scan_now := 10;
                     App.elapsed_ms := 2 |};
        Core.Feedback {| App.feedback_json :=
                           Some {| App.scan_id := Some 1;
                                   App.feedback := Some "INCORRECT" |};
                         App.feedback_now := 11 |};
        Core.AnonymizeOldData 12 0]
       empty_database).
Proof.
  apply (total_is_phishing_plus_safe unit (fun s => s)
           {| App.ml_model := None; App.vectorizer := None |}).
  intros u st Hst. simpl in Hst. rewrite lookup_empty in Hst. discriminate Hst.
Defined.

(** ** Feedback and input errors *)

Lemma query_get_None (sid : Z) (rows : list ScanHistory.row) :
  App.query_get sid rows = None
  <-> existsb (fun r => ScanHistory.id r =? sid) rows = false.
Proof.
  unfold App.query_get. induction rows as [|r rows IH]; simpl; [done |].
  destruct (ScanHistory.id r =? sid); simpl; [split; discriminate | exact IH].
Qed.

(** C8. A feedback submission that succeeds names an existing scan with one
    of the three kinds.  When the scan carries a non-empty user id with a
    statistics row, that row has [feedback_provided] one higher,
    [correct_predictions] one higher exactly for CORRECT,
    [incorrect_predictions] one higher exactly for INCORRECT (so UNSURE
    raises [feedback_provided] alone), and the other rows are untouched.
    When the scan has no user id, or the user has no row, the statistics
    table is unchanged. *)
Theorem submit_feedback_statistics :
  forall (req : App.FeedbackRequest) (db : Database),
    App.http_status (fst (App.submit_feedback req db)) = 200 ->
    exists sid fb scan,
      App.feedback_json req = Some {| App.scan_id := Some sid; App.feedback := Some fb |}
      /\ fb ∈ ["CORRECT"; "INCORRECT"; "UNSURE"]
      /\ App.query_get sid (scan_history db) = Some scan
      /\ let tbl := user_statistics db in
         let tbl' := user_statistics (snd (App.submit_feedback req db)) in
         match ScanHistory.user_id scan with
         | None => tbl' = tbl
         | Some u =>
             if decide (u = "") then tbl' = tbl else
             match tbl !! u with
             | None => tbl' = tbl
             | Some st =>
                 exists st',
                   tbl' !! u = Some st'
                   /\ UserStatistics.feedback_provided st'
                      = UserStatistics.feedback_provided st + 1
                   /\ UserStatistics.correct_predictions st'
                      = UserStatistics.correct_predictions st
                        + (if decide (fb = "CORRECT") then 1 else 0)
                   /\ UserStatistics.incorrect_predictions st'
                      = UserStatistics.incorrect_predictions st
                        + (if decide (fb = "INCORRECT") then 1 else 0)
                   /\ Core.scan_counters st' = Core.scan_counters st
                   /\ (forall v, v <> u -> tbl' !! v = tbl !! v)
             end
         end.
Proof.
  intros req db. unfold App.submit_feedback.
  destruct (App.feedback_json req) as [[osid ofb]|]; [| refused].
  cbn [App.scan_id App.feedback].
  destruct osid as [sid|]; [| refused].
  destruct ofb as [fb|];
    [| cbn [PyStr.truthy negb]; rewrite orb_true_r; refused].
  destruct (negb (App.truthy_int (Some sid)) || negb (PyStr.truthy (Some fb)));
    [refused |].
  cbn [from_option id]. unfold App.valid_feedback.
  case_bool_decide as Hvalid; [| refused]. cbn [negb].
  destruct (App.query_get sid (scan_history db)) as [scan|] eqn:Hscan; [| refused].
  intros _. exists sid, fb, scan.
  split; [reflexivity |]. split; [exact Hvalid |]. split; [exact Hscan |].
  cbn [snd user_statistics].
  destruct (ScanHistory.user_id scan) as [u|]; [| done].
  unfold PyStr.truthy. destruct (decide (u = "")) as [-> | Hu]; [done |].
  apply String.eqb_neq in Hu. rewrite Hu. cbn [negb from_option id].
  destruct (user_statistics db !! u) as [st|]; [| done].
  eexists. split; [apply lookup_insert_eq |].
  unfold App.feedback_stats, Core.scan_counters. simpl.
  assert (Hkind : fb = "CORRECT" \/ fb = "INCORRECT" \/ fb = "UNSURE").
  { rewrite !elem_of_cons, elem_of_nil in Hvalid. tauto. }
  repeat split.
  - destruct Hkind as [-> | [-> | ->]]; simpl; lia.
  - destruct Hkind as [-> | [-> | ->]]; simpl; lia.
  - intros v Hv. by rewrite lookup_insert_ne.
Qed.

Lemma submit_feedback_statistics_witness :
  exists sid fb scan,
    App.feedback_json (Sample.feedback_request 7 "INCORRECT")
    = Some {| App.scan_id := Some sid; App.feedback := Some fb |}
    /\ fb ∈ ["CORRECT"; "INCORRECT"; "UNSURE"]
    /\ App.query_get sid (scan_history Sample.database) = Some scan
    /\ let tbl := user_statistics Sample.database in
       let tbl' :=
         user_statistics
           (snd (App.submit_feedback (Sample.feedback_request 7 "INCORRECT")
                   Sample.database)) in
       match ScanHistory.user_id scan with
       | None => tbl' = tbl
       | Some u =>
           if decide (u = "") then tbl' = tbl else
           match tbl !! u with
           | None => tbl' = tbl
           | Some st =>
               exists st',
                 tbl' !! u = Some st'
                 /\ UserStatistics.feedback_provided st'
                    = UserStatistics.feedback_provided st + 1
                 /\ UserStatistics.correct_predictions st'
                    = UserStatistics.correct_predictions st
                      + (if decide (fb = "CORRECT") then 1 else 0)
                 /\ UserStatistics.incorrect_predictions st'
                    = UserStatistics.incorrect_predictions st
                      + (if decide (fb = "INCORRECT") then 1 else 0)
                 /\ Core.scan_counters st' = Core.scan_counters st
                 /\ (forall v, v <> u -> tbl' !! v = tbl !! v)
           end
       end.
Proof.
  exact (submit_feedback_statistics (Sample.feedback_request 7 "INCORRECT")
           Sample.database eq_refl).
Defined.

(** C9. An operation with an input error (a scan request whose message is
    missing or empty once stripped, a feedback submission whose kind is not
    CORRECT, INCORRECT or UNSURE, or one naming no existing scan) answers
    its caller with an error status and leaves the whole database as it
    was: no scan row is added, no feedback field set, no statistics row
    changed. *)
Theorem input_error_reported_without_mutation :
  forall (Features : Type) (sha : string -> string) (g : App.Globals Features)
         (db : Database) (op : Core.Operation),
    Core.input_error db op = true ->
    Core.step sha g db op = db
    /\ exists code error status,
         Core.respond sha g db op = Some (App.JsonError code error status)
         /\ 400 <= code.
Proof.
  intros Features sha g db op.
  destruct op as [req | req | now days | now days]; simpl; try discriminate.
  - unfold Core.scan_input_error, App.scan_message.
    destruct (App.scan_json req) as [data|]; simpl.
    + destruct (App.message data) as [raw|]; simpl.
      * intros ->. split; [done |]. eexists _, _, _. split; [done | lia].
      * intros _. split; [done |]. eexists _, _, _. split; [done | lia].
    + intros _. split; [done |]. eexists _, _, _. split; [done | lia].
  - unfold Core.feedback_kind_ok, Core.feedback_scan_known, App.submit_feedback.
    destruct (App.feedback_json req) as [[osid ofb]|]; simpl.
    + destruct osid as [sid|]; simpl;
        [| intros _; split; [done |]; eexists _, _, _; split; [done | lia]].
      destruct ofb as [fb|]; simpl;
        [| intros _; rewrite orb_true_r; split; [done |];
           eexists _, _, _; split; [done | lia]].
      destruct (negb (negb (sid =? 0)) || negb (negb (String.eqb fb "")));
        [intros _; split; [done |]; eexists _, _, _; split; [done | lia] |].
      unfold App.valid_feedback.
      destruct (bool_decide (fb ∈ ["CORRECT"; "INCORRECT"; "UNSURE"])); simpl;
        [| intros _; split; [done |]; eexists _, _, _; split; [done | lia]].
      intros Hunknown. apply negb_true_iff, query_get_None in Hunknown.
      rewrite Hunknown. split; [done |]. eexists _, _, _. split; [done | lia].
    + intros _. split; [done |]. eexists _, _, _. split; [done | lia].
Qed.

Lemma input_error_reported_without_mutation_witness :
  Core.step (fun s => s) {| App.ml_model := @None (unit -> Q); App.vectorizer := None |}
    empty_database
    (Core.Feedback {| App.feedback_json :=
                        Some {| App.scan_id := Some 3; App.feedback := Some "CORRECT" |};
                      App.feedback_now := 5 |})
  = empty_database
  /\ exists code error status,
       Core.respond (fun s => s)
         {| App.ml_model := @None (unit -> Q); App.vectorizer := None |}
         empty_database
         (Core.Feedback {| App.feedback_json :=
                             Some {| App.scan_id := Some 3; App.feedback := Some "CORRECT" |};
                           App.feedback_now := 5 |})
       = Some (App.JsonError code error status)
       /\ 400 <= code.
Proof.
  apply (input_error_reported_without_mutation unit (fun s => s)
           {| App.ml_model := None; App.vectorizer := None |} empty_database).
  reflexivity.
Defined.

(** ** Whitespace stripping and the stored scan record *)




Lemma append_cons (c : ascii) (a s : string) : String c a +:+ s = String c (a +:+ s).
Proof. reflexivity. Qed.






(** The row a successful scan request appends. *)
Lemma scan_message_record {Features : Type} (sha : string -> string)
    (g : App.Globals Features) (req : App.ScanRequest) (db : Database)
    (data : App.ScanJson) (raw : string) :
  App.scan_json req = Some data ->
  App.message data = Some raw ->
  PyStr.strip raw <> "" ->
  exists rec,
    scan_history (snd (App.scan_message sha g req db)) = scan_history db ++ [rec]
    /\ ScanHistory.message_text rec = PyStr.strip raw
    /\ ScanHistory.message_hash rec = Some (sha (PyStr.strip raw))
    /\ (ScanHistory.is_phishing rec, ScanHistory.risk_score rec,
        ScanHistory.confidence_level rec)
       = (let '(verdict, r, conf, _) :=
            App.classify_message g (App.elapsed_ms req) (PyStr.strip raw) in
          (verdict, r, Some conf)).
Proof.
  intros Hdata Hmsg Hne. unfold App.scan_message. rewrite Hdata, Hmsg.
  apply String.eqb_neq in Hne. rewrite Hne.
  destruct (App.classify_message g (App.elapsed_ms req) (PyStr.strip raw))
    as [[[verdict r] conf] t].
  eexists. split; [reflexivity |]. by repeat split.
Qed.



(** ** Feedback-derived accuracy *)

Lemma round_half_even_near (y : Q) :
  (inject_Z (PyFloat.round_half_even y) - y <= 1 # 2)%Q
  /\ (y - inject_Z (PyFloat.round_half_even y) <= 1 # 2)%Q.
Proof.
  unfold PyFloat.round_half_even.
  pose proof (Qfloor_le y) as Hlo. pose proof (Qlt_floor y) as Hhi.
  rewrite inject_Z_plus in Hhi. change (inject_Z 1) with 1%Q in Hhi.
  destruct (Qcompare (y - inject_Z (Qfloor y)) (1 # 2)) eqn:Hcmp.
  - apply Qeq_alt in Hcmp.
    destruct (Z.even (Qfloor y)); [| rewrite inject_Z_plus; change (inject_Z 1) with 1%Q];
      split; lra.
  - apply Qlt_alt in Hcmp. split; lra.
  - apply Qgt_alt in Hcmp. rewrite inject_Z_plus. change (inject_Z 1) with 1%Q.
    split; lra.
Qed.



(** [round(x, 2)] is within half a hundredth of [x]. *)
Lemma round_2_near (x : Q) :
  (PyFloat.round x 2 - x <= 1 # 200)%Q /\ (x - PyFloat.round x 2 <= 1 # 200)%Q.
Proof.
  unfold PyFloat.round. rewrite Qred_correct.
  change (inject_Z (10 ^ Z.of_nat 2)) with 100%Q.
  destruct (round_half_even_near (x * 100)) as [H1 H2].
  set (k := inject_Z (PyFloat.round_half_even (x * 100))) in *.
  assert (Hdiv : (k / 100 == k * (1 # 100))%Q) by (field; lra).
  rewrite Hdiv. split; lra.
Qed.

Lemma query_count_nonneg (p : ScanHistory.row -> bool) (rows : list ScanHistory.row) :
  0 <= AnalyticsEngine.query_count p rows.
Proof. unfold AnalyticsEngine.query_count. lia. Qed.


Lemma feedback_is_has_feedback (kind : string) (r : ScanHistory.row) :
  AnalyticsEngine.feedback_is kind r = true -> AnalyticsEngine.has_feedback r = true.
Proof.
  unfold AnalyticsEngine.feedback_is, AnalyticsEngine.has_feedback.
  by destruct (ScanHistory.user_feedback r).
Qed.




(** ** Risk histogram *)

Section Histogram.
Import AnalyticsEngine.

Lemma in_bin_prefix (s x : Q) (k : nat) :
  (0 < s)%Q ->
  fold_right Z.add 0 (map (fun j => indicator (in_bin s (Z.of_nat j) x)) (seq 0 k))
  = indicator (PyFloat.ge x 0 && PyFloat.lt x (inject_Z (Z.of_nat k) * s)).
Proof.
  intros Hs. induction k as [|k IH].
  - cbn [seq map fold_right]. change (Z.of_nat 0) with 0.
    destruct (PyFloat.ge x 0) eqn:Hge; [| reflexivity].
    destruct (PyFloat.lt x (inject_Z 0 * s)) eqn:Hlt; [| reflexivity].
    apply ge_true in Hge. apply lt_true in Hlt.
    change (inject_Z 0) with 0%Q in Hlt. lra.
  - rewrite seq_S, map_app, fold_right_app. simpl.
    assert (Hsum : forall (l : list Z) (a : Z),
               fold_right Z.add a l = fold_right Z.add 0 l + a).
    { induction l as [|z l IHl]; intros a; simpl; [lia | rewrite IHl; lia]. }
    rewrite Hsum, IH. clear Hsum IH. unfold in_bin.
    rewrite Nat2Z.inj_succ, <- Z.add_1_r.
    assert (Hk : (0 <= inject_Z (Z.of_nat k) * s)%Q).
    { apply Qmult_le_0_compat; [| lra].
      change 0%Q with (inject_Z 0). rewrite <- Zle_Qle. lia. }
    assert (Hk1 : (inject_Z (Z.of_nat k + 1) * s == inject_Z (Z.of_nat k) * s + s)%Q).
    { rewrite inject_Z_plus. change (inject_Z 1) with 1%Q. ring. }
    set (a := (inject_Z (Z.of_nat k) * s)%Q) in *.
    set (b := (inject_Z (Z.of_nat k + 1) * s)%Q) in *.
    destruct (PyFloat.ge x 0) eqn:H0; [apply ge_true in H0 | apply ge_false in H0];
    destruct (PyFloat.lt x a) eqn:Ha; [apply lt_true in Ha | apply lt_false in Ha
                                      | apply lt_true in Ha | apply lt_false in Ha];
    destruct (PyFloat.ge x a) eqn:Ha'; [apply ge_true in Ha' | apply ge_false in Ha'
                                       | apply ge_true in Ha' | apply ge_false in Ha'
                                       | apply ge_true in Ha' | apply ge_false in Ha'
                                       | apply ge_true in Ha' | apply ge_false in Ha'];
    destruct (PyFloat.lt x b) eqn:Hb;
    (apply lt_true in Hb || apply lt_false in Hb);
    simpl; try reflexivity; exfalso; lra.
Qed.

Lemma query_count_cons (p : ScanHistory.row -> bool) (r : ScanHistory.row)
    (rows : list ScanHistory.row) :
  query_count p (r :: rows) = indicator (p r) + query_count p rows.
Proof.
  unfold query_count. simpl. destruct (p r); simpl; lia.
Qed.

Lemma sum_counts (p : Z -> ScanHistory.row -> bool) (idx : list Z)
    (rows : list ScanHistory.row) (lo hi : Z -> Q) :
  total_count (map (fun i => {| range := (lo i, hi i); count := query_count (p i) rows |}) idx)
  = fold_right Z.add 0 (map (fun i => query_count (p i) rows) idx).
Proof.
  unfold total_count. rewrite map_map. reflexivity.
Qed.

Lemma sum_query_counts (p : Z -> ScanHistory.row -> bool) (q : ScanHistory.row -> bool)
    (idx : list Z) (rows : list ScanHistory.row) :
  (forall r, fold_right Z.add 0 (map (fun i => indicator (p i r)) idx) = indicator (q r)) ->
  fold_right Z.add 0 (map (fun i => query_count (p i) rows) idx) = query_count q rows.
Proof.
  intros Hrow. induction rows as [|r rows IH].
  - clear Hrow. induction idx as [|i idx IHi]; [reflexivity |].
    cbn [map fold_right]. rewrite IHi. reflexivity.
  - rewrite query_count_cons, <- IH, <- Hrow. clear.
    induction idx as [|i idx IHi]; simpl; [done |].
    rewrite query_count_cons. lia.
Qed.

Lemma lt_proper (x a b : Q) : (a == b)%Q -> PyFloat.lt x a = PyFloat.lt x b.
Proof.
  intros Hab. destruct (PyFloat.lt x b) eqn:Hb.
  - apply lt_true. apply lt_true in Hb. by rewrite Hab.
  - apply lt_false. apply lt_false in Hb. by rewrite Hab.
Qed.

End Histogram.

(** What the histogram computes.  For [bins >= 1] it has [bins] entries
    whose counts add up to the number of records with a score in the
    half-open interval from 0 to 1: every bin, the last one included, is
    half-open. *)
Lemma risk_histogram_counts_below_one :
  forall (bins : Z) (rows : list ScanHistory.row),
    1 <= bins ->
    exists hist,
      AnalyticsEngine.get_risk_score_distribution bins rows = Some hist
      /\ length hist = Z.to_nat bins
      /\ AnalyticsEngine.total_count hist
         = AnalyticsEngine.query_count
             (fun r => PyFloat.ge (ScanHistory.risk_score r) 0
                       && PyFloat.lt (ScanHistory.risk_score r) 1) rows.
Proof.
  intros bins rows Hbins. unfold AnalyticsEngine.get_risk_score_distribution.
  destruct (bins =? 0) eqn:Hz; [apply Z.eqb_eq in Hz; lia |].
  eexists. split; [reflexivity |]. split.
  - unfold AnalyticsEngine.py_range. by rewrite !length_map, length_seq.
  - set (s := (1 / inject_Z bins)%Q).
    assert (Hb : (0 < inject_Z bins)%Q).
    { change 0%Q with (inject_Z 0). rewrite <- Zlt_Qlt. lia. }
    assert (Hs : (0 < s)%Q).
    { unfold s. apply Qlt_shift_div_l; [done | lra]. }
    rewrite (sum_counts
               (fun i r => AnalyticsEngine.in_bin s i (ScanHistory.risk_score r))
               _ rows (fun i => (inject_Z i * s)%Q) (fun i => (inject_Z (i + 1) * s)%Q)).
    apply sum_query_counts. intros r.
    unfold AnalyticsEngine.py_range. rewrite map_map.
    rewrite (in_bin_prefix s (ScanHistory.risk_score r) (Z.to_nat bins) Hs).
    rewrite Z2Nat.id by lia.
    rewrite (lt_proper _ (inject_Z bins * s) 1); [done |].
    unfold s. field. lra.
Qed.

(** C5 at its failing input.  With ten bins, a log of one record whose
    risk score is exactly 1 gets ten bins of count 0: the record is counted
    in no bin, the last bin [0.9, 1.0) being open on the right as all the
    others, and the counts add up to 0 while the log holds one record. *)
Theorem risk_histogram_drops_score_one :
  exists hist,
    AnalyticsEngine.get_risk_score_distribution 10 [Sample.scan 1 (Some "alice") 1 None]
    = Some hist
    /\ length hist = 10%nat
    /\ Forall (fun b => AnalyticsEngine.count b = 0) hist
    /\ AnalyticsEngine.total_count hist = 0
    /\ Z.of_nat (length [Sample.scan 1 (Some "alice") 1 None]) = 1.
Proof.
  destruct (risk_histogram_counts_below_one 10 [Sample.scan 1 (Some "alice") 1 None])
    as (hist & Hhist & Hlen & Htotal); [lia |].
  exists hist. split; [exact Hhist |]. split; [exact Hlen |].
  split; [| split; [exact Htotal | reflexivity]].
  vm_compute in Hhist. injection Hhist as <-.
  repeat constructor.
Qed.

(** * Further properties *)

(** ** Statistics against the log *)

Lemma count_if_snoc (p : ScanHistory.row -> bool) (scans : list ScanHistory.row)
    (s : ScanHistory.row) :
  TestSystem.count_if p (scans ++ [s])
  = TestSystem.count_if p scans + (if p s then 1 else 0).
Proof.
  unfold TestSystem.count_if. rewrite fold_left_app. simpl.
  destruct (p s); lia.
Qed.

Lemma py_sum_snoc (xs : list Q) (x : Q) :
  TestSystem.py_sum (xs ++ [x]) = (TestSystem.py_sum xs + x)%Q.
Proof. unfold TestSystem.py_sum. by rewrite fold_left_app. Qed.

Lemma py_max_snoc (x0 : Q) (xs : list Q) (x : Q) :
  TestSystem.py_max x0 (xs ++ [x])
  = if PyFloat.gt x (TestSystem.py_max x0 xs) then x else TestSystem.py_max x0 xs.
Proof. unfold TestSystem.py_max. by rewrite fold_left_app. Qed.

Lemma filter_by_user_id_snoc (u : string) (rows : list ScanHistory.row)
    (s : ScanHistory.row) :
  TestSystem.filter_by_user_id u (rows ++ [s])
  = TestSystem.filter_by_user_id u rows
    ++ (if bool_decide (ScanHistory.user_id s = Some u) then [s] else []).
Proof. unfold TestSystem.filter_by_user_id. by rewrite List.filter_app. Qed.

Lemma row_matches_snoc (st : UserStatistics.row) (mine : list ScanHistory.row)
    (s : ScanHistory.row) (now : Z) (tbl : gmap string UserStatistics.row) (u : string) :
  u <> "" ->
  tbl !! u = Some st ->
  Invariants.row_matches st mine ->
  exists st',
    App.update_user_statistics now (Some u) (ScanHistory.is_phishing s)
      (ScanHistory.risk_score s) tbl !! u = Some st'
    /\ Invariants.row_matches st' (mine ++ [s]).
Proof.
  intros Hu Hst Hrow. unfold App.update_user_statistics.
  apply String.eqb_neq in Hu. rewrite Hu, Hst.
  eexists. split; [apply lookup_insert_eq |].
  destruct mine as [|s0 rest]; [done |].
  destruct Hrow as (Htot & Hph & Hsafe & Havg & Hmax).
  change ((s0 :: rest) ++ [s]) with (s0 :: (rest ++ [s])).
  unfold Invariants.row_matches.
  cbn [UserStatistics.total_scans UserStatistics.phishing_detected
       UserStatistics.safe_messages UserStatistics.average_risk_score
       UserStatistics.highest_risk_score].
  change (s0 :: (rest ++ [s])) with ((s0 :: rest) ++ [s]).
  set (mine := s0 :: rest) in *.
  rewrite !count_if_snoc, !length_app, !map_app, Nat2Z.inj_add.
  change (map ScanHistory.risk_score [s]) with [ScanHistory.risk_score s].
  rewrite py_sum_snoc.
  change (Z.of_nat (length [s])) with 1.
  split; [lia |]. split; [destruct (ScanHistory.is_phishing s); lia |].
  split; [destruct (ScanHistory.is_phishing s); lia |]. split.
  - rewrite Htot, Havg.
    replace (Z.of_nat (length mine) + 1 - 1) with (Z.of_nat (length mine)) by lia.
    rewrite inject_Z_plus. change (inject_Z 1) with 1%Q.
    assert (Hpos : (0 < inject_Z (Z.of_nat (length mine)))%Q).
    { change 0%Q with (inject_Z 0). rewrite <- Zlt_Qlt. unfold mine. simpl. lia. }
    field. split; lra.
  - rewrite Hmax. symmetry. apply py_max_snoc.
Qed.

Lemma update_user_statistics_other (now : Z) (user_id : option string) (verdict : bool)
    (r : Q) (tbl : gmap string UserStatistics.row) (u : string) :
  user_id <> Some u ->
  App.update_user_statistics now user_id verdict r tbl !! u = tbl !! u.
Proof.
  intros Hne. exact (record_scan_other u (now, user_id, verdict, r) tbl Hne).
Qed.

Lemma update_user_statistics_empty_key (now : Z) (user_id : option string)
    (verdict : bool) (r : Q) (tbl : gmap string UserStatistics.row) :
  tbl !! "" = None ->
  App.update_user_statistics now user_id verdict r tbl !! "" = None.
Proof.
  intros Hnone. unfold App.update_user_statistics.
  destruct user_id as [v|]; [| done].
  destruct (String.eqb v "") eqn:Hv; [done |].
  apply String.eqb_neq in Hv.
  destruct (tbl !! v); by rewrite lookup_insert_ne.
Qed.

Lemma count_if_scored (a b : list ScanHistory.row) :
  map Invariants.scored a = map Invariants.scored b ->
  TestSystem.count_if ScanHistory.is_phishing a
  = TestSystem.count_if ScanHistory.is_phishing b.
Proof.
  unfold TestSystem.count_if. generalize 0.
  revert b. induction a as [|x a IH]; intros [|y b] n Heq; try done.
  simpl in Heq. injection Heq as Hp Hr Hrest. simpl. rewrite Hp. by apply IH.
Qed.

Lemma risk_scored (a b : list ScanHistory.row) :
  map Invariants.scored a = map Invariants.scored b ->
  map ScanHistory.risk_score a = map ScanHistory.risk_score b.
Proof.
  intros Heq. apply (f_equal (map snd)) in Heq. by rewrite !map_map in Heq.
Qed.

Lemma row_matches_scored (st : UserStatistics.row) (a b : list ScanHistory.row) :
  map Invariants.scored a = map Invariants.scored b ->
  Invariants.row_matches st a -> Invariants.row_matches st b.
Proof.
  intros Heq Hrow.
  pose proof (count_if_scored a b Heq) as Hcount.
  pose proof (risk_scored a b Heq) as Hrisk.
  assert (Hlen : length a = length b).
  { apply (f_equal length) in Heq. by rewrite !length_map in Heq. }
  destruct a as [|a0 a], b as [|b0 b]; try done.
  unfold Invariants.row_matches in *.
  rewrite <- Hcount, <- Hlen, <- Hrisk.
  destruct Hrow as (Htot & Hph & Hsafe & Havg & Hmax).
  repeat split; try done.
  rewrite Hmax. simpl in Hrisk. by injection Hrisk as -> ->.
Qed.

Lemma set_feedback_scored (u : string) (sid : Z) (fb : string) (now : Z)
    (rows : list ScanHistory.row) :
  map Invariants.scored (TestSystem.filter_by_user_id u (App.set_feedback sid fb now rows))
  = map Invariants.scored (TestSystem.filter_by_user_id u rows).
Proof.
  induction rows as [|r rows IH]; [done |].
  cbn [App.set_feedback]. destruct (ScanHistory.id r =? sid).
  - unfold TestSystem.filter_by_user_id. cbn [List.filter App.with_feedback ScanHistory.user_id].
    by destruct (bool_decide (ScanHistory.user_id r = Some u)).
  - unfold TestSystem.filter_by_user_id in *. cbn [List.filter].
    destruct (bool_decide (ScanHistory.user_id r = Some u)); cbn [map]; by rewrite IH.
Qed.

Lemma scan_message_log_consistent {Features : Type} (sha : string -> string)
    (g : App.Globals Features) (req : App.ScanRequest) (db : Database) :
  Invariants.log_consistent db ->
  Invariants.log_consistent (snd (App.scan_message sha g req db)).
Proof.
  intros [Hkey Hinv]. unfold App.scan_message.
  destruct (App.scan_json req) as [data|]; [| done].
  destruct (App.message data) as [raw|]; [| done].
  destruct (String.eqb (PyStr.strip raw) ""); [done |].
  destruct (App.classify_message g (App.elapsed_ms req) (PyStr.strip raw))
    as [[[verdict r] conf] t].
  cbn [snd]. split; cbn [scan_history user_statistics].
  { by apply update_user_statistics_empty_key. }
  intros u Hu. specialize (Hinv u Hu).
  rewrite filter_by_user_id_snoc. cbn [ScanHistory.user_id].
  case_bool_decide as Huser.
  - rewrite Huser.
    destruct (user_statistics db !! u) as [st|] eqn:Hst.
    + destruct (row_matches_snoc st _
                  {| ScanHistory.id := App.next_id (scan_history db);
                     ScanHistory.user_id := Some u;
                     ScanHistory.device_id := App.device_id data;
                     ScanHistory.message_text := PyStr.strip raw;
                     ScanHistory.message_hash := Some (App.hash_message sha (PyStr.strip raw));
                     ScanHistory.is_phishing := verdict;
                     ScanHistory.risk_score := r;
                     ScanHistory.confidence_level := Some conf;
                     ScanHistory.model_version := Some App.MODEL_VERSION;
                     ScanHistory.prediction_time_ms := Some t;
                     ScanHistory.created_at := App.scan_now req;
                     ScanHistory.user_feedback := None;
                     ScanHistory.feedback_timestamp := None;
                     ScanHistory.ip_address := App.remote_addr req;
                     ScanHistory.user_agent :=
                       Some (PyStr.take 200 (default "" (App.header_user_agent req))) |}
                  (App.scan_now req) (user_statistics db) u Hu Hst Hinv)
        as (st' & Hst' & Hrow').
      cbn [ScanHistory.is_phishing ScanHistory.risk_score] in Hst'.
      by rewrite Hst'.
    + rewrite Hinv. unfold App.update_user_statistics.
      apply String.eqb_neq in Hu. rewrite Hu, Hst, lookup_insert_eq.
      cbn. unfold TestSystem.count_if, TestSystem.py_sum. cbn.
      repeat split; try (by destruct verdict). field.
  - rewrite update_user_statistics_other by done.
    by rewrite app_nil_r.
Qed.

Lemma submit_feedback_log_consistent (req : App.FeedbackRequest) (db : Database) :
  Invariants.log_consistent db ->
  Invariants.log_consistent (snd (App.submit_feedback req db)).
Proof.
  intros [Hkey Hinv]. unfold App.submit_feedback.
  destruct (App.feedback_json req) as [data|]; [| done].
  destruct (negb (App.truthy_int (App.scan_id data))
            || negb (PyStr.truthy (App.feedback data))); [done |].
  destruct (negb (App.valid_feedback (default "" (App.feedback data)))); [done |].
  destruct (App.query_get _ _) as [scan|]; [| done].
  cbn [snd]. split; cbn [scan_history user_statistics].
  - destruct (PyStr.truthy (ScanHistory.user_id scan)) eqn:Htruthy; [| done].
    destruct (ScanHistory.user_id scan) as [v|]; [| done].
    cbn in Htruthy. apply negb_true_iff, String.eqb_neq in Htruthy. cbn [from_option id].
    destruct (user_statistics db !! v); [by rewrite lookup_insert_ne | done].
  - intros u Hu. specialize (Hinv u Hu).
    assert (Hlog : forall st,
      Invariants.row_matches st (TestSystem.filter_by_user_id u (scan_history db)) ->
      Invariants.row_matches st
        (TestSystem.filter_by_user_id u
           (App.set_feedback (default 0 (App.scan_id data))
              (default "" (App.feedback data)) (App.feedback_now req) (scan_history db)))).
    { intros st. apply row_matches_scored. symmetry. apply set_feedback_scored. }
    assert (Hnil : TestSystem.filter_by_user_id u (scan_history db) = [] ->
      TestSystem.filter_by_user_id u
        (App.set_feedback (default 0 (App.scan_id data))
           (default "" (App.feedback data)) (App.feedback_now req) (scan_history db)) = []).
    { intros Hempty.
      pose proof (set_feedback_scored u (default 0 (App.scan_id data))
                    (default "" (App.feedback data)) (App.feedback_now req)
                    (scan_history db)) as Hsc.
      rewrite Hempty in Hsc. by apply map_eq_nil in Hsc. }
    destruct (PyStr.truthy (ScanHistory.user_id scan)).
    + destruct (user_statistics db !! default "" (ScanHistory.user_id scan))
        as [old|] eqn:Hold.
      * destruct (decide (default "" (ScanHistory.user_id scan) = u)) as [Heq | Hne].
        -- rewrite Heq in *. rewrite lookup_insert_eq. rewrite Hold in Hinv.
           apply Hlog.
           destruct (TestSystem.filter_by_user_id u (scan_history db)); [done |].
           exact Hinv.
        -- rewrite lookup_insert_ne by done.
           destruct (user_statistics db !! u); auto.
      * destruct (user_statistics db !! u); auto.
    + destruct (user_statistics db !! u); auto.
Qed.

Lemma run_log_consistent {Features : Type} (sha : string -> string)
    (g : App.Globals Features) (ops : list Core.Operation) :
  forallb Invariants.is_request ops = true ->
  forall db, Invariants.log_consistent db ->
             Invariants.log_consistent (Core.run sha g ops db).
Proof.
  induction ops as [|op ops IH]; intros Hreq db Hinv; [done |].
  cbn [forallb] in Hreq. apply andb_true_iff in Hreq as [Hop Hops].
  cbn [Core.run fold_left]. apply (IH Hops).
  destruct op; try discriminate Hop; cbn [Core.step].
  - by apply scan_message_log_consistent.
  - by apply submit_feedback_log_consistent.
Qed.

Lemma empty_database_log_consistent : Invariants.log_consistent empty_database.
Proof. split; [done |]. intros u _. simpl. by rewrite lookup_empty. Qed.

(** X1. Starting from the empty database, after any sequence of scan
    requests and feedback submissions the statistics row of a user is the
    row rebuilt from the log: a user (with a non-empty id) has a row
    exactly when the log has scans of that user, and then the scan counters
    and the highest score equal what [populate_sample_data] computes from
    those scans. *)
Theorem statistics_rebuilt_from_log :
  forall (Features : Type) (sha : string -> string) (g : App.Globals Features)
         (ops : list Core.Operation) (now : Z) (u : string),
    forallb Invariants.is_request ops = true ->
    u <> "" ->
    let db := Core.run sha g ops empty_database in
    match TestSystem.user_statistics_from_scans now u
            (TestSystem.filter_by_user_id u (scan_history db)),
          user_statistics db !! u with
    | None, None => True
    | Some fresh, Some st =>
        UserStatistics.total_scans st = UserStatistics.total_scans fresh
        /\ UserStatistics.phishing_detected st = UserStatistics.phishing_detected fresh
        /\ UserStatistics.safe_messages st = UserStatistics.safe_messages fresh
        /\ UserStatistics.highest_risk_score st = UserStatistics.highest_risk_score fresh
    | _, _ => False
    end.
Proof.
  intros Features sha g ops now u Hreq Hu db.
  destruct (run_log_consistent sha g ops Hreq empty_database
              empty_database_log_consistent) as [_ Hinv].
  specialize (Hinv u Hu). fold db in Hinv.
  destruct (user_statistics db !! u) as [st|].
  - destruct (TestSystem.filter_by_user_id u (scan_history db)) as [|s0 rest]; [done |].
    destruct Hinv as (Htot & Hph & Hsafe & Havg & Hmax).
    cbn [TestSystem.user_statistics_from_scans UserStatistics.total_scans
         UserStatistics.phishing_detected UserStatistics.safe_messages
         UserStatistics.highest_risk_score].
    done.
  - by rewrite Hinv.
Qed.

Lemma statistics_rebuilt_from_log_witness :
  let db :=
    Core.run (fun s => s) Sample.heuristic_only
      [Core.Scan (Sample.scan_request " click now " (Some "alice"));
       Core.Scan (Sample.scan_request "hello" (Some "bob"));
       Core.Feedback (Sample.feedback_request 1 "CORRECT");
       Core.Scan (Sample.scan_request "see you at 7" (Some "alice"))]
      empty_database in
  match TestSystem.user_statistics_from_scans 0 "alice"
          (TestSystem.filter_by_user_id "alice" (scan_history db)),
        user_statistics db !! "alice" with
  | None, None => True
  | Some fresh, Some st =>
      UserStatistics.total_scans st = UserStatistics.total_scans fresh
      /\ UserStatistics.phishing_detected st = UserStatistics.phishing_detected fresh
      /\ UserStatistics.safe_messages st = UserStatistics.safe_messages fresh
      /\ UserStatistics.highest_risk_score st = UserStatistics.highest_risk_score fresh
  | _, _ => False
  end.
Proof.
  apply (statistics_rebuilt_from_log unit (fun s => s) Sample.heuristic_only
           [Core.Scan (Sample.scan_request " click now " (Some "alice"));
            Core.Scan (Sample.scan_request "hello" (Some "bob"));
            Core.Feedback (Sample.feedback_request 1 "CORRECT");
            Core.Scan (Sample.scan_request "see you at 7" (Some "alice"))] 0 "alice").
  - reflexivity.
  - discriminate.
Defined.

(** ** Soundness of the statistics rows *)

Lemma sum_scores_bounded (scores : list Q) (h : Q) :
  (forall s, In s scores -> (s <= h)%Q) ->
  (Core.sum_scores scores <= inject_Z (Z.of_nat (length scores)) * h)%Q.
Proof.
  induction scores as [|s scores IH]; intros Hb.
  - change (0 <= 0 * h)%Q. lra.
  - cbn [Core.sum_scores fold_right length]. fold (Core.sum_scores scores).
    rewrite Nat2Z.inj_succ, <- Z.add_1_r, inject_Z_plus.
    change (inject_Z 1) with 1%Q.
    assert (Hs : (s <= h)%Q) by (apply Hb; by left).
    assert (Hrest : (Core.sum_scores scores
                     <= inject_Z (Z.of_nat (length scores)) * h)%Q).
    { apply IH. intros x Hx. apply Hb. by right. }
    lra.
Qed.

Lemma tracks_mean_le_highest (u : string) (scores : list Q)
    (tbl : gmap string UserStatistics.row) (st : UserStatistics.row) :
  scores <> [] ->
  Core.tracks u scores tbl ->
  tbl !! u = Some st ->
  1 <= UserStatistics.total_scans st
  /\ (UserStatistics.average_risk_score st <= UserStatistics.highest_risk_score st)%Q.
Proof.
  intros Hne Htr Hst. destruct scores as [|s0 scores]; [done |].
  destruct Htr as (st' & Hst' & Htot & Havg & _ & Hmax).
  rewrite Hst in Hst'. injection Hst' as <-.
  split; [rewrite Htot; simpl; lia |].
  rewrite Havg. unfold Core.mean_scores.
  pose proof (sum_scores_bounded (s0 :: scores) _ Hmax) as Hsum.
  set (n := inject_Z (Z.of_nat (length (s0 :: scores)))) in *.
  assert (Hn : (0 < n)%Q).
  { unfold n. change 0%Q with (inject_Z 0). rewrite <- Zlt_Qlt. simpl. lia. }
  apply Qle_shift_div_r; [done |]. lra.
Qed.

Lemma tracks_lookup (u : string) (scores : list Q)
    (tbl tbl' : gmap string UserStatistics.row) :
  tbl' !! u = tbl !! u -> Core.tracks u scores tbl -> Core.tracks u scores tbl'.
Proof. unfold Core.tracks. intros ->. done. Qed.

Lemma update_user_statistics_tracked (now : Z) (user_id : option string)
    (verdict : bool) (r : Q) (tbl : gmap string UserStatistics.row) :
  Soundness.table_tracked tbl ->
  Soundness.table_tracked (App.update_user_statistics now user_id verdict r tbl).
Proof.
  intros Hinv u st Hst.
  destruct (decide (user_id = Some u)) as [-> | Hother].
  - destruct (decide (u = "")) as [-> | Hu].
    { unfold App.update_user_statistics in Hst. simpl in Hst.
      destruct (Hinv _ _ Hst) as [Hne _]. done. }
    assert (Hscores : exists scores, Core.tracks u scores tbl).
    { destruct (tbl !! u) as [old|] eqn:Hold.
      - destruct (Hinv _ _ Hold) as (_ & _ & (scores & _ & Htr) & _). eauto.
      - exists []. exact Hold. }
    destruct Hscores as [scores Htr].
    pose proof (tracks_record_scan u (now, Some u, verdict, r) scores tbl Hu Htr) as Htr'.
    unfold Core.scores_of in Htr'. cbn [omap list_omap] in Htr'.
    rewrite bool_decide_eq_true_2 in Htr' by done.
    cbn [Core.record_scan] in Htr'.
    unfold App.update_user_statistics in Hst.
    apply String.eqb_neq in Hu as Hub. rewrite Hub in Hst.
    destruct (tbl !! u) as [old|] eqn:Hold.
    + destruct (Hinv _ _ Hold) as (_ & Hid & _ & Hp & Hs & Hc & Hi & Hf).
      rewrite lookup_insert_eq in Hst. injection Hst as <-.
      split; [done |]. split; [done |].
      split; [exists (scores ++ [r]); split; [by destruct scores | exact Htr'] |].
      cbn. destruct verdict; repeat split; lia.
    + rewrite lookup_insert_eq in Hst. injection Hst as <-.
      split; [done |]. split; [done |].
      split; [exists (scores ++ [r]); split; [by destruct scores | exact Htr'] |].
      cbn. destruct verdict; repeat split; lia.
  - rewrite update_user_statistics_other in Hst by done.
    destruct (Hinv _ _ Hst) as (Hne & Hid & (scores & Hsne & Htr) & Hrest).
    split; [done |]. split; [done |]. split; [| exact Hrest].
    exists scores. split; [done |].
    apply (tracks_lookup u scores tbl); [| done].
    by apply update_user_statistics_other.
Qed.

Lemma feedback_stats_tracked (fb : string) (now : Z)
    (tbl : gmap string UserStatistics.row) (v : string) (old : UserStatistics.row) :
  tbl !! v = Some old ->
  Soundness.table_tracked tbl ->
  Soundness.table_tracked (<[v := App.feedback_stats fb now old]> tbl).
Proof.
  intros Hold Hinv u st Hst.
  destruct (decide (v = u)) as [-> | Hne].
  - rewrite lookup_insert_eq in Hst. injection Hst as <-.
    destruct (Hinv _ _ Hold) as (Hu & Hid & (scores & Hsne & Htr) & Hp & Hs & Hc & Hi & Hf).
    split; [done |]. split; [done |]. split.
    + exists scores. split; [done |].
      destruct scores as [|s0 scores]; [done |].
      destruct Htr as (st & Hlook & Htot & Havg & Hin & Hmax).
      rewrite Hold in Hlook. injection Hlook as <-.
      eexists. split; [apply lookup_insert_eq |]. by cbn.
    + cbn. destruct (String.eqb fb "CORRECT"), (String.eqb fb "INCORRECT");
        repeat split; lia.
  - rewrite lookup_insert_ne in Hst by done.
    destruct (Hinv _ _ Hst) as (Hu & Hid & (scores & Hsne & Htr) & Hrest).
    split; [done |]. split; [done |]. split; [| exact Hrest].
    exists scores. split; [done |].
    apply (tracks_lookup u scores tbl); [by rewrite lookup_insert_ne | done].
Qed.

Lemma step_tracked {Features : Type} (sha : string -> string)
    (g : App.Globals Features) (db : Database) (op : Core.Operation) :
  Soundness.table_tracked (user_statistics db) ->
  Soundness.table_tracked (user_statistics (Core.step sha g db op)).
Proof.
  intros Hinv. destruct op as [req | req | now days | now days]; simpl; [| | done | done].
  - unfold App.scan_message.
    destruct (App.scan_json req) as [data|]; [| done].
    destruct (App.message data) as [raw|]; [| done].
    destruct (String.eqb (PyStr.strip raw) ""); [done |].
    destruct (App.classify_message g (App.elapsed_ms req) (PyStr.strip raw))
      as [[[verdict r] conf] t].
    cbn [snd user_statistics]. by apply update_user_statistics_tracked.
  - unfold App.submit_feedback.
    destruct (App.feedback_json req) as [data|]; [| done].
    destruct (negb (App.truthy_int (App.scan_id data))
              || negb (PyStr.truthy (App.feedback data))); [done |].
    destruct (negb (App.valid_feedback (default "" (App.feedback data)))); [done |].
    destruct (App.query_get _ _) as [scan|]; [| done].
    cbn [snd user_statistics].
    destruct (PyStr.truthy (ScanHistory.user_id scan)); [| done].
    destruct (user_statistics db !! default "" (ScanHistory.user_id scan))
      as [old|] eqn:Hold; [| done].
    by apply feedback_stats_tracked.
Qed.

(** X2. In every database reached from the empty one by any sequence of
    operations (scans, feedback, retention and anonymization sweeps), each
    statistics row is stored under its own non-empty user id, records at
    least one scan, has non-negative counters, and correct plus incorrect
    feedback counts that do not exceed the feedback count. *)
Theorem statistics_rows_sound :
  forall (Features : Type) (sha : string -> string) (g : App.Globals Features)
         (ops : list Core.Operation) (u : string) (st : UserStatistics.row),
    user_statistics (Core.run sha g ops empty_database) !! u = Some st ->
    Soundness.row_sound u st.
Proof.
  intros Features sha g ops u st Hst.
  assert (Hinv : Soundness.table_tracked
                   (user_statistics (Core.run sha g ops empty_database))).
  { assert (Hgen : forall db, Soundness.table_tracked (user_statistics db) ->
               Soundness.table_tracked (user_statistics (Core.run sha g ops db))).
    { clear Hst. induction ops as [|op ops IH]; intros db Hdb; [done |].
      cbn [Core.run fold_left]. apply IH. by apply step_tracked. }
    apply Hgen. intros v row Hrow. simpl in Hrow. by rewrite lookup_empty in Hrow. }
  destruct (Hinv _ _ Hst) as (Hu & Hid & (scores & Hsne & Htr) & Hp & Hs & Hc & Hi & Hf).
  destruct (tracks_mean_le_highest u scores _ st Hsne Htr Hst) as [Htot Hmean].
  repeat split; done.
Qed.

Lemma statistics_rows_sound_witness :
  Soundness.row_sound "alice"
    {| UserStatistics.user_id := "alice";
       UserStatistics.total_scans := 2;
       UserStatistics.phishing_detected := 1;
       UserStatistics.safe_messages := 1;
       UserStatistics.average_risk_score := ((3 # 4) * inject_Z (1 + 1 - 1) + (1 # 4))
                                            / inject_Z (1 + 1);
       UserStatistics.highest_risk_score := 3 # 4;
       UserStatistics.first_scan_date := Some 300;
       UserStatistics.last_scan_date := Some 300;
       UserStatistics.feedback_provided := 1;
       UserStatistics.correct_predictions := 0;
       UserStatistics.incorrect_predictions := 1;
       UserStatistics.updated_at := Some 300 |}.
Proof.
  apply (statistics_rows_sound unit (fun s => s) Sample.heuristic_only
           [Core.Scan (Sample.scan_request " click now " (Some "alice"));
            Core.Feedback (Sample.feedback_request 1 "INCORRECT");
            Core.DeleteOldScans 400 0;
            Core.Scan (Sample.scan_request "see you at 7" (Some "alice"))]).
  vm_compute. reflexivity.
Defined.

(** ** Round trips through the scan log *)

Lemma next_id_above (rows : list ScanHistory.row) (r : ScanHistory.row) :
  In r rows -> ScanHistory.id r < App.next_id rows.
Proof.
  unfold App.next_id. induction rows as [|x rows IH]; [done |].
  intros [-> | Hin]; cbn [map fold_right]; [lia |].
  specialize (IH Hin). lia.
Qed.

Lemma next_id_positive (rows : list ScanHistory.row) : 1 <= App.next_id rows.
Proof.
  unfold App.next_id. induction rows as [|x rows IH]; cbn [map fold_right]; lia.
Qed.

Lemma query_get_app_fresh (sid : Z) (rows : list ScanHistory.row) (rec : ScanHistory.row) :
  (forall r, In r rows -> ScanHistory.id r <> sid) ->
  ScanHistory.id rec = sid ->
  App.query_get sid (rows ++ [rec]) = Some rec.
Proof.
  intros Hfresh Hid. unfold App.query_get.
  induction rows as [|x rows IH]; cbn [app find].
  - apply Z.eqb_eq in Hid. by rewrite Hid.
  - assert (Hx : ScanHistory.id x <> sid) by (apply Hfresh; by left).
    apply Z.eqb_neq in Hx. rewrite Hx. apply IH.
    intros r Hr. apply Hfresh. by right.
Qed.

(** X3. A scan request with a message that is not empty once stripped is
    answered with status 200 and the identity of exactly one new row, which
    is appended to the unchanged log, carries no feedback yet, has an
    identity that is positive and larger than every identity in the log,
    and is what a lookup of the returned identity finds. *)
Theorem scan_message_stores_retrievable_row :
  forall (Features : Type) (sha : string -> string) (g : App.Globals Features)
         (req : App.ScanRequest) (db : Database) (data : App.ScanJson) (raw : string),
    App.scan_json req = Some data ->
    App.message data = Some raw ->
    PyStr.strip raw <> "" ->
    exists rec verdict r conf msg t ts,
      App.scan_message sha g req db
      = (App.ScanResult (ScanHistory.id rec) verdict r conf msg t ts,
         {| scan_history := scan_history db ++ [rec];
            user_statistics :=
              App.update_user_statistics (App.scan_now req) (App.user_id data)
                (ScanHistory.is_phishing rec) (ScanHistory.risk_score rec)
                (user_statistics db) |})
      /\ App.query_get (ScanHistory.id rec) (scan_history db ++ [rec]) = Some rec
      /\ 1 <= ScanHistory.id rec
      /\ (forall old, In old (scan_history db) -> ScanHistory.id old < ScanHistory.id rec)
      /\ ScanHistory.user_id rec = App.user_id data
      /\ ScanHistory.user_feedback rec = None
      /\ ScanHistory.created_at rec = App.scan_now req.
Proof.
  intros Features sha g req db data raw Hdata Hmsg Hne.
  unfold App.scan_message. rewrite Hdata, Hmsg.
  apply String.eqb_neq in Hne. rewrite Hne.
  destruct (App.classify_message g (App.elapsed_ms req) (PyStr.strip raw))
    as [[[verdict r] conf] t].
  lazymatch goal with
  | |- context [scan_history db ++ [?x]] => exists x
  end.
  eexists _, _, _, _, _, _. split; [reflexivity |].
  cbn [ScanHistory.id ScanHistory.user_id ScanHistory.user_feedback
       ScanHistory.created_at].
  split; [| split; [apply next_id_positive | split; [apply next_id_above | done]]].
  apply query_get_app_fresh; [| done].
  intros old Hold. pose proof (next_id_above _ _ Hold). lia.
Qed.

Lemma scan_message_stores_retrievable_row_witness :
  exists rec verdict r conf msg t ts,
    App.scan_message (fun s => s) Sample.heuristic_only
      (Sample.scan_request " Click here " (Some "bob")) Sample.database
    = (App.ScanResult (ScanHistory.id rec) verdict r conf msg t ts,
       {| scan_history := scan_history Sample.database ++ [rec];
          user_statistics :=
            App.update_user_statistics 300 (Some "bob")
              (ScanHistory.is_phishing rec) (ScanHistory.risk_score rec)
              (user_statistics Sample.database) |})
    /\ App.query_get (ScanHistory.id rec) (scan_history Sample.database ++ [rec])
       = Some rec
    /\ 1 <= ScanHistory.id rec
    /\ (forall old, In old (scan_history Sample.database) ->
                    ScanHistory.id old < ScanHistory.id rec)
    /\ ScanHistory.user_id rec = Some "bob"
    /\ ScanHistory.user_feedback rec = None
    /\ ScanHistory.created_at rec = 300.
Proof.
  apply (scan_message_stores_retrievable_row unit (fun s => s) Sample.heuristic_only
           (Sample.scan_request " Click here " (Some "bob")) Sample.database
           {| App.message := Some " Click here "; App.user_id := Some "bob";
              App.device_id := None |} " Click here ").
  - reflexivity.
  - reflexivity.
  - discriminate.
Defined.

Lemma query_get_set_feedback (sid : Z) (fb : string) (now : Z)
    (rows : list ScanHistory.row) (scan : ScanHistory.row) :
  App.query_get sid rows = Some scan ->
  App.query_get sid (App.set_feedback sid fb now rows)
  = Some (App.with_feedback fb now scan).
Proof.
  unfold App.query_get. induction rows as [|r rows IH]; [done |].
  cbn [find App.set_feedback]. destruct (ScanHistory.id r =? sid) eqn:Hid.
  - intros [= ->]. cbn [find App.with_feedback ScanHistory.id]. by rewrite Hid.
  - intros Hfind. cbn [find]. rewrite Hid. by apply IH.
Qed.

Lemma query_get_set_feedback_other (sid other : Z) (fb : string) (now : Z)
    (rows : list ScanHistory.row) :
  other <> sid ->
  App.query_get other (App.set_feedback sid fb now rows) = App.query_get other rows.
Proof.
  intros Hne. unfold App.query_get. induction rows as [|r rows IH]; [done |].
  cbn [find App.set_feedback]. destruct (ScanHistory.id r =? sid) eqn:Hid.
  - cbn [find App.with_feedback ScanHistory.id].
    apply Z.eqb_eq in Hid. rewrite Hid.
    apply Z.eqb_neq in Hne as Hneb. rewrite Z.eqb_sym in Hneb. by rewrite Hneb.
  - cbn [find]. by rewrite IH.
Qed.

Lemma set_feedback_ids (sid : Z) (fb : string) (now : Z) (rows : list ScanHistory.row) :
  map ScanHistory.id (App.set_feedback sid fb now rows) = map ScanHistory.id rows.
Proof.
  induction rows as [|r rows IH]; [done |].
  cbn [App.set_feedback]. destruct (ScanHistory.id r =? sid); cbn [map]; [done |].
  by rewrite IH.
Qed.

(** What a successful feedback submission on scan [sid] of the database
    [db] leaves behind. *)
Lemma submit_feedback_success (sid : Z) (fb : string) (now : Z) (db : Database)
    (scan : ScanHistory.row) :
  sid <> 0 ->
  fb ∈ ["CORRECT"; "INCORRECT"; "UNSURE"] ->
  App.query_get sid (scan_history db) = Some scan ->
  App.submit_feedback
    {| App.feedback_json := Some {| App.scan_id := Some sid; App.feedback := Some fb |};
       App.feedback_now := now |} db
  = (App.FeedbackRecorded "Feedback recorded successfully" "success",
     {| scan_history := App.set_feedback sid fb now (scan_history db);
        user_statistics :=
          match ScanHistory.user_id scan with
          | None => user_statistics db
          | Some u =>
              if String.eqb u "" then user_statistics db else
              match user_statistics db !! u with
              | Some stats => <[u := App.feedback_stats fb now stats]> (user_statistics db)
              | None => user_statistics db
              end
          end |}).
Proof.
  intros Hsid Hfb Hscan. unfold App.submit_feedback.
  cbn [App.feedback_json App.scan_id App.feedback App.feedback_now App.truthy_int
       PyStr.truthy from_option id].
  apply Z.eqb_neq in Hsid. rewrite Hsid.
  assert (Hfbne : String.eqb fb "" = false).
  { apply String.eqb_neq. intros ->.
    rewrite !elem_of_cons, elem_of_nil in Hfb.
    destruct Hfb as [H | [H | [H | []]]]; discriminate H. }
  rewrite Hfbne. cbn [negb orb].
  unfold App.valid_feedback. rewrite bool_decide_eq_true_2 by done. cbn [negb].
  rewrite Hscan. do 2 f_equal.
  destruct (ScanHistory.user_id scan) as [u|]; [| done].
  cbn [PyStr.truthy from_option id]. by destruct (String.eqb u "").
Qed.

(** A submission is answered with status 200 only when it names an
    existing scan by a non-zero identity and carries one of the three
    kinds. *)
Lemma submit_feedback_ok (req : App.FeedbackRequest) (db : Database) :
  App.http_status (fst (App.submit_feedback req db)) = 200 ->
  exists sid fb scan,
    App.feedback_json req = Some {| App.scan_id := Some sid; App.feedback := Some fb |}
    /\ sid <> 0
    /\ fb ∈ ["CORRECT"; "INCORRECT"; "UNSURE"]
    /\ App.query_get sid (scan_history db) = Some scan.
Proof.
  unfold App.submit_feedback.
  destruct (App.feedback_json req) as [[osid ofb]|]; [| refused].
  cbn [App.scan_id App.feedback].
  destruct osid as [sid|]; [| refused].
  destruct ofb as [fb|];
    [| cbn [PyStr.truthy negb]; rewrite orb_true_r; refused].
  cbn [App.truthy_int].
  destruct (sid =? 0) eqn:Hsid; [refused |]. apply Z.eqb_neq in Hsid.
  destruct (negb (negb false) || negb (PyStr.truthy (Some fb))); [refused |].
  cbn [from_option id]. unfold App.valid_feedback.
  case_bool_decide as Hvalid; [| refused]. cbn [negb].
  destruct (App.query_get sid (scan_history db)) as [scan|] eqn:Hscan; [| refused].
  intros _. by exists sid, fb, scan.
Qed.

(** X4. A feedback submission answered with status 200 sets the two
    feedback fields of the named scan and nothing else in the log: a lookup
    of the scan returns it with the submitted kind and the submission time,
    every other field as before; lookups of other identities, the order and
    the identities of the log are as before; and no statistics row is
    created or removed. *)
Theorem submit_feedback_sets_feedback_fields :
  forall (req : App.FeedbackRequest) (db : Database),
    App.http_status (fst (App.submit_feedback req db)) = 200 ->
    let db' := snd (App.submit_feedback req db) in
    exists sid fb scan scan',
      App.feedback_json req = Some {| App.scan_id := Some sid; App.feedback := Some fb |}
      /\ App.query_get sid (scan_history db) = Some scan
      /\ App.query_get sid (scan_history db') = Some scan'
      /\ ScanHistory.user_feedback scan' = Some fb
      /\ ScanHistory.feedback_timestamp scan' = Some (App.feedback_now req)
      /\ (ScanHistory.id scan', ScanHistory.user_id scan', ScanHistory.device_id scan',
          ScanHistory.message_text scan', ScanHistory.message_hash scan')
         = (ScanHistory.id scan, ScanHistory.user_id scan, ScanHistory.device_id scan,
            ScanHistory.message_text scan, ScanHistory.message_hash scan)
      /\ (ScanHistory.is_phishing scan', ScanHistory.risk_score scan',
          ScanHistory.confidence_level scan', ScanHistory.model_version scan',
          ScanHistory.prediction_time_ms scan', ScanHistory.created_at scan',
          ScanHistory.ip_address scan', ScanHistory.user_agent scan')
         = (ScanHistory.is_phishing scan, ScanHistory.risk_score scan,
            ScanHistory.confidence_level scan, ScanHistory.model_version scan,
            ScanHistory.prediction_time_ms scan, ScanHistory.created_at scan,
            ScanHistory.ip_address scan, ScanHistory.user_agent scan)
      /\ (forall other, other <> sid ->
            App.query_get other (scan_history db') = App.query_get other (scan_history db))
      /\ map ScanHistory.id (scan_history db') = map ScanHistory.id (scan_history db)
      /\ dom (user_statistics db') = dom (user_statistics db).
Proof.
  intros req db Hok db'.
  destruct (submit_feedback_ok req db Hok) as (sid & fb & scan & Hreq & Hsid & Hfb & Hscan).
  destruct req as [json now]. cbn [App.feedback_json App.feedback_now] in *.
  subst json.
  pose proof (submit_feedback_success sid fb now db scan Hsid Hfb Hscan) as Hrun.
  unfold db'. rewrite Hrun. cbn [snd scan_history user_statistics].
  exists sid, fb, scan, (App.with_feedback fb now scan).
  split; [done |]. split; [done |].
  split; [by apply query_get_set_feedback |].
  split; [done |]. split; [done |]. split; [done |]. split; [done |].
  split; [intros other Hother; by apply query_get_set_feedback_other |].
  split; [apply set_feedback_ids |].
  destruct (ScanHistory.user_id scan) as [u|]; [| done].
  destruct (String.eqb u ""); [done |].
  destruct (user_statistics db !! u) as [st|] eqn:Hst; [| done].
  rewrite dom_insert_L. apply subseteq_union_1_L, singleton_subseteq_l.
  by apply elem_of_dom_2 with st.
Qed.

Lemma submit_feedback_sets_feedback_fields_witness :
  let db' :=
    snd (App.submit_feedback (Sample.feedback_request 7 "CORRECT") Sample.database) in
  exists sid fb scan scan',
    App.feedback_json (Sample.feedback_request 7 "CORRECT") = Some {| App.scan_id := Some sid; App.feedback := Some fb |}
    /\ App.query_get sid (scan_history Sample.database) = Some scan
    /\ App.query_get sid (scan_history db') = Some scan'
    /\ ScanHistory.user_feedback scan' = Some fb
    /\ ScanHistory.feedback_timestamp scan' = Some 200
    /\ (ScanHistory.id scan', ScanHistory.user_id scan', ScanHistory.device_id scan',
        ScanHistory.message_text scan', ScanHistory.message_hash scan')
       = (ScanHistory.id scan, ScanHistory.user_id scan, ScanHistory.device_id scan,
          ScanHistory.message_text scan, ScanHistory.message_hash scan)
    /\ (ScanHistory.is_phishing scan', ScanHistory.risk_score scan',
        ScanHistory.confidence_level scan', ScanHistory.model_version scan',
        ScanHistory.prediction_time_ms scan', ScanHistory.created_at scan',
        ScanHistory.ip_address scan', ScanHistory.user_agent scan')
       = (ScanHistory.is_phishing scan, ScanHistory.risk_score scan,
          ScanHistory.confidence_level scan, ScanHistory.model_version scan,
          ScanHistory.prediction_time_ms scan, ScanHistory.created_at scan,
          ScanHistory.ip_address scan, ScanHistory.user_agent scan)
    /\ (forall other, other <> sid ->
          App.query_get other (scan_history db') = App.query_get other (scan_history Sample.database))
    /\ map ScanHistory.id (scan_history db') = map ScanHistory.id (scan_history Sample.database)
    /\ dom (user_statistics db') = dom (user_statistics Sample.database).
Proof.
  exact (submit_feedback_sets_feedback_fields (Sample.feedback_request 7 "CORRECT")
           Sample.database eq_refl).
Defined.

(** X5. Feedback may be submitted again for the same scan: after two
    successful submissions the scan holds the kind and time of the second,
    the log has not grown, and the statistics row of the scan's user has
    counted both, so its feedback counters count submissions rather than
    scans with feedback. *)
Theorem repeated_feedback_overwrites_and_counts_twice :
  forall (sid : Z) (fb1 fb2 : string) (now1 now2 : Z) (db : Database)
         (scan : ScanHistory.row) (u : string) (st : UserStatistics.row),
    sid <> 0 ->
    fb1 ∈ ["CORRECT"; "INCORRECT"; "UNSURE"] ->
    fb2 ∈ ["CORRECT"; "INCORRECT"; "UNSURE"] ->
    App.query_get sid (scan_history db) = Some scan ->
    ScanHistory.user_id scan = Some u ->
    u <> "" ->
    user_statistics db !! u = Some st ->
    let submit fb now :=
      App.submit_feedback
        {| App.feedback_json :=
             Some {| App.scan_id := Some sid; App.feedback := Some fb |};
           App.feedback_now := now |} in
    let db2 := snd (submit fb2 now2 (snd (submit fb1 now1 db))) in
    exists scan2 st2,
      App.query_get sid (scan_history db2) = Some scan2
      /\ ScanHistory.user_feedback scan2 = Some fb2
      /\ ScanHistory.feedback_timestamp scan2 = Some now2
      /\ map ScanHistory.id (scan_history db2) = map ScanHistory.id (scan_history db)
      /\ user_statistics db2 !! u = Some st2
      /\ UserStatistics.feedback_provided st2 = UserStatistics.feedback_provided st + 2
      /\ UserStatistics.correct_predictions st2
         = UserStatistics.correct_predictions st
           + (if decide (fb1 = "CORRECT") then 1 else 0)
           + (if decide (fb2 = "CORRECT") then 1 else 0)
      /\ UserStatistics.incorrect_predictions st2
         = UserStatistics.incorrect_predictions st
           + (if decide (fb1 = "INCORRECT") then 1 else 0)
           + (if decide (fb2 = "INCORRECT") then 1 else 0).
Proof.
  intros sid fb1 fb2 now1 now2 db scan u st Hsid Hfb1 Hfb2 Hscan Huser Hu Hst submit db2.
  apply String.eqb_neq in Hu as Hub.
  unfold db2, submit.
  rewrite (submit_feedback_success sid fb1 now1 db scan Hsid Hfb1 Hscan).
  cbn [snd]. rewrite Huser, Hub, Hst.
  pose proof (query_get_set_feedback sid fb1 now1 _ _ Hscan) as Hscan1.
  lazymatch goal with
  | |- context [App.submit_feedback _ ?d] =>
      rewrite (submit_feedback_success sid fb2 now2 d (App.with_feedback fb1 now1 scan)
                 Hsid Hfb2 Hscan1)
  end.
  cbn [snd scan_history user_statistics App.with_feedback ScanHistory.user_id].
  rewrite Huser, Hub, lookup_insert_eq.
  eexists _, _. split; [by apply query_get_set_feedback |].
  split; [done |]. split; [done |].
  split; [by rewrite !set_feedback_ids |].
  split; [apply lookup_insert_eq |].
  cbn [App.feedback_stats UserStatistics.feedback_provided
       UserStatistics.correct_predictions UserStatistics.incorrect_predictions].
  rewrite !elem_of_cons, elem_of_nil in Hfb1, Hfb2.
  destruct Hfb1 as [-> | [-> | [-> | []]]], Hfb2 as [-> | [-> | [-> | []]]];
    cbn [String.eqb Ascii.eqb Bool.eqb andb];
    repeat (case_decide; try congruence); repeat split; lia.
Qed.

Lemma repeated_feedback_overwrites_and_counts_twice_witness :
  let submit fb now :=
    App.submit_feedback
      {| App.feedback_json := Some {| App.scan_id := Some 7; App.feedback := Some fb |};
         App.feedback_now := now |} in
  let db2 := snd (submit "CORRECT" 500 (snd (submit "UNSURE" 400 Sample.database))) in
  exists scan2 st2,
    App.query_get 7 (scan_history db2) = Some scan2
    /\ ScanHistory.user_feedback scan2 = Some "CORRECT"
    /\ ScanHistory.feedback_timestamp scan2 = Some 500
    /\ map ScanHistory.id (scan_history db2) = [7]
    /\ user_statistics db2 !! "alice" = Some st2
    /\ UserStatistics.feedback_provided st2 = 0 + 2
    /\ UserStatistics.correct_predictions st2 = 0 + 0 + 1
    /\ UserStatistics.incorrect_predictions st2 = 0 + 0 + 0.
Proof.
  apply (repeated_feedback_overwrites_and_counts_twice 7 "UNSURE" "CORRECT" 400 500
           Sample.database (Sample.scan 7 (Some "alice") (3 # 4) None) "alice"
           Sample.alice_stats).
  - discriminate.
  - repeat constructor.
  - repeat constructor.
  - reflexivity.
  - reflexivity.
  - discriminate.
  - reflexivity.
Defined.

(** ** Retention and anonymization sweeps *)

Lemma query_count_filter (p : ScanHistory.row -> bool) (rows : list ScanHistory.row) :
  AnalyticsEngine.query_count p rows
  + Z.of_nat (length (List.filter (fun r => negb (p r)) rows))
  = Z.of_nat (length rows).
Proof.
  unfold AnalyticsEngine.query_count.
  induction rows as [|r rows IH]; [done |].
  cbn [List.filter]. destruct (p r); cbn [negb length]; lia.
Qed.

Lemma filter_sublist {A : Type} (p : A -> bool) (l : list A) :
  sublist (List.filter p l) l.
Proof.
  induction l as [|x l IH]; [constructor |].
  cbn [List.filter]. destruct (p x); by constructor.
Qed.

Lemma filter_twice {A : Type} (p q : A -> bool) (l : list A) :
  (forall x, q x = true -> p x = true) ->
  List.filter p (List.filter q l) = List.filter q l.
Proof.
  intros Hqp. induction l as [|x l IH]; [done |].
  cbn [List.filter]. destruct (q x) eqn:Hq; [| done].
  cbn [List.filter]. by rewrite (Hqp x Hq), IH.
Qed.

(** X6. The retention sweep deletes exactly the rows created before the
    cutoff [now - days]: it returns their number, keeps the other rows in
    their order, leaves the statistics table untouched (rows of deleted
    scans stay counted there), and running it again with the same
    arguments deletes nothing. *)
Theorem delete_old_scans_removes_exactly_old :
  forall (now days : Z) (db : Database),
    let cutoff := now - DataManagement.timedelta_days days in
    let deleted := fst (DataManagement.delete_old_scans now days db) in
    let db' := snd (DataManagement.delete_old_scans now days db) in
    deleted + Z.of_nat (length (scan_history db')) = Z.of_nat (length (scan_history db))
    /\ 0 <= deleted
    /\ (forall r, In r (scan_history db') <->
                  In r (scan_history db) /\ cutoff <= ScanHistory.created_at r)
    /\ sublist (scan_history db') (scan_history db)
    /\ user_statistics db' = user_statistics db
    /\ DataManagement.delete_old_scans now days db' = (0, db').
Proof.
  intros now days db cutoff deleted db'.
  unfold deleted, db', DataManagement.delete_old_scans. cbn [fst snd scan_history
    user_statistics]. fold cutoff.
  split; [apply query_count_filter |].
  split; [apply query_count_nonneg |].
  split.
  { intros r. rewrite List.filter_In, negb_true_iff, Z.ltb_ge. done. }
  split; [apply filter_sublist |]. split; [done |].
  f_equal.
  - unfold AnalyticsEngine.query_count.
    assert (Hnone : List.filter (fun r => ScanHistory.created_at r <? cutoff)
                      (List.filter (fun r => negb (ScanHistory.created_at r <? cutoff))
                         (scan_history db)) = []).
    { induction (scan_history db) as [|r rows IH]; [done |].
      cbn [List.filter]. destruct (ScanHistory.created_at r <? cutoff) eqn:Hold;
        cbn [negb List.filter]; [done |]. by rewrite Hold. }
    by rewrite Hnone.
  - f_equal. by apply filter_twice.
Qed.

Lemma anonymized_created_at (r : ScanHistory.row) :
  ScanHistory.created_at (DataManagement.anonymized r) = ScanHistory.created_at r.
Proof. done. Qed.

Lemma anonymized_twice (r : ScanHistory.row) :
  DataManagement.anonymized (DataManagement.anonymized r) = DataManagement.anonymized r.
Proof. done. Qed.

(** The fields of a scan that anonymization keeps. *)
Lemma anonymize_old_data_rows (now days : Z) (db : Database) :
  scan_history (snd (DataManagement.anonymize_old_data now days db))
  = map (fun r => if ScanHistory.created_at r
                       <? now - DataManagement.timedelta_days days
                  then DataManagement.anonymized r else r) (scan_history db).
Proof. done. Qed.

(** X7. The anonymization sweep clears [user_id], [device_id],
    [ip_address] and [user_agent] on exactly the rows created before the
    cutoff and changes nothing else: the log keeps its length and order,
    every row keeps its identity, text, fingerprint, verdict, score, tier,
    timestamps and feedback, rows at or after the cutoff are untouched, the
    statistics table is untouched, and a second run with the same
    arguments changes nothing (while reporting the same count again). *)
Theorem anonymize_old_data_clears_identifying_fields :
  forall (now days : Z) (db : Database),
    let cutoff := now - DataManagement.timedelta_days days in
    let db' := snd (DataManagement.anonymize_old_data now days db) in
    length (scan_history db') = length (scan_history db)
    /\ (forall i r, scan_history db !! i = Some r ->
          exists r',
            scan_history db' !! i = Some r'
            /\ (ScanHistory.id r', ScanHistory.message_text r', ScanHistory.message_hash r',
                ScanHistory.is_phishing r', ScanHistory.risk_score r',
                ScanHistory.confidence_level r')
               = (ScanHistory.id r, ScanHistory.message_text r, ScanHistory.message_hash r,
                  ScanHistory.is_phishing r, ScanHistory.risk_score r,
                  ScanHistory.confidence_level r)
            /\ (ScanHistory.model_version r', ScanHistory.prediction_time_ms r',
                ScanHistory.created_at r', ScanHistory.user_feedback r',
                ScanHistory.feedback_timestamp r')
               = (ScanHistory.model_version r, ScanHistory.prediction_time_ms r,
                  ScanHistory.created_at r, ScanHistory.user_feedback r,
                  ScanHistory.feedback_timestamp r)
            /\ (ScanHistory.created_at r < cutoff ->
                  ScanHistory.user_id r' = None /\ ScanHistory.device_id r' = None
                  /\ ScanHistory.ip_address r' = None /\ ScanHistory.user_agent r' = None)
            /\ (cutoff <= ScanHistory.created_at r -> r' = r))
    /\ user_statistics db' = user_statistics db
    /\ snd (DataManagement.anonymize_old_data now days db') = db'
    /\ fst (DataManagement.anonymize_old_data now days db')
       = fst (DataManagement.anonymize_old_data now days db).
Proof.
  intros now days db cutoff db'.
  unfold db'. rewrite !anonymize_old_data_rows. fold cutoff.
  split; [apply length_map |]. split.
  { intros i r Hr. rewrite list_lookup_fmap, Hr. cbn [fmap option_fmap option_map].
    eexists. split; [reflexivity |].
    destruct (ScanHistory.created_at r <? cutoff) eqn:Hold.
    - apply Z.ltb_lt in Hold. repeat split; try done. intros Hnew. lia.
    - apply Z.ltb_ge in Hold. split; [done |]. split; [done |].
      split; [intros Hlt; lia | done]. }
  split; [done |].
  unfold DataManagement.anonymize_old_data. cbn [fst snd scan_history user_statistics].
  fold cutoff. split.
  - f_equal. rewrite map_map. apply map_ext. intros r.
    destruct (ScanHistory.created_at r <? cutoff) eqn:Hold; [| by rewrite Hold].
    by rewrite anonymized_created_at, Hold.
  - unfold AnalyticsEngine.query_count. apply (f_equal Z.of_nat).
    induction (scan_history db) as [|r rows IH]; [done |].
    cbn [map List.filter].
    destruct (ScanHistory.created_at r <? cutoff) eqn:Hold.
    + rewrite anonymized_created_at, Hold. cbn [length]. by rewrite IH.
    + by rewrite Hold.
Qed.

Lemma query_count_map (p : ScanHistory.row -> bool) (f : ScanHistory.row -> ScanHistory.row)
    (rows : list ScanHistory.row) :
  (forall r, p (f r) = p r) ->
  AnalyticsEngine.query_count p (map f rows) = AnalyticsEngine.query_count p rows.
Proof.
  intros Hp. unfold AnalyticsEngine.query_count. apply (f_equal Z.of_nat).
  induction rows as [|r rows IH]; [done |].
  cbn [map List.filter]. rewrite Hp. destruct (p r); cbn [length]; by rewrite IH.
Qed.

Lemma filter_map_commute {A : Type} (p : A -> bool) (f : A -> A) (l : list A) :
  (forall x, p (f x) = p x) ->
  List.filter p (map f l) = map f (List.filter p l).
Proof.
  intros Hp. induction l as [|x l IH]; [done |].
  cbn [map List.filter]. rewrite Hp. destruct (p x); cbn [map]; by rewrite IH.
Qed.

(** X8. Anonymization does not change what the analytics report: the risk
    histogram (for any number of bins) and the feedback-derived accuracy
    computed over the anonymized log are those computed over the log. *)
Theorem analytics_unchanged_by_anonymization :
  forall (now days bins : Z) (db : Database),
    let db' := snd (DataManagement.anonymize_old_data now days db) in
    AnalyticsEngine.get_risk_score_distribution bins (scan_history db')
    = AnalyticsEngine.get_risk_score_distribution bins (scan_history db)
    /\ AnalyticsEngine.get_model_accuracy_from_feedback (scan_history db')
       = AnalyticsEngine.get_model_accuracy_from_feedback (scan_history db).
Proof.
  intros now days bins db db'. unfold db'. rewrite anonymize_old_data_rows.
  set (f := fun r => if ScanHistory.created_at r
                          <? now - DataManagement.timedelta_days days
                     then DataManagement.anonymized r else r).
  assert (Hrisk : forall r, ScanHistory.risk_score (f r) = ScanHistory.risk_score r).
  { intros r. unfold f. by destruct (_ <? _). }
  assert (Hfb : forall r, ScanHistory.user_feedback (f r) = ScanHistory.user_feedback r).
  { intros r. unfold f. by destruct (_ <? _). }
  split.
  - unfold AnalyticsEngine.get_risk_score_distribution.
    destruct (bins =? 0); [done |]. f_equal. apply map_ext. intros i. f_equal.
    apply query_count_map. intros r. by rewrite Hrisk.
  - unfold AnalyticsEngine.get_model_accuracy_from_feedback.
    rewrite !query_count_map; [done | | |]; intros r;
      unfold AnalyticsEngine.feedback_is, AnalyticsEngine.has_feedback; by rewrite Hfb.
Qed.

(** X9. The two sweeps commute: whatever their clocks and ages, deleting
    after anonymizing leaves the same database as anonymizing after
    deleting, and the retention sweep deletes the same number of rows
    whether or not the log was anonymized first. *)
Theorem sweeps_commute :
  forall (now1 days1 now2 days2 : Z) (db : Database),
    let del := DataManagement.delete_old_scans now1 days1 in
    let anon := DataManagement.anonymize_old_data now2 days2 in
    snd (del (snd (anon db))) = snd (anon (snd (del db)))
    /\ fst (del (snd (anon db))) = fst (del db).
Proof.
  intros now1 days1 now2 days2 db del anon.
  unfold del, anon, DataManagement.delete_old_scans, DataManagement.anonymize_old_data.
  cbn [fst snd scan_history user_statistics].
  set (c1 := now1 - DataManagement.timedelta_days days1).
  set (c2 := now2 - DataManagement.timedelta_days days2).
  set (f := fun r => if ScanHistory.created_at r <? c2
                     then DataManagement.anonymized r else r).
  assert (Hcreated : forall r, ScanHistory.created_at (f r) = ScanHistory.created_at r).
  { intros r. unfold f. by destruct (_ <? _). }
  split.
  - f_equal. apply filter_map_commute. intros r. by rewrite Hcreated.
  - apply query_count_map. intros r. by rewrite Hcreated.
Qed.

(** X10. Retention sweeps compose: a sweep with cutoff [c1] followed by one
    with a later (or equal) cutoff [c2] leaves the log that the second
    sweep alone leaves, and the two counts add up to the count of the
    second sweep alone. *)
Theorem successive_retention_sweeps :
  forall (now1 days1 now2 days2 : Z) (db : Database),
    now1 - DataManagement.timedelta_days days1
    <= now2 - DataManagement.timedelta_days days2 ->
    let first := DataManagement.delete_old_scans now1 days1 db in
    let second := DataManagement.delete_old_scans now2 days2 (snd first) in
    snd second = snd (DataManagement.delete_old_scans now2 days2 db)
    /\ fst first + fst second = fst (DataManagement.delete_old_scans now2 days2 db).
Proof.
  intros now1 days1 now2 days2 db Hle first second.
  unfold second, first, DataManagement.delete_old_scans.
  cbn [fst snd scan_history user_statistics].
  set (c1 := now1 - DataManagement.timedelta_days days1) in *.
  set (c2 := now2 - DataManagement.timedelta_days days2) in *.
  unfold AnalyticsEngine.query_count. split.
  - f_equal. induction (scan_history db) as [|r rows IH]; [done |].
    cbn [List.filter].
    destruct (ScanHistory.created_at r <? c1) eqn:H1,
             (ScanHistory.created_at r <? c2) eqn:H2;
      cbn [negb List.filter]; rewrite ?H2; cbn [negb]; try by rewrite IH.
    apply Z.ltb_lt in H1. apply Z.ltb_ge in H2. lia.
  - induction (scan_history db) as [|r rows IH]; [done |].
    cbn [List.filter].
    destruct (ScanHistory.created_at r <? c1) eqn:H1,
             (ScanHistory.created_at r <? c2) eqn:H2;
      cbn [negb List.filter length]; rewrite ?H2; cbn [length];
      try rewrite ?Nat2Z.inj_succ; lia.
Qed.

Lemma successive_retention_sweeps_witness :
  let first := DataManagement.delete_old_scans 150 0 Sample.database in
  let second := DataManagement.delete_old_scans 200 0 (snd first) in
  snd second = snd (DataManagement.delete_old_scans 200 0 Sample.database)
  /\ fst first + fst second = fst (DataManagement.delete_old_scans 200 0 Sample.database).
Proof.
  apply (successive_retention_sweeps 150 0 200 0 Sample.database).
  vm_compute. discriminate.
Defined.

Lemma query_get_map (sid : Z) (f : ScanHistory.row -> ScanHistory.row)
    (rows : list ScanHistory.row) :
  (forall r, ScanHistory.id (f r) = ScanHistory.id r) ->
  App.query_get sid (map f rows) = f <$> App.query_get sid rows.
Proof.
  intros Hid. unfold App.query_get. induction rows as [|r rows IH]; [done |].
  cbn [map find]. rewrite Hid. by destruct (ScanHistory.id r =? sid).
Qed.

(** X11. Once a scan has been anonymized, feedback on it is still
    accepted and stored on the scan, but it reaches no statistics row: the
    statistics table is left exactly as it was. *)
Theorem feedback_on_anonymized_scan_skips_statistics :
  forall (now days sid : Z) (fb : string) (fnow : Z) (db : Database)
         (scan : ScanHistory.row),
    sid <> 0 ->
    fb ∈ ["CORRECT"; "INCORRECT"; "UNSURE"] ->
    App.query_get sid (scan_history db) = Some scan ->
    ScanHistory.created_at scan < now - DataManagement.timedelta_days days ->
    let swept := snd (DataManagement.anonymize_old_data now days db) in
    let result :=
      App.submit_feedback
        {| App.feedback_json :=
             Some {| App.scan_id := Some sid; App.feedback := Some fb |};
           App.feedback_now := fnow |} swept in
    App.http_status (fst result) = 200
    /\ user_statistics (snd result) = user_statistics db
    /\ exists scan',
         App.query_get sid (scan_history (snd result)) = Some scan'
         /\ ScanHistory.user_feedback scan' = Some fb
         /\ ScanHistory.user_id scan' = None.
Proof.
  intros now days sid fb fnow db scan Hsid Hfb Hscan Hold swept result.
  assert (Hswept : App.query_get sid (scan_history swept)
                   = Some (DataManagement.anonymized scan)).
  { unfold swept. rewrite anonymize_old_data_rows, query_get_map, Hscan.
    - cbn [fmap option_fmap option_map]. apply Z.ltb_lt in Hold. by rewrite Hold.
    - intros r. by destruct (_ <? _). }
  unfold result.
  rewrite (submit_feedback_success sid fb fnow swept _ Hsid Hfb Hswept).
  cbn [fst snd App.http_status scan_history user_statistics
       DataManagement.anonymized ScanHistory.user_id].
  split; [done |]. split; [done |].
  eexists. split; [by apply query_get_set_feedback |]. done.
Qed.

Lemma feedback_on_anonymized_scan_skips_statistics_witness :
  let swept := snd (DataManagement.anonymize_old_data 1000 0 Sample.database) in
  let result :=
    App.submit_feedback
      {| App.feedback_json :=
           Some {| App.scan_id := Some 7; App.feedback := Some "INCORRECT" |};
         App.feedback_now := 1001 |} swept in
  App.http_status (fst result) = 200
  /\ user_statistics (snd result) = user_statistics Sample.database
  /\ exists scan',
       App.query_get 7 (scan_history (snd result)) = Some scan'
       /\ ScanHistory.user_feedback scan' = Some "INCORRECT"
       /\ ScanHistory.user_id scan' = None.
Proof.
  apply (feedback_on_anonymized_scan_skips_statistics 1000 0 7 "INCORRECT" 1001
           Sample.database (Sample.scan 7 (Some "alice") (3 # 4) None)).
  - discriminate.
  - repeat constructor.
  - reflexivity.
  - reflexivity.
Defined.

(** ** The heuristic classifier *)

Lemma lower_char_idempotent (c : ascii) :
  PyStr.lower_char (PyStr.lower_char c) = PyStr.lower_char c.
Proof. destruct c as [[] [] [] [] [] [] [] []]; reflexivity. Qed.

Lemma lower_idempotent (s : string) : PyStr.lower (PyStr.lower s) = PyStr.lower s.
Proof.
  induction s as [|c s IH]; [done |].
  cbn [PyStr.lower]. by rewrite lower_char_idempotent, IH.
Qed.

Lemma lower_append (a b : string) :
  PyStr.lower (a +:+ b) = PyStr.lower a +:+ PyStr.lower b.
Proof.
  induction a as [|c a IH]; [done |].
  rewrite append_cons. cbn [PyStr.lower]. by rewrite IH, append_cons.
Qed.

Lemma append_assoc (a b c : string) : (a +:+ b) +:+ c = a +:+ (b +:+ c).
Proof.
  induction a as [|x a IH]; [done |]. by rewrite !append_cons, IH.
Qed.

Lemma contains_surrounded (needle pre hay post : string) :
  PyStr.contains needle hay = true ->
  PyStr.contains needle (pre +:+ hay +:+ post) = true.
Proof.
  rewrite !contains_spec. intros (a & b & ->).
  exists (pre +:+ a), (b +:+ post). by rewrite !append_assoc.
Qed.

Lemma classify_message_fallback {Features : Type} (g : App.Globals Features)
    (elapsed_ms : Z) (text : string) :
  App.ml_model g = None \/ App.vectorizer g = None ->
  App.classify_message g elapsed_ms text
  = if PyStr.contains "urgent" (PyStr.lower text) || PyStr.contains "click" (PyStr.lower text)
    then (true, 3 # 4, "HIGH", elapsed_ms)
    else (false, 1 # 4, "HIGH", elapsed_ms).
Proof.
  intros Hnone. unfold App.classify_message.
  destruct Hnone as [-> | ->]; [| destruct (App.ml_model g)];
    by destruct (PyStr.contains "urgent" (PyStr.lower text)
                 || PyStr.contains "click" (PyStr.lower text)).
Qed.

(** X12. Without a model the classifier has two outcomes only, phishing
    with score 0.75 and safe with score 0.25, and both carry the
    confidence HIGH: the MEDIUM tier of the fallback rule is never
    reported. *)
Theorem heuristic_confidence_is_always_high :
  forall (Features : Type) (g : App.Globals Features) (elapsed_ms : Z) (text : string),
    App.ml_model g = None \/ App.vectorizer g = None ->
    App.classify_message g elapsed_ms text = (true, 3 # 4, "HIGH", elapsed_ms)
    \/ App.classify_message g elapsed_ms text = (false, 1 # 4, "HIGH", elapsed_ms).
Proof.
  intros Features g elapsed_ms text Hnone.
  rewrite (classify_message_fallback g elapsed_ms text Hnone).
  destruct (_ || _); [by left | by right].
Qed.

Lemma heuristic_confidence_is_always_high_witness :
  App.classify_message Sample.heuristic_only 5 "lunch at noon?"
  = (true, 3 # 4, "HIGH", 5)
  \/ App.classify_message Sample.heuristic_only 5 "lunch at noon?"
     = (false, 1 # 4, "HIGH", 5).
Proof.
  apply (heuristic_confidence_is_always_high unit Sample.heuristic_only 5
           "lunch at noon?").
  left. reflexivity.
Defined.

(** X13. Without a model the verdict cannot be escaped by padding or by
    changing letter case: a text flagged as phishing stays flagged inside
    any longer text, and a text is classified exactly as its lowercased
    form (whatever the measured time). *)
Theorem heuristic_verdict_survives_padding_and_case :
  forall (Features : Type) (g : App.Globals Features) (e1 e2 : Z)
         (pre text post : string),
    App.ml_model g = None \/ App.vectorizer g = None ->
    (App.classify_message g e1 text = (true, 3 # 4, "HIGH", e1) ->
     App.classify_message g e2 (pre +:+ text +:+ post) = (true, 3 # 4, "HIGH", e2))
    /\ fst (App.classify_message g e1 (PyStr.lower text))
       = fst (App.classify_message g e2 text).
Proof.
  intros Features g e1 e2 pre text post Hnone.
  rewrite !(classify_message_fallback g _ _ Hnone). split.
  - rewrite !lower_append.
    destruct (PyStr.contains "urgent" (PyStr.lower text)) eqn:Hu.
    + intros _. by rewrite (contains_surrounded _ _ _ _ Hu).
    + destruct (PyStr.contains "click" (PyStr.lower text)) eqn:Hc; [| discriminate].
      intros _. rewrite (contains_surrounded _ _ _ _ Hc). by rewrite orb_true_r.
  - rewrite lower_idempotent. by destruct (_ || _).
Qed.

Lemma heuristic_verdict_survives_padding_and_case_witness :
  (App.classify_message Sample.heuristic_only 1 "Click" = (true, 3 # 4, "HIGH", 1) ->
   App.classify_message Sample.heuristic_only 2 ("Dear user, " +:+ "Click" +:+ " here")
   = (true, 3 # 4, "HIGH", 2))
  /\ fst (App.classify_message Sample.heuristic_only 1 (PyStr.lower "Click"))
     = fst (App.classify_message Sample.heuristic_only 2 "Click").
Proof.
  apply (heuristic_verdict_survives_padding_and_case unit Sample.heuristic_only 1 2
           "Dear user, " "Click" " here").
  left. reflexivity.
Defined.

(** ** Well-formedness of the scan log *)

Lemma rstrip_idempotent (s : string) : PyStr.rstrip (PyStr.rstrip s) = PyStr.rstrip s.
Proof.
  induction s as [|c s IH]; [done |].
  cbn [PyStr.rstrip]. destruct (PyStr.rstrip s) as [|d r] eqn:Hr.
  - destruct (PyStr.is_space c) eqn:Hc; [done |].
    cbn [PyStr.rstrip]. by rewrite Hc.
  - cbn [PyStr.rstrip] in *. by rewrite IH.
Qed.

Lemma lstrip_no_leading_space (s : string) : LogInvariant.no_leading_space (PyStr.lstrip s).
Proof.
  induction s as [|c s IH]; [done |].
  cbn [PyStr.lstrip]. by destruct (PyStr.is_space c) eqn:Hc.
Qed.

Lemma rstrip_no_leading_space (s : string) :
  LogInvariant.no_leading_space s -> LogInvariant.no_leading_space (PyStr.rstrip s).
Proof.
  destruct s as [|c s]; [done |]. cbn [PyStr.rstrip LogInvariant.no_leading_space].
  intros Hc. rewrite Hc. by destruct (PyStr.rstrip s).
Qed.

Lemma lstrip_fixed (s : string) : LogInvariant.no_leading_space s -> PyStr.lstrip s = s.
Proof.
  destruct s as [|c s]; [done |]. cbn [PyStr.lstrip LogInvariant.no_leading_space]. by intros ->.
Qed.

Lemma strip_idempotent (s : string) : PyStr.strip (PyStr.strip s) = PyStr.strip s.
Proof.
  unfold PyStr.strip.
  rewrite (lstrip_fixed (PyStr.rstrip (PyStr.lstrip s))).
  - apply rstrip_idempotent.
  - apply rstrip_no_leading_space, lstrip_no_leading_space.
Qed.

Lemma classify_message_shape {Features : Type} (g : App.Globals Features)
    (elapsed_ms : Z) (text : string) :
  exists verdict r tier,
    App.classify_message g elapsed_ms text = (verdict, r, tier, elapsed_ms)
    /\ verdict = PyFloat.gt r (1 # 2)
    /\ tier ∈ ["HIGH"; "MEDIUM"; "LOW"].
Proof.
  unfold App.classify_message.
  destruct (App.ml_model g) as [model|], (App.vectorizer g) as [vec|];
    eexists _, _, _; (split; [reflexivity |]); (split; [reflexivity |]);
    repeat match goal with |- context [if ?b then _ else _] => destruct b end;
    repeat constructor.
Qed.

Lemma sorted_ids_filter (p : ScanHistory.row -> bool) (rows : list ScanHistory.row) :
  StronglySorted Z.lt (map ScanHistory.id rows) ->
  StronglySorted Z.lt (map ScanHistory.id (List.filter p rows)).
Proof.
  induction rows as [|r rows IH]; [done |].
  cbn [map List.filter]. intros Hs. apply StronglySorted_inv in Hs as [Hs Hr].
  destruct (p r); [| by apply IH].
  cbn [map]. constructor; [by apply IH |].
  rewrite List.Forall_forall in *. intros x Hx. apply Hr.
  apply in_map_iff in Hx as (y & <- & Hy). apply in_map.
  apply List.filter_In in Hy. tauto.
Qed.

Section LogWellFormed.
Context {Features : Type}.
Variable sha : string -> string.
Variable g : App.Globals Features.

Lemma step_log_well_formed (db : Database) (op : Core.Operation) :
  LogInvariant.log_well_formed sha (scan_history db) ->
  LogInvariant.log_well_formed sha (scan_history (Core.step sha g db op)).
Proof.
  intros [Hrows Hids]. destruct op as [req | req | now days | now days]; cbn [Core.step].
  - unfold App.scan_message.
    destruct (App.scan_json req) as [data|]; [| done].
    destruct (App.message data) as [raw|]; [| done].
    destruct (String.eqb (PyStr.strip raw) "") eqn:Hne; [done |].
    apply String.eqb_neq in Hne.
    destruct (classify_message_shape g (App.elapsed_ms req) (PyStr.strip raw))
      as (verdict & r & tier & -> & Hverdict & Htier).
    cbn [snd scan_history]. split.
    + apply Forall_app. split; [done |]. constructor; [| constructor].
      unfold LogInvariant.row_well_formed. cbn.
      split; [apply next_id_positive |]. split; [done |].
      split; [apply strip_idempotent |]. split; [done |]. split; [done |].
      split; [done |]. by exists tier.
    + rewrite map_app. cbn [map ScanHistory.id].
      apply StronglySorted_app_2; [| done | repeat constructor].
      intros x1 x2 Hx1 Hx2. apply list_elem_of_singleton in Hx2 as ->.
      apply list_elem_of_fmap in Hx1 as (old & -> & Hold).
      apply next_id_above. by apply list_elem_of_In.
  - unfold App.submit_feedback.
    destruct (App.feedback_json req) as [data|]; [| done].
    destruct (negb (App.truthy_int (App.scan_id data))
              || negb (PyStr.truthy (App.feedback data))); [done |].
    destruct (negb (App.valid_feedback (default "" (App.feedback data)))); [done |].
    destruct (App.query_get _ _) as [scan|]; [| done].
    cbn [snd scan_history]. split; [| by rewrite set_feedback_ids].
    clear Hids. induction Hrows as [|r rows Hr Hrows IH]; [constructor |].
    cbn [App.set_feedback]. destruct (ScanHistory.id r =? _); constructor; done.
  - cbn [DataManagement.delete_old_scans snd scan_history]. split.
    + rewrite List.Forall_forall in *. intros r Hr. apply Hrows.
      apply List.filter_In in Hr. tauto.
    + by apply sorted_ids_filter.
  - rewrite anonymize_old_data_rows. split.
    + rewrite List.Forall_forall in *. intros r Hr.
      apply in_map_iff in Hr as (old & <- & Hold). specialize (Hrows old Hold).
      by destruct (_ <? _).
    + rewrite map_map. erewrite map_ext; [exact Hids |].
      intros r. by destruct (_ <? _).
Qed.

Lemma run_log_well_formed (ops : list Core.Operation) :
  forall db, LogInvariant.log_well_formed sha (scan_history db) ->
             LogInvariant.log_well_formed sha (scan_history (Core.run sha g ops db)).
Proof.
  induction ops as [|op ops IH]; intros db Hdb; [done |].
  cbn [Core.run fold_left]. apply IH. by apply step_log_well_formed.
Qed.

End LogWellFormed.

(** X14. In every database reached from the empty one by any sequence of
    operations, each row of the scan log has a positive identity, a
    message text that is non-empty and already stripped (free of leading
    and trailing whitespace), the fingerprint of exactly that text, a
    verdict that is [risk_score > 0.5], the model version, and one of the
    three confidence tiers. *)
Theorem scan_log_rows_well_formed :
  forall (Features : Type) (sha : string -> string) (g : App.Globals Features)
         (ops : list Core.Operation) (r : ScanHistory.row),
    In r (scan_history (Core.run sha g ops empty_database)) ->
    LogInvariant.row_well_formed sha r.
Proof.
  intros Features sha g ops r Hr.
  destruct (run_log_well_formed sha g ops empty_database) as [Hrows _].
  { split; constructor. }
  rewrite List.Forall_forall in Hrows. by apply Hrows.
Qed.

Lemma scan_log_rows_well_formed_witness :
  LogInvariant.row_well_formed (fun s => s)
    {| ScanHistory.id := 1;
       ScanHistory.user_id := None;
       ScanHistory.device_id := None;
       ScanHistory.message_text := "click  now";
       ScanHistory.message_hash := Some "click  now";
       ScanHistory.is_phishing := true;
       ScanHistory.risk_score := 3 # 4;
       ScanHistory.confidence_level := Some "HIGH";
       ScanHistory.model_version := Some "v1.0.0";
       ScanHistory.prediction_time_ms := Some 2;
       ScanHistory.created_at := 300;
       ScanHistory.user_feedback := Some "UNSURE";
       ScanHistory.feedback_timestamp := Some 200;
       ScanHistory.ip_address := None;
       ScanHistory.user_agent := None |}.
Proof.
  apply (scan_log_rows_well_formed unit (fun s => s) Sample.heuristic_only
           [Core.Scan (Sample.scan_request "  click  now " (Some "alice"));
            Core.Feedback (Sample.feedback_request 1 "UNSURE");
            Core.AnonymizeOldData 400 0]).
  left. reflexivity.
Defined.

(** X15. In every database reached from the empty one by any sequence of
    operations, the identities of the scan log increase strictly along the
    log, so no two rows share an identity and a lookup by identity finds
    the only row that carries it. *)
Theorem scan_log_identities_increase :
  forall (Features : Type) (sha : string -> string) (g : App.Globals Features)
         (ops : list Core.Operation),
    let rows := scan_history (Core.run sha g ops empty_database) in
    StronglySorted Z.lt (map ScanHistory.id rows)
    /\ NoDup (map ScanHistory.id rows)
    /\ (forall r, In r rows -> App.query_get (ScanHistory.id r) rows = Some r).
Proof.
  intros Features sha g ops rows.
  destruct (run_log_well_formed sha g ops empty_database) as [_ Hids].
  { split; constructor. }
  fold rows in Hids. split; [done |].
  assert (Hgen : forall l, StronglySorted Z.lt (map ScanHistory.id l) ->
            NoDup (map ScanHistory.id l)
            /\ forall r, In r l -> App.query_get (ScanHistory.id r) l = Some r).
  { clear. induction l as [|x l IH]; intros Hs.
    - split; [constructor | intros r []].
    - cbn [map] in Hs. apply StronglySorted_inv in Hs as [Hs Hx].
      destruct (IH Hs) as [Hnd Hget]. split.
      + cbn [map]. constructor; [| done].
        rewrite List.Forall_forall in Hx. intros Hin.
        apply list_elem_of_In in Hin. specialize (Hx _ Hin). lia.
      + intros r [-> | Hr]; unfold App.query_get; cbn [find].
        * by rewrite Z.eqb_refl.
        * rewrite List.Forall_forall in Hx.
          assert (ScanHistory.id x < ScanHistory.id r) by (apply Hx; by apply in_map).
          destruct (ScanHistory.id x =? ScanHistory.id r) eqn:Heq;
            [apply Z.eqb_eq in Heq; lia |]. by apply Hget. }
  by apply Hgen.
Qed.

(** ** Model metrics *)

Section Metrics.
Import ModelMetrics.

Lemma inject_Z_pos (n : Z) : 0 < n -> (0 < inject_Z n)%Q.
Proof. intros Hn. change 0%Q with (inject_Z 0). by rewrite <- Zlt_Qlt. Qed.

Lemma inject_Z_nonneg (n : Z) : 0 <= n -> (0 <= inject_Z n)%Q.
Proof. intros Hn. change 0%Q with (inject_Z 0). by rewrite <- Zle_Qle. Qed.

(** A ratio [a / (a + b)] of non-negative integers lies in the unit
    interval. *)
Lemma ratio_unit_interval (a b : Z) :
  0 <= a -> 0 <= b -> 0 < a + b ->
  (0 <= inject_Z a / inject_Z (a + b))%Q /\ (inject_Z a / inject_Z (a + b) <= 1)%Q.
Proof.
  intros Ha Hb Hab.
  pose proof (inject_Z_pos _ Hab) as Hpos.
  pose proof (inject_Z_nonneg _ Ha) as Ha'.
  pose proof (inject_Z_nonneg _ Hb) as Hb'.
  split.
  - apply Qle_shift_div_l; [done |]. lra.
  - apply Qle_shift_div_r; [done |]. rewrite inject_Z_plus in *. lra.
Qed.

End Metrics.

(** X16. For non-negative confusion counts, [calculate_metrics] stores a
    precision, a recall and an F1 score that all lie between 0 and 1, with
    no division by zero: precision is [tp / (tp + fp)] when that sum is
    positive and 0 otherwise, recall is [tp / (tp + fn)] when that sum is
    positive and 0 otherwise; the counts themselves are left as they
    were. *)
Theorem calculate_metrics_in_unit_interval :
  forall (m : ModelMetrics.row),
    0 <= ModelMetrics.true_positives m ->
    0 <= ModelMetrics.false_positives m ->
    0 <= ModelMetrics.false_negatives m ->
    exists p r f,
      ModelMetrics.calculate_metrics m = ModelMetrics.with_metrics m p r f
      /\ (0 <= p)%Q /\ (p <= 1)%Q
      /\ (0 <= r)%Q /\ (r <= 1)%Q
      /\ (0 <= f)%Q /\ (f <= 1)%Q
      /\ (0 < ModelMetrics.true_positives m + ModelMetrics.false_positives m ->
            (p == inject_Z (ModelMetrics.true_positives m)
                  / inject_Z (ModelMetrics.true_positives m
                              + ModelMetrics.false_positives m))%Q)
      /\ (ModelMetrics.true_positives m + ModelMetrics.false_positives m = 0 -> p = 0%Q)
      /\ (0 < ModelMetrics.true_positives m + ModelMetrics.false_negatives m ->
            (r == inject_Z (ModelMetrics.true_positives m)
                  / inject_Z (ModelMetrics.true_positives m
                              + ModelMetrics.false_negatives m))%Q)
      /\ (ModelMetrics.true_positives m + ModelMetrics.false_negatives m = 0 -> r = 0%Q).
Proof.
  intros m Htp Hfp Hfn. unfold ModelMetrics.calculate_metrics.
  set (tp := ModelMetrics.true_positives m) in *.
  set (fp := ModelMetrics.false_positives m) in *.
  set (fn := ModelMetrics.false_negatives m) in *.
  set (p := if 0 <? tp + fp then (inject_Z tp / inject_Z (tp + fp))%Q else 0%Q).
  set (r := if 0 <? tp + fn then (inject_Z tp / inject_Z (tp + fn))%Q else 0%Q).
  assert (Hp : (0 <= p)%Q /\ (p <= 1)%Q).
  { unfold p. destruct (0 <? tp + fp) eqn:H; [| split; lra].
    apply Z.ltb_lt in H. by apply ratio_unit_interval. }
  assert (Hr : (0 <= r)%Q /\ (r <= 1)%Q).
  { unfold r. destruct (0 <? tp + fn) eqn:H; [| split; lra].
    apply Z.ltb_lt in H. by apply ratio_unit_interval. }
  exists p, r, (if PyFloat.gt (p + r) 0 then (2 * (p * r) / (p + r))%Q else 0%Q).
  split; [reflexivity |].
  destruct Hp as [Hp0 Hp1], Hr as [Hr0 Hr1].
  split; [done |]. split; [done |]. split; [done |]. split; [done |].
  assert (Hf : (0 <= (if PyFloat.gt (p + r) 0 then 2 * (p * r) / (p + r) else 0))%Q
               /\ ((if PyFloat.gt (p + r) 0 then 2 * (p * r) / (p + r) else 0) <= 1)%Q).
  { destruct (PyFloat.gt (p + r) 0) eqn:Hsum; [| split; lra].
    apply gt_true in Hsum.
    assert (Hpr : (0 <= p * r)%Q) by (by apply Qmult_le_0_compat).
    assert (Hpr1 : (p * r <= p)%Q).
    { rewrite <- (Qmult_1_r p) at 2. rewrite !(Qmult_comm p).
      by apply Qmult_le_compat_r. }
    assert (Hpr2 : (p * r <= r)%Q).
    { rewrite <- (Qmult_1_l r) at 2. by apply Qmult_le_compat_r. }
    split.
    - apply Qle_shift_div_l; [done |]. lra.
    - apply Qle_shift_div_r; [done |]. lra. }
  destruct Hf as [Hf0 Hf1]. split; [done |]. split; [done |].
  unfold p, r. repeat split.
  - intros H. apply Z.ltb_lt in H. by rewrite H.
  - intros H. by rewrite H.
  - intros H. apply Z.ltb_lt in H. by rewrite H.
  - intros H. by rewrite H.
Qed.

Lemma calculate_metrics_in_unit_interval_witness :
  exists p r f,
    ModelMetrics.calculate_metrics
      {| ModelMetrics.id := 1; ModelMetrics.model_version := "v1.0.0";
         ModelMetrics.total_predictions := 10; ModelMetrics.phishing_predictions := 4;
         ModelMetrics.safe_predictions := 6; ModelMetrics.true_positives := 3;
         ModelMetrics.false_positives := 1; ModelMetrics.true_negatives := 4;
         ModelMetrics.false_negatives := 2; ModelMetrics.precision := None;
         ModelMetrics.recall := None; ModelMetrics.f1_score := None;
         ModelMetrics.average_inference_time_ms := None;
         ModelMetrics.min_inference_time_ms := None;
         ModelMetrics.max_inference_time_ms := None;
         ModelMetrics.metric_date := 0; ModelMetrics.created_at := None |}
    = ModelMetrics.with_metrics
        {| ModelMetrics.id := 1; ModelMetrics.model_version := "v1.0.0";
           ModelMetrics.total_predictions := 10; ModelMetrics.phishing_predictions := 4;
           ModelMetrics.safe_predictions := 6; ModelMetrics.true_positives := 3;
           ModelMetrics.false_positives := 1; ModelMetrics.true_negatives := 4;
           ModelMetrics.false_negatives := 2; ModelMetrics.precision := None;
           ModelMetrics.recall := None; ModelMetrics.f1_score := None;
           ModelMetrics.average_inference_time_ms := None;
           ModelMetrics.min_inference_time_ms := None;
           ModelMetrics.max_inference_time_ms := None;
           ModelMetrics.metric_date := 0; ModelMetrics.created_at := None |} p r f
    /\ (0 <= p)%Q /\ (p <= 1)%Q /\ (0 <= r)%Q /\ (r <= 1)%Q /\ (0 <= f)%Q /\ (f <= 1)%Q.
Proof.
  destruct (calculate_metrics_in_unit_interval
              {| ModelMetrics.id := 1; ModelMetrics.model_version := "v1.0.0";
                 ModelMetrics.total_predictions := 10;
                 ModelMetrics.phishing_predictions := 4;
                 ModelMetrics.safe_predictions := 6; ModelMetrics.true_positives := 3;
                 ModelMetrics.false_positives := 1; ModelMetrics.true_negatives := 4;
                 ModelMetrics.false_negatives := 2; ModelMetrics.precision := None;
                 ModelMetrics.recall := None; ModelMetrics.f1_score := None;
                 ModelMetrics.average_inference_time_ms := None;
                 ModelMetrics.min_inference_time_ms := None;
                 ModelMetrics.max_inference_time_ms := None;
                 ModelMetrics.metric_date := 0; ModelMetrics.created_at := None |})
    as (p & r & f & Hrun & Hp0 & Hp1 & Hr0 & Hr1 & Hf0 & Hf1 & _); cbn; try lia.
  exists p, r, f. repeat split; assumption.
Defined.



(** ** Ordering, limits and pages *)

#[global] Instance desc_total {A : Type} (key : A -> Z) : Total (Sql.desc key).
Proof. intros a b. unfold Sql.desc. lia. Qed.

#[global] Instance desc_transitive {A : Type} (key : A -> Z) : Transitive (Sql.desc key).
Proof. intros a b c. unfold Sql.desc. lia. Qed.

#[global] Instance desc_float_total {A : Type} (key : A -> Q) :
  Total (Sql.desc_float key).
Proof.
  intros a b. unfold Sql.desc_float.
  destruct (Qlt_le_dec (key a) (key b)) as [H | H]; [right; by apply Qlt_le_weak | by left].
Qed.

#[global] Instance desc_float_transitive {A : Type} (key : A -> Q) :
  Transitive (Sql.desc_float key).
Proof. intros a b c. unfold Sql.desc_float. intros H1 H2. by apply Qle_trans with (key b). Qed.

Section Ordered.
Context {A : Type} (R : relation A) `{!RelDecision R, !Total R, !Transitive R}.

Lemma merge_sort_In (l : list A) (x : A) : In x (merge_sort R l) <-> In x l.
Proof.
  rewrite <- !list_elem_of_In. by rewrite (merge_sort_Permutation R l).
Qed.

Lemma merge_sort_length (l : list A) : length (merge_sort R l) = length l.
Proof. by rewrite (merge_sort_Permutation R l). Qed.

Lemma limit_sublist (n : Z) (l : list A) : sublist (Sql.limit n l) l.
Proof.
  unfold Sql.limit. destruct (n <? 0); [done |]. apply sublist_take.
Qed.

Lemma offset_sublist (n : Z) (l : list A) : sublist (Sql.offset n l) l.
Proof. apply sublist_drop. Qed.

Lemma sublist_In (l1 l2 : list A) (x : A) : sublist l1 l2 -> In x l1 -> In x l2.
Proof.
  intros Hsub Hin. apply list_elem_of_In. apply list_elem_of_In in Hin.
  by apply (sublist_subseteq _ _ Hsub).
Qed.

Lemma sublist_StronglySorted (l1 l2 : list A) :
  sublist l1 l2 -> StronglySorted R l2 -> StronglySorted R l1.
Proof.
  induction 1 as [|x l1 l2 Hsub IH | x l1 l2 Hsub IH]; intros Hs; [done | |].
  - apply StronglySorted_inv in Hs as [Hs Hx]. constructor; [by apply IH |].
    rewrite List.Forall_forall in *. intros y Hy. apply Hx. by apply (sublist_In l1 l2).
  - apply StronglySorted_inv in Hs as [Hs _]. by apply IH.
Qed.

Lemma limit_length (n : Z) (l : list A) :
  0 <= n -> Z.of_nat (length (Sql.limit n l)) = Z.min n (Z.of_nat (length l)).
Proof.
  intros Hn. unfold Sql.limit.
  destruct (n <? 0) eqn:Hneg; [apply Z.ltb_lt in Hneg; lia |].
  rewrite length_take. lia.
Qed.

Lemma offset_length (n : Z) (l : list A) :
  Z.of_nat (length (Sql.offset n l)) = Z.max 0 (Z.of_nat (length l) - Z.max 0 n).
Proof. unfold Sql.offset. rewrite length_drop. lia. Qed.

(** The rows a sorted and limited query returns. *)
Lemma limited_sorted_query (n : Z) (l : list A) :
  let result := Sql.limit n (merge_sort R l) in
  StronglySorted R result
  /\ (forall x, In x result -> In x l)
  /\ (0 <= n -> Z.of_nat (length result) = Z.min n (Z.of_nat (length l)))
  /\ (n < 0 \/ Z.of_nat (length l) <= n -> result ≡ₚ l)
  /\ (forall x y, In x result -> In y l -> ~ In y result -> R x y).
Proof.
  intros result. unfold result.
  pose proof (StronglySorted_merge_sort R l) as Hsorted.
  split; [by apply (sublist_StronglySorted _ _ (limit_sublist n _)) |].
  split.
  { intros x Hx. apply merge_sort_In. by apply (sublist_In _ _ _ (limit_sublist n _)). }
  split; [intros Hn; by rewrite limit_length, merge_sort_length |].
  split.
  { intros Hall. unfold Sql.limit. destruct (n <? 0) eqn:Hneg.
    - apply merge_sort_Permutation.
    - apply Z.ltb_ge in Hneg. rewrite take_ge; [apply merge_sort_Permutation |].
      rewrite merge_sort_length. lia. }
  intros x y Hx Hy Hny. unfold Sql.limit in *.
  destruct (n <? 0); [exfalso; apply Hny; by apply merge_sort_In |].
  apply (merge_sort_In l) in Hy.
  rewrite <- (take_drop (Z.to_nat n) (merge_sort R l)) in Hy, Hsorted.
  apply in_app_or in Hy as [Hy | Hy]; [done |].
  apply (StronglySorted_app_1_elem_of R _ _ x y Hsorted); by apply list_elem_of_In.
Qed.

End Ordered.

(** ** The read endpoints *)

Lemma history_query_In (u : string) (po : bool) (rows : list ScanHistory.row)
    (r : ScanHistory.row) :
  In r (AppQueries.history_query u po rows)
  <-> In r rows /\ ScanHistory.user_id r = Some u
      /\ (po = true -> ScanHistory.is_phishing r = true).
Proof.
  unfold AppQueries.history_query, TestSystem.filter_by_user_id.
  destruct po; rewrite ?List.filter_In, bool_decide_eq_true; [tauto |].
  split; [intros [H1 H2]; repeat split; try done | tauto].
Qed.

(** X19. For a request with a non-empty user id, GET /api/history answers
    with a page of the user's scans (the phishing ones only when
    [phishing_only] is "true" in any letter case): every entry presents a
    row of the log that belongs to the user, entries are ordered from the
    newest to the oldest, the limit is capped at 200 (50 when absent), a
    non-negative limit and offset give exactly
    [min(limit, max(0, total - offset))] entries, [total_count] counts all
    matching rows whatever the page, and [has_more] holds exactly when
    [offset + limit < total_count]. *)
Theorem get_scan_history_page :
  forall (args : AppQueries.HistoryArgs) (db : Database) (u : string),
    AppQueries.user_id args = Some u ->
    u <> "" ->
    let lim := Z.min (default 50 (AppQueries.limit args)) 200 in
    let off := default 0 (AppQueries.offset args) in
    let po :=
      String.eqb (PyStr.lower (default "false" (AppQueries.phishing_only args))) "true" in
    let total := Z.of_nat (length (AppQueries.history_query u po (scan_history db))) in
    exists page,
      AppQueries.get_scan_history args db
      = AppQueries.HistoryPage (map ScanDict.to_dict page) total lim off (off + lim <? total)
      /\ lim <= 200
      /\ (forall r, In r page ->
            In r (scan_history db) /\ ScanHistory.user_id r = Some u
            /\ (po = true -> ScanHistory.is_phishing r = true))
      /\ StronglySorted (Sql.desc ScanHistory.created_at) page
      /\ (0 <= lim -> 0 <= off ->
            Z.of_nat (length page) = Z.min lim (Z.max 0 (total - off)))
      /\ (0 <= lim -> Z.of_nat (length page) <= 200).
Proof.
  intros args db u Huser Hu lim off po total.
  unfold AppQueries.get_scan_history. rewrite Huser.
  apply String.eqb_neq in Hu. cbn [PyStr.truthy from_option id]. rewrite Hu. cbn [negb].
  fold lim off po.
  set (query := AppQueries.history_query u po (scan_history db)).
  set (sorted := merge_sort (Sql.desc ScanHistory.created_at) query).
  exists (Sql.limit lim (Sql.offset off sorted)).
  split; [reflexivity |]. split; [unfold lim; lia |].
  assert (Hsub : sublist (Sql.limit lim (Sql.offset off sorted)) sorted).
  { etrans; [apply limit_sublist | apply offset_sublist]. }
  assert (Hlen : 0 <= lim -> 0 <= off ->
            Z.of_nat (length (Sql.limit lim (Sql.offset off sorted)))
            = Z.min lim (Z.max 0 (total - off))).
  { intros Hlim Hoff. rewrite limit_length by done. rewrite offset_length.
    unfold sorted. rewrite merge_sort_length.
    change total with (Z.of_nat (length query)). lia. }
  split; [| split; [| split; [done |]]].
  - intros r Hr. apply (history_query_In u po). fold query.
    apply (merge_sort_In (Sql.desc ScanHistory.created_at)).
    by apply (sublist_In _ _ _ Hsub).
  - apply (sublist_StronglySorted _ _ _ Hsub).
    apply (StronglySorted_merge_sort _).
  - intros Hlim. unfold Sql.limit.
    destruct (lim <? 0) eqn:Hneg; [apply Z.ltb_lt in Hneg; lia |].
    rewrite length_take. unfold lim. lia.
Qed.

Lemma get_scan_history_page_witness :
  let args :=
    {| AppQueries.user_id := Some "alice"; AppQueries.limit := Some 500;
       AppQueries.offset := None; AppQueries.phishing_only := Some "True" |} in
  let total :=
    Z.of_nat (length (AppQueries.history_query "alice" true
                        (scan_history Sample.database))) in
  exists page,
    AppQueries.get_scan_history args Sample.database
    = AppQueries.HistoryPage (map ScanDict.to_dict page) total 200 0 (0 + 200 <? total)
    /\ 200 <= 200
    /\ (forall r, In r page ->
          In r (scan_history Sample.database) /\ ScanHistory.user_id r = Some "alice"
          /\ (true = true -> ScanHistory.is_phishing r = true))
    /\ StronglySorted (Sql.desc ScanHistory.created_at) page
    /\ (0 <= 200 -> 0 <= 0 -> Z.of_nat (length page) = Z.min 200 (Z.max 0 (total - 0)))
    /\ (0 <= 200 -> Z.of_nat (length page) <= 200).
Proof.
  apply (get_scan_history_page
           {| AppQueries.user_id := Some "alice"; AppQueries.limit := Some 500;
              AppQueries.offset := None; AppQueries.phishing_only := Some "True" |}
           Sample.database "alice").
  - reflexivity.
  - discriminate.
Defined.

Lemma run_table_tracked {Features : Type} (sha : string -> string)
    (g : App.Globals Features) (ops : list Core.Operation) :
  Soundness.table_tracked (user_statistics (Core.run sha g ops empty_database)).
Proof.
  assert (Hgen : forall db, Soundness.table_tracked (user_statistics db) ->
             Soundness.table_tracked (user_statistics (Core.run sha g ops db))).
  { induction ops as [|op ops IH]; intros db Hdb; [done |].
    cbn [Core.run fold_left]. apply IH. by apply step_tracked. }
  apply Hgen. intros v row Hrow. simpl in Hrow. by rewrite lookup_empty in Hrow.
Qed.

(** X20. After any sequence of scan requests and feedback submissions on
    the empty database, GET /api/statistics/<user> (for a non-empty user
    id) answers 404 exactly when the log holds no scan of that user, and
    otherwise presents a row whose total is the number of the user's scans
    in the log. *)
Theorem get_user_statistics_reflects_log :
  forall (Features : Type) (sha : string -> string) (g : App.Globals Features)
         (ops : list Core.Operation) (u : string),
    forallb Invariants.is_request ops = true ->
    u <> "" ->
    let db := Core.run sha g ops empty_database in
    let mine := TestSystem.filter_by_user_id u (scan_history db) in
    match AppQueries.get_user_statistics u db with
    | AppQueries.StatisticsNotFound _ _ => mine = []
    | AppQueries.StatisticsFound d _ =>
        mine <> []
        /\ StatsDict.user_id d = u
        /\ StatsDict.total_scans d = Z.of_nat (length mine)
        /\ StatsDict.phishing_detected d + StatsDict.safe_messages d
           = StatsDict.total_scans d
    end.
Proof.
  intros Features sha g ops u Hreq Hu db mine.
  destruct (run_log_consistent sha g ops Hreq empty_database
              empty_database_log_consistent) as [_ Hinv].
  specialize (Hinv u Hu). fold db in Hinv. fold mine in Hinv.
  assert (Hsound : forall st, user_statistics db !! u = Some st ->
            UserStatistics.user_id st = u).
  { intros st Hst.
    pose proof (run_table_tracked sha g ops) as Htr. fold db in Htr.
    by destruct (Htr _ _ Hst) as (_ & Hid & _). }
  unfold AppQueries.get_user_statistics.
  destruct (user_statistics db !! u) as [st|] eqn:Hst; [| done].
  destruct mine as [|s0 rest]; [done |].
  destruct Hinv as (Htot & Hph & Hsafe & _).
  cbn [StatsDict.to_dict StatsDict.user_id StatsDict.total_scans
       StatsDict.phishing_detected StatsDict.safe_messages].
  split; [done |]. split; [by apply Hsound |]. split; [done |]. lia.
Qed.

Lemma get_user_statistics_reflects_log_witness :
  let db :=
    Core.run (fun s => s) Sample.heuristic_only
      [Core.Scan (Sample.scan_request " click now " (Some "alice"));
       Core.Scan (Sample.scan_request "hello" (Some "bob"));
       Core.Feedback (Sample.feedback_request 1 "CORRECT");
       Core.Scan (Sample.scan_request "see you at 7" (Some "alice"))]
      empty_database in
  let mine := TestSystem.filter_by_user_id "alice" (scan_history db) in
  match AppQueries.get_user_statistics "alice" db with
  | AppQueries.StatisticsNotFound _ _ => mine = []
  | AppQueries.StatisticsFound d _ =>
      mine <> []
      /\ StatsDict.user_id d = "alice"
      /\ StatsDict.total_scans d = Z.of_nat (length mine)
      /\ StatsDict.phishing_detected d + StatsDict.safe_messages d
         = StatsDict.total_scans d
  end.
Proof.
  apply (get_user_statistics_reflects_log unit (fun s => s) Sample.heuristic_only
           [Core.Scan (Sample.scan_request " click now " (Some "alice"));
            Core.Scan (Sample.scan_request "hello" (Some "bob"));
            Core.Feedback (Sample.feedback_request 1 "CORRECT");
            Core.Scan (Sample.scan_request "see you at 7" (Some "alice"))] "alice").
  - reflexivity.
  - discriminate.
Defined.

(** ** The dashboard *)

Lemma round_half_even_between (a b : Z) (y : Q) :
  (inject_Z a <= y)%Q -> (y <= inject_Z b)%Q ->
  a <= PyFloat.round_half_even y <= b.
Proof.
  intros Ha Hb. unfold PyFloat.round_half_even.
  pose proof (Qfloor_le y) as Hlo. pose proof (Qlt_floor y) as Hhi.
  assert (Haf : a <= Qfloor y).
  { rewrite <- (Qfloor_Z a). by apply Qfloor_resp_le. }
  assert (Hfb : Qfloor y <= b).
  { rewrite <- (Qfloor_Z b). by apply Qfloor_resp_le. }
  assert (Hup : (1 # 2 <= y - inject_Z (Qfloor y))%Q -> Qfloor y + 1 <= b).
  { intros Hhalf. assert (Hlt : (inject_Z (Qfloor y) < inject_Z b)%Q) by lra.
    rewrite <- Zlt_Qlt in Hlt. lia. }
  destruct (Qcompare (y - inject_Z (Qfloor y)) (1 # 2)) eqn:Hcmp.
  - apply Qeq_alt in Hcmp. destruct (Z.even (Qfloor y)); [lia |].
    split; [lia |]. apply Hup. lra.
  - lia.
  - apply Qgt_alt in Hcmp. split; [lia |]. apply Hup. lra.
Qed.

(** Rounding to [n] decimals keeps a value between two integers between
    them. *)
Lemma round_between (a b : Z) (x : Q) (n : nat) :
  (inject_Z a <= x)%Q -> (x <= inject_Z b)%Q ->
  (inject_Z a <= PyFloat.round x n)%Q /\ (PyFloat.round x n <= inject_Z b)%Q.
Proof.
  intros Ha Hb. unfold PyFloat.round. rewrite Qred_correct.
  set (k := 10 ^ Z.of_nat n).
  assert (Hk : 0 < k) by (unfold k; apply Z.pow_pos_nonneg; lia).
  pose proof (inject_Z_pos k Hk) as Hkq.
  destruct (round_half_even_between (a * k) (b * k) (x * inject_Z k)) as [H1 H2].
  - rewrite inject_Z_mult. by apply Qmult_le_compat_r; [| apply Qlt_le_weak].
  - rewrite inject_Z_mult. by apply Qmult_le_compat_r; [| apply Qlt_le_weak].
  - rewrite Zle_Qle, inject_Z_mult in H1, H2. split.
    + apply Qle_shift_div_l; done.
    + apply Qle_shift_div_r; done.
Qed.

Lemma query_count_le_length (p : ScanHistory.row -> bool) (rows : list ScanHistory.row) :
  AnalyticsEngine.query_count p rows <= Z.of_nat (length rows).
Proof. pose proof (query_count_filter p rows). lia. Qed.

(** X21. The dashboard is consistent with the log: phishing and safe
    counts are non-negative and add up to the total, the scans of the last
    24 hours are at most the total, the number of users is the number of
    statistics rows, the phishing rate lies between 0 and 100 and is
    within 0.005 of [phishing / total * 100], and on an empty log the
    counts, the rate and both averages are 0 with no division by zero. *)
Theorem dashboard_is_consistent :
  forall (now : Z) (db : Database),
    let d := AppQueries.get_analytics_dashboard now db in
    AppQueries.total_scans d = Z.of_nat (length (scan_history db))
    /\ AppQueries.phishing_detected d + AppQueries.safe_messages d
       = AppQueries.total_scans d
    /\ 0 <= AppQueries.phishing_detected d
    /\ 0 <= AppQueries.safe_messages d
    /\ 0 <= AppQueries.scans_last_24h d <= AppQueries.total_scans d
    /\ AppQueries.total_users d = Z.of_nat (size (user_statistics db))
    /\ (0 <= AppQueries.phishing_rate d)%Q /\ (AppQueries.phishing_rate d <= 100)%Q
    /\ (0 < AppQueries.total_scans d ->
          (AppQueries.phishing_rate d
           - inject_Z (AppQueries.phishing_detected d)
             / inject_Z (AppQueries.total_scans d) * 100 <= 1 # 200)%Q
          /\ (inject_Z (AppQueries.phishing_detected d)
              / inject_Z (AppQueries.total_scans d) * 100
              - AppQueries.phishing_rate d <= 1 # 200)%Q)
    /\ (scan_history db = [] ->
          AppQueries.total_scans d = 0 /\ AppQueries.phishing_rate d = 0%Q
          /\ AppQueries.average_risk_score d = 0%Q
          /\ AppQueries.average_inference_time_ms d = 0%Q
          /\ AppQueries.scans_last_24h d = 0).
Proof.
  intros now db d. unfold d, AppQueries.get_analytics_dashboard.
  cbn [AppQueries.total_scans AppQueries.phishing_detected AppQueries.safe_messages
       AppQueries.scans_last_24h AppQueries.total_users AppQueries.phishing_rate
       AppQueries.average_risk_score AppQueries.average_inference_time_ms].
  set (rows := scan_history db).
  set (total := Z.of_nat (length rows)).
  set (ph := AnalyticsEngine.query_count ScanHistory.is_phishing rows).
  pose proof (query_count_nonneg ScanHistory.is_phishing rows) as Hph0.
  pose proof (query_count_le_length ScanHistory.is_phishing rows) as Hph1.
  fold ph total in Hph0, Hph1.
  split; [done |]. split; [lia |]. split; [done |]. split; [lia |].
  split; [split; [apply query_count_nonneg | apply query_count_le_length] |].
  split; [done |].
  assert (Hrate : 0 < total ->
            (0 <= inject_Z ph / inject_Z total * 100)%Q
            /\ (inject_Z ph / inject_Z total * 100 <= 100)%Q).
  { intros Hpos. pose proof (inject_Z_pos total Hpos) as Ht.
    pose proof (inject_Z_nonneg ph Hph0) as Hp.
    assert (Hle : (inject_Z ph <= inject_Z total)%Q) by (by rewrite <- Zle_Qle).
    assert (H0 : (0 <= inject_Z ph / inject_Z total)%Q).
    { apply Qle_shift_div_l; [done |]. lra. }
    assert (H1 : (inject_Z ph / inject_Z total <= 1)%Q).
    { apply Qle_shift_div_r; [done |]. lra. }
    split; lra. }
  destruct (0 <? total) eqn:Hpos.
  - apply Z.ltb_lt in Hpos. destruct (Hrate Hpos) as [Hr0 Hr1].
    destruct (round_between 0 100 _ 2 Hr0 Hr1) as [Hb0 Hb1].
    split; [exact Hb0 |]. split; [exact Hb1 |].
    split; [intros _; apply round_2_near |].
    intros Hnil. unfold total in Hpos. rewrite Hnil in Hpos. simpl in Hpos. lia.
  - apply Z.ltb_ge in Hpos. split; [lra |]. split; [lra |].
    split; [intros Hlt; lia |].
    intros Hnil. unfold total, rows in *. rewrite Hnil. repeat split; reflexivity.
Qed.

(** ** Queries over the log *)

(** X22. [get_high_risk_scans] returns rows of the log whose score is at
    least the threshold, ordered from the highest score down; with a
    non-negative limit it returns [min(limit, number of such rows)] rows,
    and they are the riskiest: no qualifying row left out has a higher
    score than a returned one.  A negative limit returns all of them. *)
Theorem get_high_risk_scans_returns_the_riskiest :
  forall (threshold : Q) (limit : Z) (rows : list ScanHistory.row),
    let result := DatabaseQueries.get_high_risk_scans threshold limit rows in
    let qualifies r := (threshold <= ScanHistory.risk_score r)%Q in
    (forall r, In r result -> In r rows /\ qualifies r)
    /\ StronglySorted (Sql.desc_float ScanHistory.risk_score) result
    /\ (0 <= limit ->
          Z.of_nat (length result)
          = Z.min limit
              (AnalyticsEngine.query_count
                 (fun r => PyFloat.ge (ScanHistory.risk_score r) threshold) rows))
    /\ (forall r left_out,
          In r result -> In left_out rows -> qualifies left_out ->
          ~ In left_out result ->
          (ScanHistory.risk_score left_out <= ScanHistory.risk_score r)%Q)
    /\ (limit < 0 -> forall r, In r rows -> qualifies r -> In r result).
Proof.
  intros threshold limit rows result qualifies.
  unfold result, DatabaseQueries.get_high_risk_scans.
  set (matching := List.filter _ rows).
  assert (Hmatch : forall r, In r matching <-> In r rows /\ qualifies r).
  { intros r. unfold matching. by rewrite List.filter_In, ge_true. }
  destruct (limited_sorted_query (Sql.desc_float ScanHistory.risk_score) limit matching)
    as (Hsorted & Hin & Hlen & Hall & Htop).
  split; [intros r Hr; by apply Hmatch, Hin |].
  split; [done |]. split; [done |]. split.
  - intros r left_out Hr Hleft Hq Hout.
    apply (Htop r left_out Hr); [by apply Hmatch | done].
  - intros Hneg r Hr Hq.
    apply list_elem_of_In. rewrite (Hall (or_introl Hneg)).
    apply list_elem_of_In. by apply Hmatch.
Qed.

(** X23. [get_recent_scans] returns rows of the log created within the
    last [hours] hours, newest first; with a non-negative limit it returns
    [min(limit, number of such rows)] rows, and no recent row left out is
    newer than a returned one.  A negative limit returns all of them. *)
Theorem get_recent_scans_returns_the_newest :
  forall (now hours limit : Z) (rows : list ScanHistory.row),
    let result := DatabaseQueries.get_recent_scans now hours limit rows in
    let recent r := now - DatabaseQueries.timedelta_hours hours <= ScanHistory.created_at r in
    (forall r, In r result -> In r rows /\ recent r)
    /\ StronglySorted (Sql.desc ScanHistory.created_at) result
    /\ (0 <= limit ->
          Z.of_nat (length result)
          = Z.min limit
              (AnalyticsEngine.query_count
                 (fun r => now - DatabaseQueries.timedelta_hours hours
                           <=? ScanHistory.created_at r) rows))
    /\ (forall r left_out,
          In r result -> In left_out rows -> recent left_out -> ~ In left_out result ->
          ScanHistory.created_at left_out <= ScanHistory.created_at r)
    /\ (limit < 0 -> forall r, In r rows -> recent r -> In r result).
Proof.
  intros now hours limit rows result recent.
  unfold result, DatabaseQueries.get_recent_scans.
  set (matching := List.filter _ rows).
  assert (Hmatch : forall r, In r matching <-> In r rows /\ recent r).
  { intros r. unfold matching. by rewrite List.filter_In, Z.leb_le. }
  destruct (limited_sorted_query (Sql.desc ScanHistory.created_at) limit matching)
    as (Hsorted & Hin & Hlen & Hall & Htop).
  split; [intros r Hr; by apply Hmatch, Hin |].
  split; [done |]. split; [done |]. split.
  - intros r left_out Hr Hleft Hq Hout.
    apply (Htop r left_out Hr); [by apply Hmatch | done].
  - intros Hneg r Hr Hq.
    apply list_elem_of_In. rewrite (Hall (or_introl Hneg)).
    apply list_elem_of_In. by apply Hmatch.
Qed.


(** ** Duplicate detection *)

Lemma filter_NoDup_map {A B : Type} (f : A -> B) (p : A -> bool) (l : list A) :
  NoDup (map f l) -> NoDup (map f (List.filter p l)).
Proof.
  induction l as [|x l IH]; [intros _; constructor |].
  cbn [map List.filter]. intros Hnd. apply NoDup_cons in Hnd as [Hx Hl].
  destruct (p x); [| by apply IH].
  cbn [map]. apply NoDup_cons. split; [| by apply IH].
  intros Hin. apply Hx. apply list_elem_of_In in Hin. apply list_elem_of_In.
  apply in_map_iff in Hin as (y & Hy & Hyin). apply in_map_iff. exists y.
  apply List.filter_In in Hyin. tauto.
Qed.

Section Duplicates.
Import DatabaseQueries.

Lemma group_of_In (h : option string) (rows : list ScanHistory.row) (r : ScanHistory.row) :
  In r (group_of h rows) <-> In r rows /\ ScanHistory.message_hash r = h.
Proof. unfold group_of. by rewrite List.filter_In, bool_decide_eq_true. Qed.

Lemma min_created_at_spec (r0 : ScanHistory.row) (rest : list ScanHistory.row) :
  (forall r, In r (r0 :: rest) -> min_created_at r0 rest <= ScanHistory.created_at r)
  /\ exists r, In r (r0 :: rest) /\ ScanHistory.created_at r = min_created_at r0 rest.
Proof.
  unfold min_created_at. induction rest as [|x rest [IHle (w & Hw & Hmin)]].
  - cbn [map fold_right]. split.
    + intros r [<- | []]. lia.
    + exists r0. split; [by left | done].
  - cbn [map fold_right]. split.
    + intros r [<- | [<- | Hr]].
      * specialize (IHle r0 (or_introl eq_refl)). lia.
      * lia.
      * specialize (IHle r (or_intror Hr)). lia.
    + destruct (Z.le_ge_cases (ScanHistory.created_at x)
                  (fold_right Z.min (ScanHistory.created_at r0)
                     (map ScanHistory.created_at rest))) as [Hx | Hx].
      * exists x. split; [right; by left | lia].
      * exists w. split; [| lia]. destruct Hw as [<- | Hw]; [by left | right; by right].
Qed.

Lemma groups_In (rows : list ScanHistory.row) (grp : DuplicateGroup) :
  In grp (groups rows)
  <-> exists r0 rest,
        group_of (message_hash grp) rows = r0 :: rest
        /\ count grp = Z.of_nat (length (r0 :: rest))
        /\ first_scan grp = min_created_at r0 rest.
Proof.
  unfold groups. rewrite <- list_elem_of_In, list_elem_of_omap. split.
  - intros (h & Hh & Hgrp).
    destruct (group_of h rows) as [|r0 rest] eqn:Hgroup; [discriminate Hgrp |].
    injection Hgrp as <-. cbn [message_hash count first_scan]. by exists r0, rest.
  - intros (r0 & rest & Hgroup & Hcount & Hfirst).
    exists (message_hash grp). split.
    + apply elem_of_remove_dups, list_elem_of_In, in_map_iff.
      exists r0. assert (Hr0 : In r0 (group_of (message_hash grp) rows))
        by (rewrite Hgroup; by left).
      apply group_of_In in Hr0. tauto.
    + rewrite Hgroup. destruct grp as [h c f]. cbn in *. by subst.
Qed.

Lemma groups_hashes_sublist (rows : list ScanHistory.row) (keys : list (option string)) :
  sublist
    (map message_hash
       (omap (fun h =>
                match group_of h rows with
                | [] => None
                | r0 :: rest =>
                    Some {| message_hash := h;
                            count := Z.of_nat (length (r0 :: rest));
                            first_scan := min_created_at r0 rest |}
                end) keys))
    keys.
Proof.
  induction keys as [|h keys IH]; [constructor |].
  cbn [omap list_omap]. destruct (group_of h rows); cbn [map message_hash];
    by constructor.
Qed.

Lemma groups_NoDup (rows : list ScanHistory.row) : NoDup (map message_hash (groups rows)).
Proof.
  eapply sublist_NoDup; [| apply groups_hashes_sublist].
  apply NoDup_remove_dups.
Qed.

End Duplicates.

(** X25. [get_duplicate_scans] reports groups of two or more scans with
    the same fingerprint (among the user's scans when a non-empty user id
    is given): each reported count is the number of such scans, the
    reported first date is the earliest of their dates, no fingerprint is
    reported twice, the groups are ordered from the largest down, and with
    a negative limit every fingerprint carried by two or more scans is
    reported. *)
Theorem get_duplicate_scans_reports_groups :
  forall (user_id : option string) (limit : Z) (rows : list ScanHistory.row),
    let query :=
      if PyStr.truthy user_id
      then TestSystem.filter_by_user_id (default "" user_id) rows else rows in
    let result := DatabaseQueries.get_duplicate_scans user_id limit rows in
    let same_hash h := DatabaseQueries.group_of h query in
    (forall grp, In grp result ->
       2 <= DatabaseQueries.count grp
       /\ DatabaseQueries.count grp
          = Z.of_nat (length (same_hash (DatabaseQueries.message_hash grp)))
       /\ (forall r, In r (same_hash (DatabaseQueries.message_hash grp)) ->
             DatabaseQueries.first_scan grp <= ScanHistory.created_at r)
       /\ (exists r, In r (same_hash (DatabaseQueries.message_hash grp))
             /\ ScanHistory.created_at r = DatabaseQueries.first_scan grp))
    /\ NoDup (map DatabaseQueries.message_hash result)
    /\ StronglySorted (Sql.desc DatabaseQueries.count) result
    /\ (limit < 0 ->
          forall h, (2 <= length (same_hash h))%nat ->
                    exists grp, In grp result /\ DatabaseQueries.message_hash grp = h).
Proof.
  intros user_id limit rows query result same_hash.
  unfold result, DatabaseQueries.get_duplicate_scans. fold query.
  set (dups := List.filter _ (DatabaseQueries.groups query)).
  destruct (limited_sorted_query (Sql.desc DatabaseQueries.count) limit dups)
    as (Hsorted & Hin & _ & Hall & _).
  assert (Hdups : forall grp, In grp dups <->
            In grp (DatabaseQueries.groups query) /\ 1 < DatabaseQueries.count grp).
  { intros grp. unfold dups. by rewrite List.filter_In, Z.ltb_lt. }
  split; [| split; [| split; [done |]]].
  - intros grp Hgrp. apply Hin, Hdups in Hgrp as [Hgrp Hcount].
    apply groups_In in Hgrp as (r0 & rest & Hgroup & Hlen & Hfirst).
    unfold same_hash. rewrite Hgroup, Hfirst.
    destruct (min_created_at_spec r0 rest) as [Hle Hmin].
    split; [lia |]. split; [done |]. split; done.
  - assert (Hnd : NoDup (map DatabaseQueries.message_hash dups)).
    { unfold dups. apply filter_NoDup_map, groups_NoDup. }
    apply (sublist_NoDup _ (map DatabaseQueries.message_hash
                              (merge_sort (Sql.desc DatabaseQueries.count) dups))).
    + by rewrite (merge_sort_Permutation _ dups).
    + apply fmap_sublist, limit_sublist.
  - intros Hneg h Hlen.
    destruct (same_hash h) as [|r0 rest] eqn:Hgroup; [simpl in Hlen; lia |].
    exists {| DatabaseQueries.message_hash := h;
              DatabaseQueries.count := Z.of_nat (length (r0 :: rest));
              DatabaseQueries.first_scan := DatabaseQueries.min_created_at r0 rest |}.
    split; [| done]. apply list_elem_of_In. rewrite (Hall (or_introl Hneg)).
    apply list_elem_of_In, Hdups. split.
    + apply groups_In. by exists r0, rest.
    + cbn [DatabaseQueries.count]. lia.
Qed.

(** Every fingerprint carried by two or more rows is in the unfiltered,
    unlimited duplicate report. *)
Lemma get_duplicate_scans_reports_groups_complete (rows : list ScanHistory.row)
    (h : option string) :
  (2 <= length (DatabaseQueries.group_of h rows))%nat ->
  exists grp,
    In grp (DatabaseQueries.get_duplicate_scans None (-1) rows)
    /\ DatabaseQueries.message_hash grp = h
    /\ 2 <= DatabaseQueries.count grp.
Proof.
  intros Hlen. unfold DatabaseQueries.get_duplicate_scans.
  cbn [PyStr.truthy Sql.limit Z.ltb Z.compare].
  destruct (DatabaseQueries.group_of h rows) as [|r0 rest] eqn:Hgroup;
    [simpl in Hlen; lia |].
  exists {| DatabaseQueries.message_hash := h;
            DatabaseQueries.count := Z.of_nat (length (r0 :: rest));
            DatabaseQueries.first_scan := DatabaseQueries.min_created_at r0 rest |}.
  split; [| split; [done | cbn [DatabaseQueries.count]; lia]].
  apply (merge_sort_In _), List.filter_In. split.
  - apply groups_In. by exists r0, rest.
  - cbn [DatabaseQueries.count]. apply Z.ltb_lt. lia.
Qed.

(** X26. Scanning a text twice makes it a reported duplicate: after two
    successful scan requests whose messages are the same once stripped,
    the duplicate report over the whole log (no user filter, no limit)
    lists the fingerprint of the stripped text with a count of at least
    two. *)
Theorem repeated_scan_is_reported_duplicate :
  forall (Features : Type) (sha : string -> string) (g : App.Globals Features)
         (req1 req2 : App.ScanRequest) (db : Database)
         (data1 data2 : App.ScanJson) (raw1 raw2 : string),
    App.scan_json req1 = Some data1 -> App.message data1 = Some raw1 ->
    App.scan_json req2 = Some data2 -> App.message data2 = Some raw2 ->
    PyStr.strip raw1 = PyStr.strip raw2 ->
    PyStr.strip raw1 <> "" ->
    let db2 := snd (App.scan_message sha g req2 (snd (App.scan_message sha g req1 db))) in
    exists grp,
      In grp (DatabaseQueries.get_duplicate_scans None (-1) (scan_history db2))
      /\ DatabaseQueries.message_hash grp = Some (App.hash_message sha (PyStr.strip raw1))
      /\ 2 <= DatabaseQueries.count grp.
Proof.
  intros Features sha g req1 req2 db data1 data2 raw1 raw2
    Hd1 Hm1 Hd2 Hm2 Hsame Hne db2.
  destruct (scan_message_record sha g req1 db data1 raw1 Hd1 Hm1 Hne)
    as (rec1 & Hrows1 & _ & Hhash1 & _).
  destruct (scan_message_record sha g req2 (snd (App.scan_message sha g req1 db))
              data2 raw2 Hd2 Hm2) as (rec2 & Hrows2 & _ & Hhash2 & _);
    [by rewrite <- Hsame |].
  fold db2 in Hrows2. rewrite Hrows1 in Hrows2. rewrite <- Hsame in Hhash2.
  set (h := Some (sha (PyStr.strip raw1))) in *.
  destruct (get_duplicate_scans_reports_groups_complete (scan_history db2) h)
    as (grp & Hgrp & Hh & Hcount).
  { rewrite Hrows2. unfold DatabaseQueries.group_of.
    rewrite !List.filter_app, !length_app. cbn [List.filter].
    rewrite !bool_decide_eq_true_2 by done. cbn [length]. lia. }
  exists grp. split; [done |]. split; [done | lia].
Qed.

Lemma repeated_scan_is_reported_duplicate_witness :
  let db2 :=
    snd (App.scan_message (fun s => s) Sample.heuristic_only
           (Sample.scan_request "Click here  " None)
           (snd (App.scan_message (fun s => s) Sample.heuristic_only
                   (Sample.scan_request "  Click here" (Some "bob")) Sample.database))) in
  exists grp,
    In grp (DatabaseQueries.get_duplicate_scans None (-1) (scan_history db2))
    /\ DatabaseQueries.message_hash grp = Some "Click here"
    /\ 2 <= DatabaseQueries.count grp.
Proof.
  apply (repeated_scan_is_reported_duplicate unit (fun s => s) Sample.heuristic_only
           (Sample.scan_request "  Click here" (Some "bob"))
           (Sample.scan_request "Click here  " None) Sample.database
           {| App.message := Some "  Click here"; App.user_id := Some "bob";
              App.device_id := None |}
           {| App.message := Some "Click here  "; App.user_id := None;
              App.device_id := None |} "  Click here" "Click here  ").
  - reflexivity.
  - reflexivity.
  - reflexivity.
  - reflexivity.
  - reflexivity.
  - discriminate.
Defined.

(** ** Inference time and top users *)

Lemma fold_min_spec (x : Z) (rest : list Z) :
  (forall y, In y (x :: rest) -> fold_right Z.min x rest <= y)
  /\ In (fold_right Z.min x rest) (x :: rest).
Proof.
  induction rest as [|z rest [IHle IHin]]; cbn [fold_right].
  - split; [intros y [<- | []]; lia | by left].
  - split.
    + intros y [<- | [<- | Hy]].
      * specialize (IHle x (or_introl eq_refl)). lia.
      * lia.
      * specialize (IHle y (or_intror Hy)). lia.
    + destruct (Z.min_spec z (fold_right Z.min x rest)) as [[_ ->] | [_ ->]].
      * right. by left.
      * destruct IHin as [<- | Hin]; [by left | right; by right].
Qed.

Lemma fold_max_spec (x : Z) (rest : list Z) :
  (forall y, In y (x :: rest) -> y <= fold_right Z.max x rest)
  /\ In (fold_right Z.max x rest) (x :: rest).
Proof.
  induction rest as [|z rest [IHle IHin]]; cbn [fold_right].
  - split; [intros y [<- | []]; lia | by left].
  - split.
    + intros y [<- | [<- | Hy]].
      * specialize (IHle x (or_introl eq_refl)). lia.
      * lia.
      * specialize (IHle y (or_intror Hy)). lia.
    + destruct (Z.max_spec z (fold_right Z.max x rest)) as [[_ ->] | [_ ->]].
      * destruct IHin as [<- | Hin]; [by left | right; by right].
      * right. by left.
Qed.

(** The mean of integers lies between any two bounds of them. *)
Lemma mean_between (lo hi : Z) (xs : list Z) :
  xs <> [] ->
  (forall y, In y xs -> lo <= y <= hi) ->
  (inject_Z lo
   <= fold_right Qplus 0 (map inject_Z xs) / inject_Z (Z.of_nat (length xs)))%Q
  /\ (fold_right Qplus 0 (map inject_Z xs) / inject_Z (Z.of_nat (length xs))
      <= inject_Z hi)%Q.
Proof.
  intros Hne Hb.
  assert (Hsum : (inject_Z lo * inject_Z (Z.of_nat (length xs))
                  <= fold_right Qplus 0 (map inject_Z xs))%Q
                 /\ (fold_right Qplus 0 (map inject_Z xs)
                     <= inject_Z hi * inject_Z (Z.of_nat (length xs)))%Q).
  { clear Hne. induction xs as [|x xs IH].
    - cbn [map fold_right length]. change (inject_Z (Z.of_nat 0)) with 0%Q.
      split; lra.
    - cbn [map fold_right length]. rewrite Nat2Z.inj_succ, <- Z.add_1_r, inject_Z_plus.
      change (inject_Z 1) with 1%Q.
      destruct IH as [IH1 IH2]; [intros y Hy; apply Hb; by right |].
      destruct (Hb x (or_introl eq_refl)) as [Hx1 Hx2].
      rewrite Zle_Qle in Hx1, Hx2. split; lra. }
  assert (Hn : (0 < inject_Z (Z.of_nat (length xs)))%Q).
  { apply inject_Z_pos. destruct xs; [done | simpl; lia]. }
  destruct Hsum as [H1 H2]. split.
  - apply Qle_shift_div_l; done.
  - apply Qle_shift_div_r; done.
Qed.

(** X27. [calculate_average_inference_time] counts the rows that carry an
    inference time.  When there are none, minimum, maximum and average are
    all missing.  Otherwise the minimum and the maximum are inference times
    of the log that bound all the others, and the average, when reported,
    lies between them; the average is reported as missing exactly when the
    times add up to zero (all of them 0, say), although rows were
    counted. *)
Theorem inference_time_statistics :
  forall (rows : list ScanHistory.row),
    let times := omap ScanHistory.prediction_time_ms rows in
    let stats := Analytics.calculate_average_inference_time rows in
    Analytics.total_predictions stats = Z.of_nat (length times)
    /\ (times = [] ->
          Analytics.average_ms stats = None /\ Analytics.min_ms stats = None
          /\ Analytics.max_ms stats = None)
    /\ (times <> [] ->
          exists lo hi,
            Analytics.min_ms stats = Some lo /\ Analytics.max_ms stats = Some hi
            /\ In lo times /\ In hi times
            /\ (forall t, In t times -> lo <= t <= hi)
            /\ (forall a, Analytics.average_ms stats = Some a ->
                          (inject_Z lo <= a)%Q /\ (a <= inject_Z hi)%Q)
            /\ (Analytics.average_ms stats = None
                <-> (fold_right Qplus 0 (map inject_Z times) == 0)%Q)).
Proof.
  intros rows times stats. unfold stats, Analytics.calculate_average_inference_time.
  fold times.
  cbn [Analytics.total_predictions Analytics.average_ms Analytics.min_ms Analytics.max_ms].
  split; [done |]. split; [by intros -> |].
  intros Hne. destruct times as [|t0 rest] eqn:Htimes; [done |].
  cbn [Analytics.sql_min Analytics.sql_max].
  destruct (fold_min_spec t0 rest) as [Hmin_le Hmin_in].
  destruct (fold_max_spec t0 rest) as [Hmax_le Hmax_in].
  exists (fold_right Z.min t0 rest), (fold_right Z.max t0 rest).
  split; [done |]. split; [done |]. split; [done |]. split; [done |].
  split; [intros t Ht; split; [by apply Hmin_le | by apply Hmax_le] |].
  assert (Hmean := mean_between (fold_right Z.min t0 rest) (fold_right Z.max t0 rest)
                     (t0 :: rest) Hne
                     (fun t Ht => conj (Hmin_le t Ht) (Hmax_le t Ht))).
  unfold AppQueries.sql_avg. cbn [map].
  set (avg := (fold_right Qplus 0 (inject_Z t0 :: map inject_Z rest)
               / inject_Z (Z.of_nat (length (inject_Z t0 :: map inject_Z rest))))%Q).
  assert (Havg : (avg == fold_right Qplus 0 (map inject_Z (t0 :: rest))
                         / inject_Z (Z.of_nat (length (t0 :: rest))))%Q).
  { unfold avg. cbn [map length]. by rewrite length_map. }
  rewrite <- Havg in Hmean.
  unfold ModelMetrics.rounded_if_truthy, ModelMetrics.truthy_float.
  cbn [from_option id].
  assert (Hn : (0 < inject_Z (Z.of_nat (length (t0 :: rest))))%Q).
  { apply inject_Z_pos. simpl. lia. }
  destruct (Qeq_bool avg 0) eqn:Hzero; cbn [negb].
  - apply Qeq_bool_iff in Hzero. split; [intros a Ha; discriminate Ha |].
    split; [intros _ | done].
    rewrite Havg in Hzero. cbn [map] in Hzero |- *.
    apply (Qmult_inj_r _ _ (/ inject_Z (Z.of_nat (length (t0 :: rest)))));
      [apply Qinv_lt_0_compat in Hn; lra |].
    rewrite Qmult_0_l. exact Hzero.
  - split.
    + intros a [= <-]. destruct Hmean as [H1 H2]. by apply round_between.
    + split; [intros Hnone; discriminate Hnone |].
      intros Hsum. exfalso.
      assert (Hz : (avg == 0)%Q).
      { rewrite Havg. cbn [map] in Hsum |- *. rewrite Hsum. unfold Qdiv. ring. }
      apply Qeq_bool_iff in Hz. congruence.
Qed.

(** X28. On the statistics table of a running system (any sequence of
    operations on the empty database), [get_top_users_by_scans] lists
    stored rows, each under its own user id and no user twice, ordered
    from the most scans down; with a non-negative limit it returns
    [min(limit, number of users)] rows, and no user left out has more
    scans than a listed one. *)
Theorem top_users_are_the_most_active :
  forall (Features : Type) (sha : string -> string) (g : App.Globals Features)
         (ops : list Core.Operation) (limit : Z),
    let tbl := user_statistics (Core.run sha g ops empty_database) in
    let result := Analytics.get_top_users_by_scans limit tbl in
    (forall st, In st result -> tbl !! UserStatistics.user_id st = Some st)
    /\ NoDup (map UserStatistics.user_id result)
    /\ StronglySorted (Sql.desc UserStatistics.total_scans) result
    /\ (0 <= limit -> Z.of_nat (length result) = Z.min limit (Z.of_nat (size tbl)))
    /\ (forall st u left_out,
          In st result -> tbl !! u = Some left_out -> ~ In left_out result ->
          UserStatistics.total_scans left_out <= UserStatistics.total_scans st).
Proof.
  intros Features sha g ops limit tbl result.
  pose proof (run_table_tracked sha g ops) as Htracked. fold tbl in Htracked.
  unfold result, Analytics.get_top_users_by_scans.
  set (rows := map snd (map_to_list tbl)).
  assert (Hrows : forall st, In st rows <-> exists u, tbl !! u = Some st).
  { intros st. unfold rows. rewrite in_map_iff. split.
    - intros ([u st'] & <- & Hin). exists u.
      by apply list_elem_of_In, elem_of_map_to_list in Hin.
    - intros (u & Hu). exists (u, st). split; [done |].
      by apply list_elem_of_In, elem_of_map_to_list. }
  assert (Hids : map UserStatistics.user_id rows = map fst (map_to_list tbl)).
  { unfold rows. rewrite map_map. apply map_ext_in. intros [u st] Hin.
    apply list_elem_of_In, elem_of_map_to_list in Hin.
    by destruct (Htracked u st Hin) as (_ & Hid & _). }
  destruct (limited_sorted_query (Sql.desc UserStatistics.total_scans) limit rows)
    as (Hsorted & Hin & Hlen & _ & Htop).
  split; [| split; [| split; [done | split]]].
  - intros st Hst. apply Hin, Hrows in Hst as (u & Hu).
    destruct (Htracked u st Hu) as (_ & Hid & _). by rewrite Hid.
  - apply (sublist_NoDup _ (map UserStatistics.user_id
                              (merge_sort (Sql.desc UserStatistics.total_scans) rows))).
    + rewrite (merge_sort_Permutation _ rows), Hids. apply NoDup_fst_map_to_list.
    + apply fmap_sublist, limit_sublist.
  - intros Hlimit. rewrite (Hlen Hlimit). unfold rows.
    by rewrite length_map, length_map_to_list.
  - intros st u left_out Hst Hleft Hout.
    apply (Htop st left_out Hst); [| done]. apply Hrows. by exists u.
Qed.

(** ** Daily trends *)

#[global] Instance asc_total {A : Type} (key : A -> Z) : Total (Sql.asc key).
Proof. intros a b. unfold Sql.asc. lia. Qed.

#[global] Instance asc_transitive {A : Type} (key : A -> Z) : Transitive (Sql.asc key).
Proof. intros a b c. unfold Sql.asc. lia. Qed.

(** A sorted list of distinct integers is strictly ascending. *)
Lemma sorted_NoDup_strict (l : list Z) :
  StronglySorted (Sql.asc id) l -> NoDup l -> StronglySorted Z.lt l.
Proof.
  induction 1 as [|x l Hsorted IH Hall]; intros Hnd; [constructor |].
  apply NoDup_cons in Hnd as [Hx Hl]. constructor; [by apply IH |].
  rewrite Forall_forall in Hall |- *. intros y Hy.
  specialize (Hall y Hy). unfold Sql.asc, id in Hall.
  assert (x <> y) by (intros ->; by apply Hx, list_elem_of_In).
  lia.
Qed.

Lemma filter_filter_andb {A : Type} (p q : A -> bool) (l : list A) :
  List.filter p (List.filter q l) = List.filter (fun x => q x && p x) l.
Proof.
  induction l as [|x l IH]; [done |].
  cbn [List.filter]. destruct (q x); cbn [List.filter andb]; [| done].
  destruct (p x); by rewrite IH.
Qed.

(** Counting the 1s of a cast column counts the rows where it is true. *)
Lemma sql_sum_cast (p : ScanHistory.row -> bool) (rows : list ScanHistory.row) :
  Reports.sql_sum (map (fun r => Reports.cast_integer (p r)) rows)
  = Z.of_nat (length (List.filter p rows)).
Proof.
  unfold Reports.sql_sum. induction rows as [|r rows IH]; [done |].
  cbn [map fold_right List.filter]. rewrite IH.
  destruct (p r); cbn [Reports.cast_integer length]; lia.
Qed.

(** Groups by distinct keys that cover all rows partition the rows. *)
Lemma group_sizes_add_up (keys : list Z) (rows : list ScanHistory.row) :
  NoDup keys ->
  (forall r, In r rows -> In (Reports.sql_date (ScanHistory.created_at r)) keys) ->
  Reports.sql_sum (map (fun d => Z.of_nat (length (Reports.on_date d rows))) keys)
  = Z.of_nat (length rows).
Proof.
  intros Hnd. revert rows. unfold Reports.sql_sum.
  induction Hnd as [|d keys Hd Hnd IH]; intros rows Hcover.
  - destruct rows as [|r rows]; [done |]. destruct (Hcover r (or_introl eq_refl)).
  - cbn [map fold_right].
    set (others := List.filter
                     (fun r => negb (Reports.sql_date (ScanHistory.created_at r) =? d)) rows).
    assert (Hsame : forall k, In k keys ->
              Reports.on_date k others = Reports.on_date k rows).
    { intros k Hk. unfold Reports.on_date, others. rewrite filter_filter_andb.
      apply filter_ext. intros r.
      destruct (Reports.sql_date (ScanHistory.created_at r) =? d) eqn:Hrd; [| done].
      apply Z.eqb_eq in Hrd. cbn [negb andb]. symmetry. apply Z.eqb_neq.
      intros Heq. apply Hd. rewrite <- Hrd, Heq. by apply list_elem_of_In. }
    assert (Hmap : map (fun k => Z.of_nat (length (Reports.on_date k rows))) keys
                   = map (fun k => Z.of_nat (length (Reports.on_date k others))) keys).
    { apply map_ext_in. intros k Hk. by rewrite Hsame. }
    rewrite Hmap, IH.
    + pose proof (query_count_filter
                    (fun r => Reports.sql_date (ScanHistory.created_at r) =? d) rows) as Hsplit.
      unfold AnalyticsEngine.query_count in Hsplit. fold others in Hsplit.
      unfold Reports.on_date. lia.
    + intros r Hr. unfold others in Hr. apply List.filter_In in Hr as [Hr Hnot].
      destruct (Hcover r Hr) as [Heq | Hin]; [| done].
      apply negb_true_iff, Z.eqb_neq in Hnot. congruence.
Qed.

Lemma sorted_map_key {A : Type} (f : Z -> A) (key : A -> Z) (l : list Z) :
  (forall d, key (f d) = d) ->
  StronglySorted Z.lt l -> StronglySorted (fun a b => key a < key b) (map f l).
Proof.
  intros Hkey. induction 1 as [|d l Hsorted IH Hall]; [constructor |].
  cbn [map]. constructor; [done |].
  apply List.Forall_forall. intros t Ht.
  apply in_map_iff in Ht as (d' & <- & Hd'). rewrite !Hkey.
  by apply (proj1 (List.Forall_forall _ _) Hall).
Qed.

(** X29. [calculate_phishing_trends] splits the scans since the cutoff by
    calendar day: the days come in strictly ascending order, each with at
    least one scan; a day's total and phishing count are the numbers of
    recent scans, and of recent phishing scans, of that day, so the
    phishing count never exceeds the total and the rate lies between 0 and
    100; every recent scan falls on a reported day, and the totals add up
    to the number of scans since the cutoff. *)
Theorem phishing_trends_partition_recent_scans :
  forall (now days : Z) (rows : list ScanHistory.row),
    let cutoff := now - DataManagement.timedelta_days days in
    let recent_on d r :=
      (cutoff <=? ScanHistory.created_at r)
      && (Reports.sql_date (ScanHistory.created_at r) =? d) in
    let result := Reports.calculate_phishing_trends now days rows in
    StronglySorted (fun a b => Reports.date a < Reports.date b) result
    /\ (forall t, In t result ->
          Reports.total_scans t
          = AnalyticsEngine.query_count (recent_on (Reports.date t)) rows
          /\ Reports.phishing_count t
             = AnalyticsEngine.query_count
                 (fun r => recent_on (Reports.date t) r && ScanHistory.is_phishing r) rows
          /\ 1 <= Reports.total_scans t
          /\ 0 <= Reports.phishing_count t <= Reports.total_scans t
          /\ (0 <= Reports.phishing_rate t)%Q /\ (Reports.phishing_rate t <= 100)%Q)
    /\ (forall r, In r rows -> cutoff <= ScanHistory.created_at r ->
          exists t, In t result
                    /\ Reports.date t = Reports.sql_date (ScanHistory.created_at r))
    /\ Reports.sql_sum (map Reports.total_scans result)
       = AnalyticsEngine.query_count (fun r => cutoff <=? ScanHistory.created_at r) rows.
Proof.
  intros now days rows cutoff recent_on result.
  unfold result, Reports.calculate_phishing_trends. fold cutoff.
  set (recent := List.filter (fun r => cutoff <=? ScanHistory.created_at r) rows).
  set (dates := remove_dups (map (fun r => Reports.sql_date (ScanHistory.created_at r)) recent)).
  set (scan_dates := merge_sort (Sql.asc id) dates).
  set (trend := fun d : Z => _).
  assert (Hdate : forall d, Reports.date (trend d) = d) by done.
  assert (Hperm : scan_dates ≡ₚ dates) by apply merge_sort_Permutation.
  assert (Hnd : NoDup scan_dates) by (rewrite Hperm; apply NoDup_remove_dups).
  assert (Hdates : forall d, In d scan_dates <->
            exists r, In r recent /\ Reports.sql_date (ScanHistory.created_at r) = d).
  { intros d. rewrite <- list_elem_of_In, Hperm. unfold dates.
    rewrite elem_of_remove_dups, list_elem_of_In, in_map_iff.
    split; intros (r & H1 & H2); exists r; done. }
  assert (Hgroup : forall d, Reports.on_date d recent = List.filter (recent_on d) rows).
  { intros d. unfold Reports.on_date, recent. apply filter_filter_andb. }
  split; [| split; [| split]].
  - assert (Hstrict : StronglySorted Z.lt scan_dates).
    { apply sorted_NoDup_strict; [apply StronglySorted_merge_sort; apply _ | done]. }
    by apply sorted_map_key.
  - intros t Ht. apply in_map_iff in Ht as (d & <- & Hd). rewrite Hdate.
    unfold trend.
    cbn [Reports.total_scans Reports.phishing_count Reports.phishing_rate].
    rewrite !Hgroup, sql_sum_cast, filter_filter_andb.
    set (total := Z.of_nat (length (List.filter (recent_on d) rows))).
    set (phishing := Z.of_nat (length (List.filter
                       (fun r => recent_on d r && ScanHistory.is_phishing r) rows))).
    assert (Htotal : 1 <= total).
    { apply Hdates in Hd as (r & Hr & Hrd).
      assert (Hin : In r (List.filter (recent_on d) rows)).
      { rewrite <- Hgroup. unfold Reports.on_date. apply List.filter_In.
        split; [done | by apply Z.eqb_eq]. }
      unfold total. destruct (List.filter (recent_on d) rows); [destruct Hin |].
      cbn [length]. lia. }
    assert (Hle : 0 <= phishing <= total).
    { split; [unfold phishing; lia |].
      assert (Hfilter : List.filter (fun r => recent_on d r && ScanHistory.is_phishing r) rows
                        = List.filter ScanHistory.is_phishing
                            (List.filter (recent_on d) rows))
        by (symmetry; apply filter_filter_andb).
      unfold phishing, total. rewrite Hfilter.
      pose proof (query_count_le_length ScanHistory.is_phishing
                    (List.filter (recent_on d) rows)) as Hc.
      unfold AnalyticsEngine.query_count in Hc. exact Hc. }
    split; [done |]. split; [done |]. split; [done |]. split; [done |].
    apply (round_between 0 100).
    + pose proof (inject_Z_pos total ltac:(lia)) as Hpos.
      pose proof (inject_Z_nonneg phishing ltac:(lia)) as Hnn.
      change (inject_Z 0) with 0%Q.
      apply Qmult_le_0_compat; [| lra].
      apply Qle_shift_div_l; [done | lra].
    + pose proof (inject_Z_pos total ltac:(lia)) as Hpos.
      assert (Hratio : (inject_Z phishing / inject_Z total <= 1)%Q).
      { apply Qle_shift_div_r; [done |]. rewrite Qmult_1_l. rewrite <- Zle_Qle. lia. }
      change (inject_Z 100) with 100%Q. lra.
  - intros r Hr Hrecent.
    exists (trend (Reports.sql_date (ScanHistory.created_at r))).
    split; [| done]. apply in_map, Hdates. exists r. split; [| done].
    unfold recent. apply List.filter_In. split; [done | by apply Z.leb_le].
  - rewrite map_map.
    assert (Hmap : map (fun d => Reports.total_scans (trend d)) scan_dates
                   = map (fun d => Z.of_nat (length (Reports.on_date d recent))) scan_dates)
      by done.
    rewrite Hmap, group_sizes_add_up; [done | done |].
    intros r Hr. apply Hdates. by exists r.
Qed.

(** ** Scans with feedback *)

#[global] Instance desc_nullable_total {A : Type} (key : A -> option Z) :
  Total (Sql.desc_nullable key).
Proof.
  intros a b. unfold Sql.desc_nullable.
  destruct (key a) as [x|], (key b) as [y|]; try (by left); try (by right).
  destruct (Z.le_ge_cases x y); [by right | by left].
Qed.

#[global] Instance desc_nullable_transitive {A : Type} (key : A -> option Z) :
  Transitive (Sql.desc_nullable key).
Proof.
  intros a b c. unfold Sql.desc_nullable.
  destruct (key a) as [x|], (key b) as [y|], (key c) as [z|]; try done. lia.
Qed.

Lemma feedback_is_spec (kind : string) (r : ScanHistory.row) :
  AnalyticsEngine.feedback_is kind r = true <-> ScanHistory.user_feedback r = Some kind.
Proof.
  unfold AnalyticsEngine.feedback_is.
  destruct (ScanHistory.user_feedback r) as [fb|]; [| done].
  rewrite String.eqb_eq. split; [by intros -> | by intros [= ->]].
Qed.

Lemma filter_implied {A : Type} (p q : A -> bool) (l : list A) :
  (forall x, q x = true -> p x = true) ->
  List.filter q (List.filter p l) = List.filter q l.
Proof.
  intros Hqp. rewrite filter_filter_andb. apply filter_ext. intros x.
  destruct (q x) eqn:Hq; [by rewrite (Hqp x Hq) | by rewrite andb_false_r].
Qed.

(** X30. [get_scans_with_feedback] returns exactly the scans of the log
    that carry feedback (of the given kind, when a non-empty kind is
    given; an empty kind selects the same as no kind), none more often
    than it is in the log, latest feedback first.  Its answers agree with
    the accuracy report: the number of scans returned without a kind is
    the report's [total_feedback], and the numbers returned for CORRECT
    and INCORRECT are the report's counts whenever it gives them. *)
Theorem scans_with_feedback_agree_with_accuracy_report :
  forall (feedback_type : option string) (rows : list ScanHistory.row),
    let result := Reports.get_scans_with_feedback feedback_type rows in
    let report := AnalyticsEngine.get_model_accuracy_from_feedback rows in
    let returned kind := Z.of_nat (length (Reports.get_scans_with_feedback kind rows)) in
    (forall r, In r result <->
       In r rows
       /\ exists fb, ScanHistory.user_feedback r = Some fb
                     /\ (PyStr.truthy feedback_type = true -> feedback_type = Some fb))
    /\ (exists selected, sublist selected rows /\ result ≡ₚ selected)
    /\ StronglySorted (Sql.desc_nullable ScanHistory.feedback_timestamp) result
    /\ Reports.get_scans_with_feedback (Some "") rows
       = Reports.get_scans_with_feedback None rows
    /\ returned None = AnalyticsEngine.total_feedback report
    /\ (forall c, AnalyticsEngine.correct_predictions report = Some c ->
                  returned (Some "CORRECT") = c)
    /\ (forall c, AnalyticsEngine.incorrect_predictions report = Some c ->
                  returned (Some "INCORRECT") = c).
Proof.
  intros feedback_type rows result report returned.
  assert (Hkind : forall kind, kind <> "" ->
            returned (Some kind)
            = AnalyticsEngine.query_count (AnalyticsEngine.feedback_is kind) rows).
  { intros kind Hne. unfold returned, Reports.get_scans_with_feedback, PyStr.truthy.
    apply String.eqb_neq in Hne. rewrite Hne. cbn [negb from_option id].
    rewrite merge_sort_length, filter_implied; [done |].
    intros r. apply feedback_is_has_feedback. }
  assert (Hnone : returned None
                  = AnalyticsEngine.query_count AnalyticsEngine.has_feedback rows).
  { unfold returned, Reports.get_scans_with_feedback. cbn [PyStr.truthy].
    by rewrite merge_sort_length. }
  split; [| split; [| split; [| split; [| split; [| split]]]]].
  - intros r. unfold result, Reports.get_scans_with_feedback.
    rewrite merge_sort_In.
    assert (Hhas : AnalyticsEngine.has_feedback r = true
                   <-> exists fb, ScanHistory.user_feedback r = Some fb).
    { unfold AnalyticsEngine.has_feedback.
      destruct (ScanHistory.user_feedback r) as [fb|].
      - split; [by exists fb | done].
      - split; [done | intros [fb Hfb]; discriminate Hfb]. }
    destruct (PyStr.truthy feedback_type) eqn:Htruthy.
    + destruct feedback_type as [kind|]; [| discriminate Htruthy].
      cbn [from_option id]. rewrite !List.filter_In, feedback_is_spec. split.
      * intros [[Hr _] Hfb]. split; [done |]. exists kind. by split.
      * intros [Hr (fb & Hfb & Hsame)]. specialize (Hsame eq_refl).
        injection Hsame as ->. split; [| done]. split; [done |].
        apply Hhas. by exists fb.
    + rewrite List.filter_In, Hhas. split.
      * intros [Hr [fb Hfb]]. split; [done |]. exists fb. split; [done |].
        intros Hfalse; discriminate Hfalse.
      * intros [Hr (fb & Hfb & _)]. split; [done |]. by exists fb.
  - unfold result, Reports.get_scans_with_feedback.
    destruct (PyStr.truthy feedback_type).
    + eexists. split; [| apply merge_sort_Permutation].
      etrans; apply filter_sublist.
    + eexists. split; [| apply merge_sort_Permutation]. apply filter_sublist.
  - unfold result, Reports.get_scans_with_feedback.
    apply StronglySorted_merge_sort; apply _.
  - done.
  - rewrite Hnone. unfold report, AnalyticsEngine.get_model_accuracy_from_feedback.
    destruct (AnalyticsEngine.query_count AnalyticsEngine.has_feedback rows =? 0) eqn:Hz.
    + apply Z.eqb_eq in Hz. by rewrite Hz.
    + done.
  - intros c. rewrite (Hkind "CORRECT"); [| discriminate].
    unfold report, AnalyticsEngine.get_model_accuracy_from_feedback.
    destruct (AnalyticsEngine.query_count AnalyticsEngine.has_feedback rows =? 0).
    + intros Hc; discriminate Hc.
    + cbn [AnalyticsEngine.correct_predictions]. by intros [= <-].
  - intros c. rewrite (Hkind "INCORRECT"); [| discriminate].
    unfold report, AnalyticsEngine.get_model_accuracy_from_feedback.
    destruct (AnalyticsEngine.query_count AnalyticsEngine.has_feedback rows =? 0).
    + intros Hc; discriminate Hc.
    + cbn [AnalyticsEngine.incorrect_predictions]. by intros [= <-].
Qed.
